(** * Request normalisation, polling and result extraction of the
      Replicate playground proxy

    A shallow embedding of the Express server ([server.js]: the
    [/api/predictions] and [/api/refine] handlers, [createAndPollPrediction],
    [extractTextOutput]) and of the browser helpers [normalizeImageValue],
    [extractImageUrl], [computeGcd], [normalizeAspect] and the download name
    ([public/app.js]), followed by the properties proved about them.

    Conventions of the embedding.
    - A JavaScript value that came out of [JSON.parse] (or is [undefined]) is
      a [Js.Value].  Objects are the ordered list of their own properties.
    - A number is carried as the text [ToString] gives it (["15"], ["0.5"],
      ["1e+21"]): the program reads numbers of a request or of a prediction
      only through [ToString] ([Number.parseInt], template literals,
      [new Error(...)], [JSON.stringify]), through [typeof] and through
      their truthiness, and all three are functions of that text.
    - Strings are sequences of code units below 256 (the Latin-1 range,
      which is what the 8-bit characters of [string] hold).  On them the
      white space class and the lower-case map are JavaScript's own; the
      upper-case map, which leaves the range for three characters, yields
      code units.
    - [null] results are [None]; a thrown exception is [Threw].
    - The network, the clock and the timers are an explicit [World] driven by
      a [Remote] oracle; the polling loop takes fuel and is proved to return
      under the stated timing assumptions. *)

From Stdlib Require Import ZArith List String Ascii Bool Lia DecimalString.
From Stdlib Require Import Relations.
Import ListNotations.
Local Open Scope string_scope.
Local Open Scope Z_scope.
Set Warnings "-register-all".

(* ================================================================== *)
(** ** The JavaScript fragment the program relies on *)

Module Js.

Inductive Value : Type :=
| Undefined
| Null
| Bool (b : bool)
| Num (text : string)
    (* a number, as the text [ToString] gives it *)
| Str (s : string)
| Arr (items : list Value)
| Obj (props : list (string * Value)).

(** What an evaluation completes with: a value, or a thrown exception. *)
Inductive Thrown : Type :=
| StatusError (message : string) (status : Z) (details : Value)
    (* an [Error] that was given [status] and [details] properties *)
| OtherError.
    (* TypeError, FetchError, SyntaxError: no [status] property *)

Inductive Outcome (A : Type) : Type :=
| Returned (a : A)
| Threw (e : Thrown).
Arguments Returned {A} a.
Arguments Threw {A} e.

Definition bindO {A B} (m : Outcome A) (k : A -> Outcome B) : Outcome B :=
  match m with
  | Returned a => k a
  | Threw e => Threw e
  end.

(** *** Strings *)

Definition dq : string := String (ascii_of_nat 34) EmptyString.
Definition lf : string := String (ascii_of_nat 10) EmptyString.
(** NO-BREAK SPACE, U+00A0. *)
Definition nbsp : string := String (ascii_of_nat 160) EmptyString.

Definition isEmpty (s : string) : bool :=
  match s with EmptyString => true | _ => false end.

Definition code (c : ascii) : nat := nat_of_ascii c.

Definition inRange (lo hi : nat) (c : ascii) : bool :=
  (Nat.leb lo (code c) && Nat.leb (code c) hi)%bool.

(** The WhiteSpace and LineTerminator code units below 256: TAB, LF, VT,
    FF, CR, SPACE and NO-BREAK SPACE (U+00A0).  This is [\s], what [trim]
    removes and what [parseInt] skips. *)
Definition isWhiteSpace (c : ascii) : bool :=
  (inRange 9 13 c || Nat.eqb (code c) 32 || Nat.eqb (code c) 160)%bool.

Definition isDigit (c : ascii) : bool := inRange 48 57 c.
Definition isUpper (c : ascii) : bool := inRange 65 90 c.
Definition isLower (c : ascii) : bool := inRange 97 122 c.
Definition isAlnum (c : ascii) : bool :=
  (isUpper c || isLower c || isDigit c)%bool.

Fixpoint mapChars (f : ascii -> ascii) (s : string) : string :=
  match s with
  | EmptyString => EmptyString
  | String c r => String (f c) (mapChars f r)
  end.

Fixpoint filterChars (p : ascii -> bool) (s : string) : string :=
  match s with
  | EmptyString => EmptyString
  | String c r => if p c then String c (filterChars p r) else filterChars p r
  end.

Fixpoint allChars (p : ascii -> bool) (s : string) : bool :=
  match s with
  | EmptyString => true
  | String c r => (p c && allChars p r)%bool
  end.

(** The letters of the Latin-1 supplement: U+00C0..U+00DE without the
    multiplication sign, and U+00E0..U+00FE without the division sign. *)
Definition isUpperLatin (c : ascii) : bool :=
  (inRange 192 214 c || inRange 216 222 c)%bool.
Definition isLowerLatin (c : ascii) : bool :=
  (inRange 224 246 c || inRange 248 254 c)%bool.

(** [s.toLowerCase()]: every upper-case letter below 256 has its lower
    case 32 code units above it. *)
Definition lowerChar (c : ascii) : ascii :=
  if (isUpper c || isUpperLatin c)%bool then ascii_of_nat (code c + 32)
  else c.

Definition toLowerCase : string -> string := mapChars lowerChar.

(** [s.toUpperCase()], as code units: the sharp s (U+00DF) becomes [SS],
    the micro sign (U+00B5) becomes U+039C and y with diaeresis (U+00FF)
    becomes U+0178; every other lower-case letter has its upper case 32
    code units below it. *)
Definition upperUnits (c : ascii) : list nat :=
  if (isLower c || isLowerLatin c)%bool then [(code c - 32)%nat]
  else if Nat.eqb (code c) 223 then [83%nat; 83%nat]
  else if Nat.eqb (code c) 181 then [924%nat]
  else if Nat.eqb (code c) 255 then [376%nat]
  else [code c].

Fixpoint units (s : string) : list nat :=
  match s with
  | EmptyString => []
  | String c r => code c :: units r
  end.

Fixpoint toUpperCase (s : string) : list nat :=
  match s with
  | EmptyString => []
  | String c r => (upperUnits c ++ toUpperCase r)%list
  end.

(** [===] between a string given by its code units and a string. *)
Fixpoint sameUnits (a b : list nat) : bool :=
  match a, b with
  | [], [] => true
  | x :: a', y :: b' => (Nat.eqb x y && sameUnits a' b')%bool
  | _, _ => false
  end.

(** [choices.includes(u)] for a string [u] given by its code units: the
    element of [choices] that [u] is, if there is one. *)
Definition includes (choices : list string) (u : list nat) : option string :=
  find (fun k => sameUnits u (units k)) choices.

Fixpoint trimStart (s : string) : string :=
  match s with
  | EmptyString => EmptyString
  | String c r => if isWhiteSpace c then trimStart r else s
  end.

Fixpoint trimEnd (s : string) : string :=
  match s with
  | EmptyString => EmptyString
  | String c r =>
      let r' := trimEnd r in
      if (isWhiteSpace c && isEmpty r')%bool then EmptyString else String c r'
  end.

Definition trim (s : string) : string := trimEnd (trimStart s).

Definition startsWith (s p : string) : bool := String.prefix p s.

(** [s.split("\n")]: never empty, one more piece than there are LFs. *)
Fixpoint splitLines (s : string) : list string :=
  match s with
  | EmptyString => [EmptyString]
  | String c r =>
      if Nat.eqb (code c) 10 then EmptyString :: splitLines r
      else match splitLines r with
           | [] => [String c EmptyString]
           | l :: ls => String c l :: ls
           end
  end.

(** [a.slice(-n)]: the last [n] elements, all of them when there are fewer. *)
Definition sliceLast {A} (n : nat) (l : list A) : list A :=
  skipn (List.length l - n)%nat l.

Definition join (sep : string) (l : list string) : string :=
  String.concat sep l.

(** *** Values *)

(** The number [z] of the program's own making (a clamped dimension, an
    image count): an integer far below 10^21, which prints in plain
    decimal. *)
Definition ofInt (z : Z) : Value := Num (NilZero.string_of_int (Z.to_int z)).

Definition typeof (v : Value) : string :=
  match v with
  | Undefined => "undefined"
  | Null => "object"
  | Bool _ => "boolean"
  | Num _ => "number"
  | Str _ => "string"
  | Arr _ => "object"
  | Obj _ => "object"
  end.

Definition isArray (v : Value) : bool :=
  match v with Arr _ => true | _ => false end.

(** ToBoolean. *)
Definition truthy (v : Value) : bool :=
  match v with
  | Undefined | Null => false
  | Bool b => b
  | Num text => negb (String.eqb text "0" || String.eqb text "NaN")
  | Str s => negb (isEmpty s)
  | Arr _ | Obj _ => true
  end.

Fixpoint lookup (k : string) (ps : list (string * Value)) : option Value :=
  match ps with
  | [] => None
  | (k', v) :: r => if String.eqb k k' then Some v else lookup k r
  end.

Definition hasOwn (k : string) (ps : list (string * Value)) : bool :=
  match lookup k ps with Some _ => true | None => false end.

(** [v.k] for a [v] that is neither [null] nor [undefined].  Every
    property name the program reads is absent from the built-in
    prototypes, so anything but an own property of an object reads as
    [undefined]. *)
Definition get (v : Value) (k : string) : Value :=
  match v with
  | Obj ps => match lookup k ps with Some x => x | None => Undefined end
  | _ => Undefined
  end.

(** [v.k] in general: reading a property of [null] or [undefined] throws. *)
Definition getProp (v : Value) (k : string) : Outcome Value :=
  match v with
  | Undefined | Null => Threw OtherError
  | _ => Returned (get v k)
  end.

(** [v?.k] *)
Definition getOpt (v : Value) (k : string) : Value :=
  match v with
  | Undefined | Null => Undefined
  | _ => get v k
  end.

(** [a ?? b] and [a || b] *)
Definition nullish (a b : Value) : Value :=
  match a with Undefined | Null => b | _ => a end.

Definition orElse (a b : Value) : Value := if truthy a then a else b.

(** [obj.k = v] *)
Fixpoint setProp (k : string) (v : Value) (ps : list (string * Value))
  : list (string * Value) :=
  match ps with
  | [] => [(k, v)]
  | (k', x) :: r =>
      if String.eqb k k' then (k', v) :: r else (k', x) :: setProp k v r
  end.

(** ToString.  [None] stands for the TypeError raised when an object
    cannot be converted to a primitive, which for parsed JSON happens
    exactly when it has an own [toString] property (never callable). *)
Fixpoint toStringJs (v : Value) : option string :=
  match v with
  | Undefined => Some "undefined"
  | Null => Some "null"
  | Bool true => Some "true"
  | Bool false => Some "false"
  | Num text => Some text
  | Str s => Some s
  | Arr items =>
      (fix joinItems (l : list Value) : option string :=
         match l with
         | [] => Some EmptyString
         | x :: r =>
             match (match x with
                    | Undefined | Null => Some EmptyString
                    | _ => toStringJs x
                    end) with
             | None => None
             | Some s =>
                 match r with
                 | [] => Some s
                 | _ :: _ =>
                     match joinItems r with
                     | None => None
                     | Some t => Some (s ++ "," ++ t)
                     end
                 end
             end
         end) items
  | Obj ps => if hasOwn "toString" ps then None else Some "[object Object]"
  end.

Definition toStringO (v : Value) : Outcome string :=
  match toStringJs v with
  | Some s => Returned s
  | None => Threw OtherError
  end.

(** *** [Number.parseInt(v, 10)]: [None] is NaN.

    The digits are read at their exact integer value.  JavaScript rounds
    a value beyond 2^53 to a double; the program only clamps what it
    parsed between bounds that are small integers, and rounding to a
    double never carries a value across such a bound, so the clamped
    result is the same. *)

Definition digitValue (c : ascii) : Z := Z.of_nat (code c - 48).

Fixpoint digitsFrom (acc : option Z) (s : string) : option Z :=
  match s with
  | EmptyString => acc
  | String c r =>
      if isDigit c
      then digitsFrom
             (Some (10 * (match acc with Some a => a | None => 0 end)
                    + digitValue c)) r
      else acc
  end.

Definition parseIntString (s : string) : option Z :=
  match trimStart s with
  | String "-" r => option_map Z.opp (digitsFrom None r)
  | String "+" r => digitsFrom None r
  | t => digitsFrom None t
  end.

Definition parseInt (v : Value) : Outcome (option Z) :=
  bindO (toStringO v) (fun s => Returned (parseIntString s)).

(** [Math.min(max, Math.max(min, value))] *)
Definition clampNumber (value min max : Z) : Z :=
  Z.min max (Z.max min value).

End Js.

Import Js.

Notation "x <- m ;; k" := (bindO m (fun x => k))
  (at level 61, m at next level, right associativity).

(* ================================================================== *)
(** ** server.js *)

Module Server.

(** The environment variables the module reads when it is loaded. *)
Record Config : Type := {
  REPLICATE_API_TOKEN : option string;
  REPLICATE_DEFAULT_MODEL_KEY : option string;
  REPLICATE_SEEDREAM_VERSION : option string;
  REPLICATE_MODEL_VERSION : option string;
  REPLICATE_NANO_BANANA_VERSION : option string;
  REPLICATE_REFINE_MODEL_VERSION : option string;
  pollIntervalMs : Z;
  waitTimeoutMs : Z
}.

(** [a || b] on environment strings: unset and empty are both falsy. *)
Definition envOr (a b : option string) : option string :=
  match a with
  | Some s => if isEmpty s then b else a
  | None => b
  end.

Definition envOrDefault (a : option string) (d : string) : string :=
  match envOr a None with Some s => s | None => d end.

Definition terminalStatuses : list string :=
  ["succeeded"; "failed"; "canceled"].

(** [terminalStatuses.has(v)]: membership in a Set of strings. *)
Definition terminalStatuses_has (v : Value) : bool :=
  match v with
  | Str s => existsb (String.eqb s) terminalStatuses
  | _ => false
  end.

Definition DEFAULT_MODEL_KEY (cfg : Config) : string :=
  toLowerCase (envOrDefault (REPLICATE_DEFAULT_MODEL_KEY cfg) "seedream").

(** What [MODEL_CONFIG[key]] evaluates to when it is truthy: one of the two
    entries of the literal, or something inherited from [Object.prototype]
    (which has neither [version] nor [envKey]). *)
Inductive ModelEntry : Type :=
| Entry (envKey : string) (version : option string)
| Inherited.

Definition MODEL_CONFIG (cfg : Config) (key : string) : option ModelEntry :=
  if String.eqb key "seedream" then
    Some (Entry "REPLICATE_SEEDREAM_VERSION"
            (envOr (REPLICATE_SEEDREAM_VERSION cfg) (REPLICATE_MODEL_VERSION cfg)))
  else if String.eqb key "nano-banana" then
    Some (Entry "REPLICATE_NANO_BANANA_VERSION" (REPLICATE_NANO_BANANA_VERSION cfg))
  else if (String.eqb key "constructor" || String.eqb key "__proto__")%bool then
    Some Inherited
  else None.

Definition entryVersion (e : ModelEntry) : option string :=
  match e with
  | Entry _ v => envOr v None
  | Inherited => None
  end.

Definition entryEnvKey (e : ModelEntry) : option string :=
  match e with
  | Entry k _ => Some k
  | Inherited => None
  end.

Definition DIMENSION_LIMITS : Z * Z := (1024, 4096).
Definition MAX_IMAGES_LIMITS : Z * Z := (1, 15).

(** *** Responses sent to the browser *)

Inductive Details : Type :=
| NoDetails                   (* the key is absent *)
| DetailsValue (v : Value)
| DetailsMessage.             (* the text of an unexpected exception *)

(** [elapsed_seconds] has two decimals and is carried in hundredths of a
    second: 101 stands for the number 1.01. *)
Inductive ResponseBody : Type :=
| ErrorBody (error : string) (details : Details)
| PredictionBody (elapsed_seconds : Z) (prediction : Value)
| RefineBody (refined_prompt : string) (elapsed_seconds : Z)
    (prediction : Value).

Record HttpResponse : Type := { statusCode : Z; json : ResponseBody }.

(** *** The provider, the clock and the timers *)

Inductive RequestBody : Type :=
| ImageRequest (version : string) (input : list (string * Value))
| RefineRequest (version : string) (prompt : string).
    (* the other fields of the refine request are constants of the source *)

Inductive Request : Type :=
| CreatePrediction (token : string) (body : RequestBody)
| ReadPrediction (token : string) (id : string).

Record FetchReply : Type := {
  status : Z;
  body : option Value           (* [None]: the body is not JSON *)
}.

Definition ok (r : FetchReply) : bool :=
  ((200 <=? status r) && (status r <=? 299))%bool.

(** What the outside does to the [n]-th request or timer of a handler run. *)
Record Remote : Type := {
  reply : nat -> option FetchReply;   (* [None]: the fetch rejects *)
  latency : nat -> Z;                 (* milliseconds the request takes *)
  timer : nat -> Z -> Z               (* milliseconds [setTimeout(f, d)] waits *)
}.

Record World : Type := {
  now : Z;                            (* [Date.now()] *)
  requests : list Request;            (* issued so far, oldest first *)
  sleeps : nat                        (* timers awaited so far *)
}.

Definition isRead (r : Request) : bool :=
  match r with ReadPrediction _ _ => true | _ => false end.

(** Number of poll (read) requests issued so far. *)
Definition polls (w : World) : nat :=
  List.length (filter isRead (requests w)).

Definition fetch (rm : Remote) (rq : Request) (w : World)
  : World * option FetchReply :=
  let n := List.length (requests w) in
  ({| now := now w + latency rm n;
      requests := requests w ++ [rq];
      sleeps := sleeps w |},
   reply rm n).

Definition sleep (rm : Remote) (ms : Z) (w : World) : World :=
  {| now := now w + timer rm (sleeps w) ms;
     requests := requests w;
     sleeps := S (sleeps w) |}.

(** [await response.json()] after [await fetch(...)]. *)
Definition fetchJson (rm : Remote) (rq : Request) (w : World)
  : World * Outcome (FetchReply * Value) :=
  let (w', r) := fetch rm rq w in
  match r with
  | None => (w', Threw OtherError)
  | Some resp =>
      match body resp with
      | None => (w', Threw OtherError)
      | Some j => (w', Returned (resp, j))
      end
  end.

(** [new Error(data?.error || fallback)] with [status] and [details] set. *)
Definition providerError (data : Value) (fallback : string) (st : Z)
  : Thrown :=
  match toStringJs (orElse (getOpt data "error") (Str fallback)) with
  | Some m => StatusError m st data
  | None => OtherError
  end.

Definition timeoutMessage : string :=
  "Timed out while waiting for Replicate prediction to finish.".

(** The [while] loop of [createAndPollPrediction]; one unit of fuel per
    evaluation of the loop condition. *)
Fixpoint pollLoop (cfg : Config) (rm : Remote) (token : string)
    (startedAt : Z) (fuel : nat) (prediction : Value) (w : World)
  : option (World * Outcome Value) :=
  match fuel with
  | O => None
  | S fuel' =>
      match getProp prediction "status" with
      | Threw e => Some (w, Threw e)
      | Returned st =>
          if terminalStatuses_has st then Some (w, Returned prediction)
          else if now w - startedAt >? waitTimeoutMs cfg then
            Some (w, Threw (StatusError timeoutMessage 504 prediction))
          else
            let w1 := sleep rm (pollIntervalMs cfg) w in
            match toStringJs (get prediction "id") with
            | None => Some (w1, Threw OtherError)
            | Some id =>
                match fetchJson rm (ReadPrediction token id) w1 with
                | (w2, Threw e) => Some (w2, Threw e)
                | (w2, Returned (pollResponse, p)) =>
                    if negb (ok pollResponse) then
                      Some (w2, Threw (providerError p
                              "Failed while polling prediction status."
                              (status pollResponse)))
                    else pollLoop cfg rm token startedAt fuel' p w2
                end
            end
      end
  end.

(** *** [Number(((Date.now() - startedAt) / 1000).toFixed(2))]

    The quotient of two integers, rounded to the 53 significant bits of a
    double with ties going to the even significand. *)
Definition roundHalfEven (num den : Z) : Z :=
  let q := num / den in
  let r := num mod den in
  if ((den <? 2 * r) || ((2 * r =? den) && Z.odd q))%bool then q + 1 else q.

(** For [ms > 0]: [x = ms / 1000] is the double [m / 2^e] with
    [2^52 <= m <= 2^53], and [x.toFixed(2)] is the integer number of
    hundredths nearest to [x], the larger one when two are equally near. *)
Definition hundredths (ms : Z) : Z :=
  let e := 115 - Z.log2 (ms * 2 ^ 63 / 1000) in
  if 0 <=? e then
    let m := roundHalfEven (ms * 2 ^ e) 1000 in
    (200 * m + 2 ^ e) / 2 ^ (e + 1)
  else
    let m := roundHalfEven ms (1000 * 2 ^ (- e)) in
    100 * m * 2 ^ (- e).

(** The elapsed seconds reported for [ms] elapsed milliseconds, in
    hundredths of a second; [toFixed] rounds a negative number as it
    rounds its opposite. *)
Definition elapsedSeconds (ms : Z) : Z :=
  if ms =? 0 then 0
  else if ms <? 0 then - hundredths (- ms)
  else hundredths ms.

(** Returns the final snapshot and the elapsed seconds. *)
Definition createAndPollPrediction (cfg : Config) (rm : Remote) (fuel : nat)
    (token : string) (rq : RequestBody) (w : World)
  : option (World * Outcome (Value * Z)) :=
  match fetchJson rm (CreatePrediction token rq) w with
  | (w1, Threw e) => Some (w1, Threw e)
  | (w1, Returned (createResponse, initialPrediction)) =>
      if negb (ok createResponse) then
        Some (w1, Threw (providerError initialPrediction
                           "Failed to create prediction."
                           (status createResponse)))
      else
        let startedAt := now w1 in
        match pollLoop cfg rm token startedAt fuel initialPrediction w1 with
        | None => None
        | Some (w2, Threw e) => Some (w2, Threw e)
        | Some (w2, Returned prediction) =>
            Some (w2, Returned (prediction,
                                elapsedSeconds (now w2 - startedAt)))
        end
  end.

Definition normalizeText (v : Value) : string :=
  match v with Str s => trim s | _ => EmptyString end.

Definition pieceCandidates (piece : Value) : list Value :=
  if String.eqb (typeof piece) "string" then [piece]
  else if (truthy piece && String.eqb (typeof piece) "object"
           && String.eqb (typeof (get piece "text")) "string")%bool
       then [get piece "text"]
       else [].

Definition itemCandidates (item : Value) : list Value :=
  if String.eqb (typeof item) "string" then [item]
  else if (truthy item && String.eqb (typeof item) "object")%bool then
    (if String.eqb (typeof (get item "text")) "string"
     then [get item "text"] else [])
    ++ (if String.eqb (typeof (get item "message")) "string"
        then [get item "message"] else [])
    ++ (match get item "content" with
        | Arr content => flat_map pieceCandidates content
        | _ => []
        end)
  else [].

Definition lastLogLines (logs : string) : string :=
  join " " (sliceLast 5 (splitLines logs)).

(** Everything [extractTextOutput] pushes on [candidates], in order. *)
Definition textCandidates (prediction : Value) : list Value :=
  (if String.eqb (typeof (get prediction "output")) "string"
   then [get prediction "output"] else [])
  ++ (match get prediction "output" with
      | Arr items => flat_map itemCandidates items
      | _ => []
      end)
  ++ (if String.eqb (typeof (get prediction "output_text")) "string"
      then [get prediction "output_text"] else [])
  ++ (match get prediction "logs" with
      | Str logs => [Str (lastLogLines logs)]
      | _ => []
      end).

Fixpoint firstText (candidates : list Value) : string :=
  match candidates with
  | [] => EmptyString
  | candidate :: rest =>
      let text := normalizeText candidate in
      if negb (isEmpty text) then text else firstText rest
  end.

Definition extractTextOutput (prediction : Value) : string :=
  if negb (truthy prediction) then EmptyString
  else firstText (textCandidates prediction).

(** *** The two handlers *)

Definition respond (st : Z) (b : ResponseBody) : HttpResponse :=
  {| statusCode := st; json := b |}.

(** The [catch] block both handlers share. *)
Definition catchError (e : Thrown) : HttpResponse :=
  match e with
  | StatusError message st details =>
      respond (if st =? 0 then 500 else st)
        (ErrorBody
           (if isEmpty message then "Replicate request failed." else message)
           (DetailsValue details))
  | OtherError =>
      respond 500 (ErrorBody "Unexpected server error." DetailsMessage)
  end.

(** [typeof v === "string" ? v : d] *)
Definition stringOr (v : Value) (d : string) : string :=
  match v with Str s => s | _ => d end.

Definition missingPrompt : HttpResponse :=
  respond 400
    (ErrorBody ("Field " ++ dq ++ "prompt" ++ dq ++ " is required.") NoDetails).

Definition missingToken : HttpResponse :=
  respond 500 (ErrorBody "Missing REPLICATE_API_TOKEN in environment." NoDetails).

Definition unsupportedModel (modelKey : string) : HttpResponse :=
  respond 400
    (ErrorBody ("Unsupported model key " ++ dq ++ modelKey ++ dq ++ ".")
       NoDetails).

Definition missingVersion (modelKey : string) (config : ModelEntry)
  : HttpResponse :=
  let envHint :=
    if String.eqb modelKey "seedream"
    then "REPLICATE_SEEDREAM_VERSION (or legacy REPLICATE_MODEL_VERSION)"
    else envOrDefault (entryEnvKey config) "model version environment variable" in
  respond 500
    (ErrorBody ("Missing " ++ envHint ++ " for model " ++ dq ++ modelKey
                ++ dq ++ ".") NoDetails).

(** [item => typeof item === "string" && item.trim()] *)
Definition nonBlankString (item : Value) : bool :=
  match item with
  | Str s => negb (isEmpty (trim s))
  | _ => false
  end.

Definition imageInputOf (body : Value) : list Value :=
  match get body "image_input" with
  | Arr items => filter nonBlankString items
  | _ => []
  end.

Definition withImageInput (imageInput : list Value)
    (inputPayload : list (string * Value)) : list (string * Value) :=
  match imageInput with
  | [] => inputPayload
  | _ :: _ => setProp "image_input" (Arr imageInput) inputPayload
  end.

Definition normalizeSize (sizeField : Value) : string :=
  let rawSize := stringOr sizeField "2K" in
  let trimmedSize := trim rawSize in
  let lowerSize := toLowerCase trimmedSize in
  let upperSize := toUpperCase trimmedSize in
  if String.eqb lowerSize "custom" then "custom"
  else match includes ["1K"; "2K"; "4K"] upperSize with
       | Some size => size          (* [upperSize], which it equals *)
       | None => "2K"
       end.

(** [inputPayload.k = clampNumber(parsed, lo, hi)] unless [parsed] is NaN. *)
Definition setDimension (k : string) (parsed : option Z)
    (inputPayload : list (string * Value)) : list (string * Value) :=
  match parsed with
  | Some n =>
      setProp k (ofInt (clampNumber n (fst DIMENSION_LIMITS) (snd DIMENSION_LIMITS)))
        inputPayload
  | None => inputPayload
  end.

(** The [modelKey === "seedream"] branch. *)
Definition seedreamInput (body : Value) (trimmedPrompt : string)
    (imageInput : list Value) : Outcome (list (string * Value)) :=
  let size := normalizeSize (get body "size") in
  let aspectRatio := stringOr (get body "aspect_ratio") "match_input_image" in
  let sequential :=
    stringOr (get body "sequential_image_generation") "disabled" in
  parsedMaxImages <- parseInt (get body "max_images") ;;
  let maxImages :=
    match parsedMaxImages with
    | None => 1
    | Some n => clampNumber n (fst MAX_IMAGES_LIMITS) (snd MAX_IMAGES_LIMITS)
    end in
  let inputPayload :=
    [("prompt", Str trimmedPrompt);
     ("size", Str size);
     ("aspect_ratio", Str aspectRatio);
     ("sequential_image_generation", Str sequential);
     ("max_images", ofInt maxImages)] in
  inputPayload <-
    (if String.eqb size "custom" then
       parsedWidth <- parseInt (get body "width") ;;
       parsedHeight <- parseInt (get body "height") ;;
       Returned (setDimension "height" parsedHeight
                   (setDimension "width" parsedWidth inputPayload))
     else Returned inputPayload) ;;
  Returned (withImageInput imageInput inputPayload).

(** The [else] branch (nano-banana). *)
Definition otherInput (body : Value) (trimmedPrompt : string)
    (imageInput : list Value) : list (string * Value) :=
  let aspectRatio := stringOr (get body "aspect_ratio") "16:9" in
  let outputFormat := stringOr (get body "output_format") "jpg" in
  withImageInput imageInput
    [("prompt", Str trimmedPrompt);
     ("aspect_ratio", Str aspectRatio);
     ("output_format", Str outputFormat)].

Definition buildInput (modelKey : string) (body : Value)
    (trimmedPrompt : string) : Outcome (list (string * Value)) :=
  let imageInput := imageInputOf body in
  if String.eqb modelKey "seedream"
  then seedreamInput body trimmedPrompt imageInput
  else Returned (otherInput body trimmedPrompt imageInput).

Definition resolveModelKey (cfg : Config) (body : Value) : string :=
  let rawModelKey :=
    match get body "model_key" with Str s => Some s | _ => None end in
  toLowerCase (envOrDefault rawModelKey (DEFAULT_MODEL_KEY cfg)).

(** What a handler has decided once its synchronous part is over. *)
Inductive Prepared : Type :=
| Reject (r : HttpResponse)
| Forward (token : string) (rq : RequestBody).

(** [/api/predictions] up to the call of [createAndPollPrediction]. *)
Definition preparePrediction (cfg : Config) (reqBody : Value)
  : Outcome Prepared :=
  match envOr (REPLICATE_API_TOKEN cfg) None with
  | None => Returned (Reject missingToken)
  | Some token =>
      let body := orElse reqBody (Obj []) in
      let modelKey := resolveModelKey cfg body in
      match MODEL_CONFIG cfg modelKey with
      | None => Returned (Reject (unsupportedModel modelKey))
      | Some config =>
          match entryVersion config with
          | None => Returned (Reject (missingVersion modelKey config))
          | Some version =>
              let promptValue := stringOr (get body "prompt") EmptyString in
              let trimmedPrompt := trim promptValue in
              if isEmpty trimmedPrompt then Returned (Reject missingPrompt)
              else
                inputPayload <- buildInput modelKey body trimmedPrompt ;;
                Returned (Forward token (ImageRequest version inputPayload))
          end
      end
  end.

Definition api_predictions (cfg : Config) (rm : Remote) (fuel : nat)
    (reqBody : Value) (w : World) : option (World * HttpResponse) :=
  match preparePrediction cfg reqBody with
  | Threw e => Some (w, catchError e)
  | Returned (Reject r) => Some (w, r)
  | Returned (Forward token rq) =>
      match createAndPollPrediction cfg rm fuel token rq w with
      | None => None
      | Some (w', Threw e) => Some (w', catchError e)
      | Some (w', Returned (prediction, elapsed)) =>
          Some (w', respond 200 (PredictionBody elapsed prediction))
      end
  end.

Definition missingRefineVersion : HttpResponse :=
  respond 500
    (ErrorBody "Missing REPLICATE_REFINE_MODEL_VERSION in environment. Set it to the latest version id for openai/gpt-5-mini."
       NoDetails).

(** [/api/refine] up to the call of [createAndPollPrediction]; the second
    component is [trimmedPrompt]. *)
Definition prepareRefine (cfg : Config) (reqBody : Value)
  : Prepared * string :=
  match envOr (REPLICATE_API_TOKEN cfg) None with
  | None => (Reject missingToken, EmptyString)
  | Some token =>
      match envOr (REPLICATE_REFINE_MODEL_VERSION cfg) None with
      | None => (Reject missingRefineVersion, EmptyString)
      | Some version =>
          let promptValue := stringOr (getOpt reqBody "prompt") EmptyString in
          let trimmedPrompt := trim promptValue in
          if isEmpty trimmedPrompt then (Reject missingPrompt, trimmedPrompt)
          else (Forward token (RefineRequest version trimmedPrompt),
                trimmedPrompt)
      end
  end.

Definition api_refine (cfg : Config) (rm : Remote) (fuel : nat)
    (reqBody : Value) (w : World) : option (World * HttpResponse) :=
  match prepareRefine cfg reqBody with
  | (Reject r, _) => Some (w, r)
  | (Forward token rq, trimmedPrompt) =>
      match createAndPollPrediction cfg rm fuel token rq w with
      | None => None
      | Some (w', Threw e) => Some (w', catchError e)
      | Some (w', Returned (prediction, elapsed)) =>
          let refinedPrompt := extractTextOutput prediction in
          let refinedPrompt :=
            if isEmpty refinedPrompt then trimmedPrompt else refinedPrompt in
          Some (w', respond 200 (RefineBody refinedPrompt elapsed prediction))
      end
  end.

End Server.

(* ================================================================== *)
(** ** public/app.js *)

Module Client.

(** The two fields of a [modelStates] entry that image extraction reads. *)
Record ModelState : Type := {
  downloadExtension : string;
  defaultDownloadExtension : string
}.

(** The page state: the own keys of [modelStates] are [seedream] and
    [nano-banana]. *)
Record Page : Type := {
  seedream : ModelState;
  nano_banana : ModelState;
  activeModelKey : string
}.

(** The property names every object literal inherits from
    [Object.prototype]. *)
Definition objectPrototypeNames : list string :=
  ["constructor"; "__defineGetter__"; "__defineSetter__"; "hasOwnProperty";
   "__lookupGetter__"; "__lookupSetter__"; "isPrototypeOf";
   "propertyIsEnumerable"; "toString"; "valueOf"; "__proto__";
   "toLocaleString"].

(** What [modelStates[key]] reads: a state, or an inherited function or
    prototype object, which is truthy and has neither extension field. *)
Inductive StateEntry : Type :=
| State (st : ModelState)
| Inherited.

Definition modelStates (pg : Page) (key : string) : option StateEntry :=
  if String.eqb key "seedream" then Some (State (seedream pg))
  else if String.eqb key "nano-banana" then Some (State (nano_banana pg))
  else if existsb (String.eqb key) objectPrototypeNames then Some Inherited
  else None.

(** [a || b] on strings *)
Definition strOr (a b : string) : string := if isEmpty a then b else a.

(** [state?.downloadExtension || state?.defaultDownloadExtension || "jpeg"]
    for the state [normalizeImageValue] resolves; [modelKey] is [None] when
    the argument is [undefined]. *)
Definition expectedExtension (pg : Page) (modelKey : option string) : string :=
  let key := match modelKey with Some k => k | None => activeModelKey pg end in
  let state :=
    match modelStates pg key with
    | Some entry => Some entry
    | None => modelStates pg (activeModelKey pg)
    end in
  match state with
  | Some (State st) =>
      strOr (downloadExtension st) (strOr (defaultDownloadExtension st) "jpeg")
  | Some Inherited => "jpeg"
  | None => "jpeg"
  end.

Definition hasScheme (trimmed : string) : bool :=
  (startsWith trimmed "http://" || startsWith trimmed "https://"
   || startsWith trimmed "data:")%bool.

Definition isBase64Char (c : ascii) : bool :=
  (isAlnum c || Nat.eqb (code c) 43 || Nat.eqb (code c) 47
   || Nat.eqb (code c) 61 || isWhiteSpace c)%bool.

(** [/^[A-Za-z0-9+/=\s]+$/.test(s)] *)
Definition base64Pattern (s : string) : bool :=
  (negb (isEmpty s) && allChars isBase64Char s)%bool.

(** [s.replace(/\s/g, "")] and [s.replace(/[^a-z0-9]/gi, "")] *)
Definition stripWhiteSpace (s : string) : string :=
  filterChars (fun c => negb (isWhiteSpace c)) s.

Definition keepAlnum (s : string) : string := filterChars isAlnum s.

Definition normalizeImageValue (pg : Page) (value : Value)
    (modelKey : option string) : option string :=
  match value with
  | Str s =>
      let trimmed := trim s in
      if isEmpty trimmed then None
      else if hasScheme trimmed then Some trimmed
      else if (base64Pattern trimmed
               && Nat.ltb 100 (String.length trimmed))%bool then
        let extension := expectedExtension pg modelKey in
        let format := strOr (keepAlnum extension) "jpeg" in
        Some ("data:image/" ++ format ++ ";base64," ++ stripWhiteSpace trimmed)
      else None
  | _ => None
  end.

(** [if (normalized) return normalized;] *)
Definition usable (normalized : option string) : bool :=
  match normalized with
  | Some s => negb (isEmpty s)
  | None => false
  end.

Definition fieldSources (v : Value) : list Value :=
  [get v "image"; get v "url"; get v "uri"; get v "path"].

(** [for (const source of sources) { ... if (normalized) return normalized; }] *)
Fixpoint firstNormalized (pg : Page) (modelKey : option string)
    (sources : list Value) : option string :=
  match sources with
  | [] => None
  | source :: rest =>
      let normalized := normalizeImageValue pg source modelKey in
      if usable normalized then normalized
      else firstNormalized pg modelKey rest
  end.

(** The body of [for (const item of output)]; [None] when it returns
    nothing and the loop goes on. *)
Definition scanItem (pg : Page) (modelKey : option string) (item : Value)
  : option string :=
  let fromString :=
    if String.eqb (typeof item) "string"
    then normalizeImageValue pg item modelKey else None in
  if usable fromString then fromString
  else if (truthy item && String.eqb (typeof item) "object")%bool
       then firstNormalized pg modelKey (fieldSources item)
       else None.

Fixpoint scanItems (pg : Page) (modelKey : option string)
    (items : list Value) : option string :=
  match items with
  | [] => None
  | item :: rest =>
      match scanItem pg modelKey item with
      | Some r => Some r
      | None => scanItems pg modelKey rest
      end
  end.

Definition extractImageUrl (pg : Page) (prediction : Value)
    (modelKey : option string) : option string :=
  if negb (truthy prediction) then None
  else
    let output :=
      nullish (nullish (get prediction "output") (get prediction "images"))
        Null in
    if String.eqb (typeof output) "string"
    then normalizeImageValue pg output modelKey
    else
      match (match output with
             | Arr items => scanItems pg modelKey items
             | _ => None
             end) with
      | Some r => Some r
      | None =>
          if (truthy output && String.eqb (typeof output) "object")%bool
          then firstNormalized pg modelKey (fieldSources output)
          else None
      end.

End Client.

(* ================================================================== *)
(** ** The specification's wording, for comparison with the code *)

Module Spec.

(** The ceiling of [a / b], for a positive [b]. *)
Definition ceilDiv (a b : Z) : Z := - ((- a) / b).

(** The first element [f] accepts, with what [f] made of it. *)
Fixpoint firstSuccess {A B} (f : A -> option B) (l : list A) : option B :=
  match l with
  | [] => None
  | x :: r => match f x with Some y => Some y | None => firstSuccess f r end
  end.

Definition strings (l : list Value) : list string :=
  flat_map (fun v => match v with Str s => [s] | _ => [] end) l.

(** Size normalisation that adjusts case only. *)
Definition sizeByCase (raw : Value) : string :=
  match raw with
  | Str s =>
      if String.eqb (toLowerCase s) "custom" then "custom"
      else match includes ["1K"; "2K"; "4K"] (toUpperCase s) with
           | Some size => size
           | None => "2K"
           end
  | _ => "2K"
  end.

(** Size normalisation that trims, then adjusts case. *)
Definition sizeByTrimmedCase (raw : Value) : string :=
  match raw with
  | Str s => sizeByCase (Str (trim s))
  | _ => "2K"
  end.

(** The fields each variant of the normalised input may carry. *)
Definition seedreamOnly : list string :=
  ["size"; "sequential_image_generation"; "max_images"; "width"; "height"].

Definition variantFields (modelKey : string) : list string :=
  if String.eqb modelKey "seedream"
  then ["prompt"; "aspect_ratio"; "image_input"] ++ seedreamOnly
  else ["prompt"; "aspect_ratio"; "output_format"; "image_input"].

(** A candidate normalised without trimming it first: scheme, base64
    pattern and length are all read off the candidate as it stands. *)
Definition normalizeUntrimmed (expected candidate : string) : option string :=
  if Client.hasScheme candidate then Some candidate
  else if (Client.base64Pattern candidate
           && Nat.ltb 100 (String.length candidate))%bool then
    Some ("data:image/" ++ Client.strOr (Client.keepAlnum expected) "jpeg"
          ++ ";base64," ++ Client.stripWhiteSpace candidate)
  else None.

(** One candidate per list element: the element itself when it is a
    string, the first present string among [image], [url], [uri], [path]
    when it is an object. *)
Definition isString (v : Value) : bool :=
  match v with Str _ => true | _ => false end.

Definition elementCandidate (item : Value) : list Value :=
  match item with
  | Str _ => [item]
  | Obj _ =>
      match find isString (Client.fieldSources item) with
      | Some c => [c]
      | None => []
      end
  | _ => []
  end.

Definition extractFromListOnePerElement (pg : Client.Page)
    (modelKey : option string) (items : list Value) : option string :=
  firstSuccess (fun c => Client.normalizeImageValue pg c modelKey)
    (flat_map elementCandidate items).

(** Every probed field of an object element is a candidate of its own. *)
Definition elementCandidates (item : Value) : list Value :=
  match item with
  | Str _ => [item]
  | Obj _ => Client.fieldSources item
  | _ => []
  end.

(** The candidates of text extraction, in the order the specification
    lists them. *)
Definition pieceTexts (piece : Value) : list string :=
  match piece with
  | Str s => [s]
  | Obj _ => strings [get piece "text"]
  | _ => []
  end.

Definition itemTexts (item : Value) : list string :=
  match item with
  | Str s => [s]
  | Obj _ =>
      strings [get item "text"; get item "message"]
      ++ match get item "content" with
         | Arr pieces => flat_map pieceTexts pieces
         | _ => []
         end
  | _ => []
  end.

Definition lastLines (n : nat) (logs : string) : string :=
  join " " (sliceLast n (splitLines logs)).

Definition textCandidates (job : Value) : list string :=
  strings [get job "output"]
  ++ match get job "output" with
     | Arr items => flat_map itemTexts items
     | _ => []
     end
  ++ strings [get job "output_text"]
  ++ match get job "logs" with
     | Str logs => [lastLines 5 logs]
     | _ => []
     end.

Definition nonBlank (s : string) : bool := negb (isEmpty (trim s)).

(** The first candidate that is non-empty after trimming, as it stands. *)
Definition firstNonBlank (l : list string) : string :=
  match find nonBlank l with Some c => c | None => EmptyString end.

(** The same candidate, trimmed. *)
Definition firstNonBlankTrimmed (l : list string) : string :=
  trim (firstNonBlank l).

(** *** Vocabulary for runs of the job runner *)

(** A snapshot the loop polls again from: it is a job whose status is not
    terminal and whose id can be spliced into the poll URL. *)
Definition pending (job : Value) : bool :=
  match getProp job "status", toStringJs (get job "id") with
  | Returned st, Some _ => negb (Server.terminalStatuses_has st)
  | _, _ => false
  end.

(** Every request is answered with a success status and a pending job:
    the job never becomes terminal and the transport never fails. *)
Definition neverTerminal (rm : Server.Remote) : Prop :=
  forall n, exists resp job,
    Server.reply rm n = Some resp /\ Server.ok resp = true
    /\ Server.body resp = Some job /\ pending job = true.

(** [job] is what the last request issued so far was answered with. *)
Definition lastSnapshot (rm : Server.Remote) (w : Server.World)
    (job : Value) : Prop :=
  exists resp,
    Server.reply rm (pred (List.length (Server.requests w))) = Some resp
    /\ Server.body resp = Some job.

(** A timer never fires early, and the clock never runs backwards. *)
Definition honestTimers (rm : Server.Remote) : Prop :=
  forall n d, d <= Server.timer rm n d.

Definition monotoneClock (rm : Server.Remote) : Prop :=
  forall n, 0 <= Server.latency rm n.

(** One turn of the polling loop that ends with a fresh snapshot. *)
Inductive PollStep (cfg : Server.Config) (rm : Server.Remote)
    (token : string) (startedAt : Z)
  : Value * Server.World -> Value * Server.World -> Prop :=
| poll_step p w st id resp p' w' :
    getProp p "status" = Returned st ->
    Server.terminalStatuses_has st = false ->
    Server.now w - startedAt <= Server.waitTimeoutMs cfg ->
    toStringJs (get p "id") = Some id ->
    Server.fetchJson rm (Server.ReadPrediction token id)
      (Server.sleep rm (Server.pollIntervalMs cfg) w)
    = (w', Returned (resp, p')) ->
    Server.ok resp = true ->
    PollStep cfg rm token startedAt (p, w) (p', w').

(** The job reaches snapshot [p] (in world [w']) after some polls. *)
Definition Reaches (cfg : Server.Config) (rm : Server.Remote)
    (token : string) (startedAt : Z)
  : Value * Server.World -> Value * Server.World -> Prop :=
  clos_refl_trans_1n _ (PollStep cfg rm token startedAt).

End Spec.

(* ================================================================== *)
(** ** Concrete configurations, providers and requests *)

Module Fixtures.
Import Server.

(** Everything configured; polls every 10 ms for at most 25 ms. *)
Definition cfg : Config :=
  {| REPLICATE_API_TOKEN := Some "r8_token";
     REPLICATE_DEFAULT_MODEL_KEY := None;
     REPLICATE_SEEDREAM_VERSION := Some "seedream-v4";
     REPLICATE_MODEL_VERSION := None;
     REPLICATE_NANO_BANANA_VERSION := Some "nano-banana-v1";
     REPLICATE_REFINE_MODEL_VERSION := Some "gpt-5-mini-v1";
     pollIntervalMs := 10;
     waitTimeoutMs := 25 |}.

(** No API token in the environment. *)
Definition tokenless : Config :=
  {| REPLICATE_API_TOKEN := None;
     REPLICATE_DEFAULT_MODEL_KEY := None;
     REPLICATE_SEEDREAM_VERSION := Some "seedream-v4";
     REPLICATE_MODEL_VERSION := None;
     REPLICATE_NANO_BANANA_VERSION := Some "nano-banana-v1";
     REPLICATE_REFINE_MODEL_VERSION := Some "gpt-5-mini-v1";
     pollIntervalMs := 10;
     waitTimeoutMs := 25 |}.

(** Only the legacy version variable is set. *)
Definition legacy : Config :=
  {| REPLICATE_API_TOKEN := Some "r8_token";
     REPLICATE_DEFAULT_MODEL_KEY := None;
     REPLICATE_SEEDREAM_VERSION := None;
     REPLICATE_MODEL_VERSION := Some "legacy-v3";
     REPLICATE_NANO_BANANA_VERSION := None;
     REPLICATE_REFINE_MODEL_VERSION := None;
     pollIntervalMs := 2000;
     waitTimeoutMs := 120000 |}.

Definition job (st : string) : Value :=
  Obj [("id", Str "j1"); ("status", Str st)].

Definition answer (j : Value) : option FetchReply :=
  Some {| status := 200; body := Some j |}.

(** Exact timers, an instantaneous network, a job that stays "processing". *)
Definition stuck : Remote :=
  {| reply := fun _ => answer (job "processing");
     latency := fun _ => 0;
     timer := fun _ d => d |}.

(** The job is created "starting" and the first poll finds it in [st]. *)
Definition settlesAs (j : Value) : Remote :=
  {| reply := fun n => match n with
                       | O => answer (job "starting")
                       | _ => answer j
                       end;
     latency := fun _ => 3;
     timer := fun _ d => d + 1 |}.

(** The job is already "succeeded", with no output, when it is created. *)
Definition silent : Remote :=
  {| reply := fun _ => answer (job "succeeded");
     latency := fun _ => 7;
     timer := fun _ d => d |}.



Definition start : World := {| now := 1000; requests := []; sleeps := 0 |}.

Definition catRequest : Value :=
  Obj [("model_key", Str "nano-banana"); ("prompt", Str "a cat")].

Definition catInput : list (string * Value) :=
  [("prompt", Str "a cat"); ("aspect_ratio", Str "16:9");
   ("output_format", Str "jpg")].

Definition customRequest : Value :=
  Obj [("model_key", Str "seedream"); ("prompt", Str "a city");
       ("size", Str "custom"); ("width", Str "abc"); ("height", Str "2000")].

Definition customInput : list (string * Value) :=
  [("prompt", Str "a city"); ("size", Str "custom");
   ("aspect_ratio", Str "match_input_image");
   ("sequential_image_generation", Str "disabled");
   ("max_images", ofInt 1); ("height", ofInt 2000)].

Definition page : Client.Page :=
  {| Client.seedream :=
       {| Client.downloadExtension := "png";
          Client.defaultDownloadExtension := "png" |};
     Client.nano_banana :=
       {| Client.downloadExtension := "jpg";
          Client.defaultDownloadExtension := "jpg" |};
     Client.activeModelKey := "seedream" |}.

Fixpoint repeatChar (n : nat) (c : ascii) : string :=
  match n with
  | O => EmptyString
  | S m => String c (repeatChar m c)
  end.

End Fixtures.

(* ================================================================== *)
(** ** public/app.js: preview aspect and download name *)

Module Preview.

(** An aspect object whose [width] and [height] are numbers, which is what
    every caller of [normalizeAspect] passes when it passes an object. *)
Record Aspect : Type := { width : Z; height : Z }.

Definition defaultPreviewAspect : Aspect := {| width := 16; height := 9 |}.

(** [normalizePositiveNumber] at a number argument: [Number(value)] is then
    the value itself, and an integer value is finite. *)
Definition normalizePositiveNumber (value : Z) : option Z :=
  if 0 <? value then Some value else None.

(** The [while (y)] loop of [computeGcd]; [%] is the truncated remainder. *)
Fixpoint gcdLoop (fuel : nat) (x y : Z) : option Z :=
  match fuel with
  | O => None
  | S fuel' => if y =? 0 then Some x else gcdLoop fuel' y (Z.rem x y)
  end.

Definition computeGcd (fuel : nat) (a b : Z) : option Z :=
  match gcdLoop fuel (Z.abs a) (Z.abs b) with
  | Some x => Some (if x =? 0 then 1 else x)
  | None => None
  end.

(** [aspect] is [None] when the argument is falsy or not an object.  The
    two quotients are exact, the divisor being a common divisor. *)
Definition normalizeAspect (fuel : nat) (aspect : option Aspect)
  : option Aspect :=
  match aspect with
  | None => Some defaultPreviewAspect
  | Some a =>
      match normalizePositiveNumber (width a),
            normalizePositiveNumber (height a) with
      | Some w, Some h =>
          match computeGcd fuel w h with
          | Some gcd => Some {| width := w / gcd; height := h / gcd |}
          | None => None
          end
      | _, _ => Some defaultPreviewAspect
      end
  end.

(** The file name the download button gives the generated image. *)
Definition downloadName (st : Client.ModelState) : string :=
  let extension :=
    Client.strOr (Client.downloadExtension st)
      (Client.strOr (Client.defaultDownloadExtension st) "png") in
  let safeExtension := Client.strOr (Client.keepAlnum extension) "png" in
  "playground-output." ++ safeExtension.

End Preview.

(* ================================================================== *)
(** ** Further vocabulary for runs and strings *)

Module Vocabulary.

(** A poll request carrying the given token. *)
Definition isReadWith (token : string) (r : Server.Request) : bool :=
  match r with
  | Server.ReadPrediction t _ => String.eqb t token
  | Server.CreatePrediction _ _ => false
  end.

Definition isErrorBody (b : Server.ResponseBody) : bool :=
  match b with Server.ErrorBody _ _ => true | _ => false end.

(** The text of an error response; empty for the other bodies. *)
Definition errorText (b : Server.ResponseBody) : string :=
  match b with Server.ErrorBody e _ => e | _ => EmptyString end.

Definition notLineFeed (c : ascii) : bool := negb (Nat.eqb (code c) 10).

Definition notWhiteSpace (c : ascii) : bool := negb (isWhiteSpace c).

Definition firstChar (s : string) : option ascii :=
  match s with
  | EmptyString => None
  | String c _ => Some c
  end.

Fixpoint lastChar (s : string) : option ascii :=
  match s with
  | EmptyString => None
  | String c r => match lastChar r with Some d => Some d | None => Some c end
  end.

Definition isSpaceAt (c : option ascii) : bool :=
  match c with Some c => isWhiteSpace c | None => false end.

(** Neither the first nor the last character of [s] is white space. *)
Definition cleanEnds (s : string) : bool :=
  (negb (isSpaceAt (firstChar s)) && negb (isSpaceAt (lastChar s)))%bool.

End Vocabulary.

(** Membership of a listed string in a literal list. *)
Ltac in_list := simpl; repeat (first [left; reflexivity | right]); tauto.

(* ================================================================== *)
(** ** Properties of the job runner *)

Module RunnerProps.
Import Server.

Lemma polls_sleep rm d w : polls (sleep rm d w) = polls w.
Proof. reflexivity. Qed.

Lemma polls_read rm token id w :
  polls (fst (fetch rm (ReadPrediction token id) w)) = S (polls w).
Proof.
  unfold polls, fetch; simpl.
  rewrite filter_app, length_app; simpl. lia.
Qed.

Lemma polls_create rm token rq w :
  polls (fst (fetch rm (CreatePrediction token rq) w)) = polls w.
Proof.
  unfold polls, fetch; simpl.
  rewrite filter_app, length_app; simpl. lia.
Qed.

Lemma fetchJson_world rm rq w :
  fst (fetchJson rm rq w) = fst (fetch rm rq w).
Proof.
  unfold fetchJson. destruct (fetch rm rq w) as [w' [resp|]]; simpl; auto.
  destruct (body resp); reflexivity.
Qed.

Lemma fetchJson_returned rm rq w w' resp j :
  fetchJson rm rq w = (w', Returned (resp, j)) ->
  w' = fst (fetch rm rq w)
  /\ reply rm (List.length (requests w)) = Some resp
  /\ body resp = Some j.
Proof.
  unfold fetchJson, fetch; simpl.
  destruct (reply rm (List.length (requests w))) as [r|]; [|discriminate].
  destruct (body r) eqn:Hb; [|discriminate].
  intros H; inversion H; subst; auto.
Qed.

Lemma now_after_poll rm token id d w :
  now (fst (fetch rm (ReadPrediction token id) (sleep rm d w)))
  = now w + timer rm (sleeps w) d
    + latency rm (List.length (requests w)).
Proof. reflexivity. Qed.

(** Terminal statuses are exactly the three strings. *)
Lemma terminal_iff v :
  terminalStatuses_has v = true
  <-> v = Str "succeeded" \/ v = Str "failed" \/ v = Str "canceled".
Proof.
  split.
  - destruct v; simpl; try discriminate.
    rewrite !orb_true_iff, !String.eqb_eq.
    intros [H|[H|[H|H]]]; subst; auto; discriminate.
  - intros [H|[H|H]]; subst; reflexivity.
Qed.

Section Budget.
Variables (cfg : Config) (rm : Remote) (token : string) (t0 : Z).
Let I := pollIntervalMs cfg.
Let T := waitTimeoutMs cfg.
Hypothesis interval_pos : 0 < I.
Hypothesis timers_wait : forall n d, d <= timer rm n d.
Hypothesis clock_monotone : forall n, 0 <= latency rm n.

(** With [k] intervals already slept, the loop returns within the fuel
    the budget allows and issues no poll beyond the [T / I + 1]-th. *)
Lemma pollLoop_bounded :
  forall fuel p w k,
    0 <= k -> k * I <= now w - t0 ->
    (Z.to_nat (T / I + 1 - k) < fuel)%nat ->
    exists w' out,
      pollLoop cfg rm token t0 fuel p w = Some (w', out)
      /\ (polls w <= polls w')%nat
      /\ k + Z.of_nat (polls w' - polls w) <= Z.max k (T / I + 1).
Proof.
  induction fuel as [|fuel IH]; intros p w k Hk Hel Hfuel; [lia|].
  assert (Hstop : forall out : Outcome Value,
             exists w' out', Some (w, out) = Some (w', out')
               /\ (polls w <= polls w')%nat
               /\ k + Z.of_nat (polls w' - polls w)
                  <= Z.max k (T / I + 1)).
  { intros out; exists w, out. repeat split; [lia|].
    replace (polls w - polls w)%nat with 0%nat by lia. lia. }
  cbn [pollLoop].
  destruct (getProp p "status") as [st|e]; [|apply Hstop].
  destruct (terminalStatuses_has st); [apply Hstop|].
  fold T. destruct (now w - t0 >? T) eqn:Hlate; [apply Hstop|].
  assert (HkT : k <= T / I).
  { apply Z.div_le_lower_bound; [exact interval_pos|].
    rewrite Z.gtb_ltb, Z.ltb_ge in Hlate. nia. }
  fold I.
  destruct (toStringJs (get p "id")) as [id|].
  2:{ exists (sleep rm I w), (Threw OtherError).
      rewrite polls_sleep. repeat split; [lia|].
      replace (polls w - polls w)%nat with 0%nat by lia. lia. }
  pose proof (fetchJson_world rm (ReadPrediction token id) (sleep rm I w))
    as Hw.
  pose proof (polls_read rm token id (sleep rm I w)) as Hp.
  pose proof (now_after_poll rm token id I w) as Hn.
  rewrite <- Hw in Hp, Hn. rewrite polls_sleep in Hp.
  destruct (fetchJson rm (ReadPrediction token id) (sleep rm I w))
    as [w2 [[resp j]|e]]; simpl in Hp, Hn.
  2:{ exists w2, (Threw e). rewrite Hp. repeat split; [lia|].
      replace (S (polls w) - polls w)%nat with 1%nat by lia. lia. }
  destruct (negb (ok resp)).
  { eexists w2, _. split; [reflexivity|]. rewrite Hp. split; [lia|].
    replace (S (polls w) - polls w)%nat with 1%nat by lia. lia. }
  destruct (IH j w2 (k + 1)) as (w' & out & Hrun & Hle & Hbound).
  - lia.
  - pose proof (timers_wait (sleeps w) I).
    pose proof (clock_monotone (List.length (requests w))). nia.
  - replace (T / I + 1 - (k + 1)) with (T / I + 1 - k - 1) by lia.
    rewrite Z2Nat.inj_sub by lia.
    assert (0 < Z.to_nat (T / I + 1 - k))%nat by lia.
    change (Z.to_nat 1) with 1%nat. lia.
  - exists w', out. split; [exact Hrun|]. rewrite Hp in Hle, Hbound.
    split; [lia|].
    replace (Z.of_nat (polls w' - polls w))
      with (1 + Z.of_nat (polls w' - S (polls w))) by lia.
    lia.
Qed.
End Budget.

Section TimedOut.
Variables (cfg : Config) (rm : Remote) (token : string) (t0 : Z).
Hypothesis quiet : Spec.neverTerminal rm.

(** While nothing but pending snapshots come back, the only way out of
    the loop is the timeout, which carries the latest snapshot. *)
Lemma pollLoop_timeout :
  forall fuel p w w' out,
    Spec.pending p = true -> Spec.lastSnapshot rm w p ->
    pollLoop cfg rm token t0 fuel p w = Some (w', out) ->
    exists p', out = Threw (StatusError timeoutMessage 504 p')
               /\ Spec.lastSnapshot rm w' p'.
Proof.
  induction fuel as [|fuel IH]; intros p w w' out Hp Hlast; [discriminate|].
  cbn [pollLoop]. unfold Spec.pending in Hp.
  destruct (getProp p "status") as [st|]; [|discriminate].
  destruct (toStringJs (get p "id")) as [id|]; [|discriminate].
  apply negb_true_iff in Hp. rewrite Hp.
  destruct (now w - t0 >? waitTimeoutMs cfg).
  { intros H; inversion H; subst. exists p; auto. }
  destruct (quiet (List.length (requests w))) as (resp & j & Hr & Hok & Hb & Hj).
  unfold fetchJson, fetch. cbn [sleep requests]. rewrite Hr, Hb, Hok.
  cbn [negb]. apply IH; [exact Hj|].
  exists resp. cbn [requests]. rewrite length_app. cbn [List.length].
  replace (pred (List.length (requests w) + 1)) with (List.length (requests w))
    by lia.
  auto.
Qed.

(** The same run, turn by turn: every poll belongs to a turn whose
    elapsed-time check was passed before its sleep, and the loop is left
    at the first check that finds the budget exceeded. *)
Lemma pollLoop_timeout_turns :
  forall fuel p w w' out,
    Spec.pending p = true ->
    pollLoop cfg rm token t0 fuel p w = Some (w', out) ->
    exists p', out = Threw (StatusError timeoutMessage 504 p')
               /\ Spec.Reaches cfg rm token t0 (p, w) (p', w')
               /\ waitTimeoutMs cfg < now w' - t0.
Proof.
  induction fuel as [|fuel IH]; intros p w w' out Hp; [discriminate|].
  cbn [pollLoop]. unfold Spec.pending in Hp.
  destruct (getProp p "status") as [st|] eqn:Hst; [|discriminate].
  destruct (toStringJs (get p "id")) as [id|] eqn:Hid; [|discriminate].
  apply negb_true_iff in Hp. rewrite Hp.
  destruct (now w - t0 >? waitTimeoutMs cfg) eqn:Hlate.
  { intros H; inversion H; subst. exists p. split; [reflexivity|].
    split; [apply Relation_Operators.rt1n_refl|].
    apply Z.gtb_lt in Hlate. exact Hlate. }
  destruct (quiet (List.length (requests w))) as (resp & j & Hr & Hok & Hb & Hj).
  assert (Hfetch : exists w2,
             fetchJson rm (ReadPrediction token id)
               (sleep rm (pollIntervalMs cfg) w) = (w2, Returned (resp, j))).
  { unfold fetchJson, fetch. cbn [sleep requests]. rewrite Hr, Hb.
    eexists. reflexivity. }
  destruct Hfetch as [w2 Hfetch]. rewrite Hfetch, Hok. cbn [negb].
  intros Hrun. destruct (IH j w2 w' out Hj Hrun) as (p' & Hout & Hreach & Hel).
  exists p'. split; [exact Hout|]. split; [|exact Hel].
  apply Relation_Operators.rt1n_trans with (y := (j, w2)); [|exact Hreach].
  apply (Spec.poll_step cfg rm token t0 p w st id resp j w2); auto.
  rewrite Z.gtb_ltb in Hlate. apply Z.ltb_ge in Hlate. exact Hlate.
Qed.
End TimedOut.

Lemma div_le_ceilDiv a b : 0 < b -> a / b <= Spec.ceilDiv a b.
Proof.
  intros Hb. unfold Spec.ceilDiv.
  pose proof (Z.mul_div_le a b Hb). pose proof (Z.mul_div_le (- a) b Hb).
  pose proof (Z.mul_succ_div_gt a b Hb).
  pose proof (Z.mul_succ_div_gt (- a) b Hb). nia.
Qed.

Lemma getProp_of_get p k :
  get p k <> Undefined -> getProp p k = Returned (get p k).
Proof. destruct p; simpl; intros H; try reflexivity; congruence. Qed.

(** Once a terminal snapshot has been reached the loop hands it back. *)
Lemma pollLoop_reaches cfg rm token t0 x y :
  Spec.Reaches cfg rm token t0 x y ->
  get (fst y) "status" <> Undefined ->
  terminalStatuses_has (get (fst y) "status") = true ->
  exists fuel0, forall fuel, (fuel0 <= fuel)%nat ->
    pollLoop cfg rm token t0 fuel (fst x) (snd x)
    = Some (snd y, Returned (fst y)).
Proof.
  induction 1 as [[p w]|[p w] [p1 w1] z Hstep _ IH]; intros Hdef Hterm.
  - exists 1%nat. intros [|fuel] Hf; [lia|]. cbn [pollLoop fst snd].
    simpl in Hdef, Hterm. rewrite (getProp_of_get _ _ Hdef), Hterm.
    reflexivity.
  - destruct (IH Hdef Hterm) as [fuel0 Hrun]. exists (S fuel0).
    intros [|fuel] Hf; [lia|]. cbn [pollLoop fst snd].
    inversion Hstep as [? ? st id resp ? ? Hst Hnt Hel Hid Hfetch Hok];
      subst.
    rewrite Hst, Hnt, Hid, Hfetch, Hok.
    replace (now w - t0 >? waitTimeoutMs cfg) with false
      by (symmetry; rewrite Z.gtb_ltb; apply Z.ltb_ge; exact Hel).
    cbn [negb]. apply Hrun. lia.
Qed.

(** Every turn starts one timer and issues one poll. *)
Lemma reaches_counts cfg rm token t0 x y :
  Spec.Reaches cfg rm token t0 x y ->
  (sleeps (snd y) + polls (snd x) = sleeps (snd x) + polls (snd y))%nat.
Proof.
  induction 1 as [[p w]|[p w] [p1 w1] z Hstep _ IH]; [reflexivity|].
  inversion Hstep as [? ? st id resp ? ? Hst Hnt Hel Hid Hfetch Hok]; subst.
  apply fetchJson_returned in Hfetch as (Hw1 & _ & _).
  pose proof (polls_read rm token id (sleep rm (pollIntervalMs cfg) w)) as Hp.
  rewrite <- Hw1, polls_sleep in Hp.
  assert (Hs : sleeps w1 = S (sleeps w)) by (rewrite Hw1; reflexivity).
  cbn [snd] in *. lia.
Qed.

(** A run in which every reply is a pending job, turn by turn. *)
Lemma runner_timeout_turns
    (cfg : Config) (rm : Remote) (fuel : nat) (token : string)
    (rq : RequestBody) (w w' : World) (out : Outcome (Value * Z)) :
  Spec.neverTerminal rm ->
  createAndPollPrediction cfg rm fuel token rq w = Some (w', out) ->
  exists createResponse p0 w1 p,
    fetchJson rm (CreatePrediction token rq) w
    = (w1, Returned (createResponse, p0))
    /\ Spec.Reaches cfg rm token (now w1) (p0, w1) (p, w')
    /\ waitTimeoutMs cfg < now w' - now w1
    /\ (sleeps w' - sleeps w = polls w' - polls w)%nat
    /\ out = Threw (StatusError timeoutMessage 504 p)
    /\ Spec.lastSnapshot rm w' p.
Proof.
  intros Hquiet. unfold createAndPollPrediction.
  pose proof (polls_create rm token rq w) as Hp.
  rewrite <- (fetchJson_world rm (CreatePrediction token rq) w) in Hp.
  destruct (Hquiet (List.length (requests w))) as (r & j & Hr & Hokr & Hb & Hj).
  destruct (fetchJson rm (CreatePrediction token rq) w)
    as [w1 [[resp p0]|e]] eqn:Hcreate; simpl in Hp.
  2:{ exfalso. unfold fetchJson, fetch in Hcreate. rewrite Hr, Hb in Hcreate.
      discriminate. }
  pose proof Hcreate as Hcreated.
  apply fetchJson_returned in Hcreate as (Hw1 & Hr0 & Hb0).
  assert (r = resp) by congruence. subst r.
  assert (j = p0) by congruence. subst j.
  rewrite Hokr. cbn [negb].
  destruct (pollLoop cfg rm token (now w1) fuel p0 w1) as [[w2 o]|] eqn:Hrun;
    [|discriminate].
  destruct (pollLoop_timeout cfg rm token (now w1) Hquiet fuel p0 w1 w2 o)
    as (p1 & Hout1 & Hlast1); [exact Hj| |exact Hrun|].
  { exists resp. rewrite Hw1. unfold fetch; cbn [fst requests].
    rewrite length_app. cbn [List.length].
    replace (pred (List.length (requests w) + 1))
      with (List.length (requests w)) by lia.
    auto. }
  destruct (pollLoop_timeout_turns cfg rm token (now w1) Hquiet
              fuel p0 w1 w2 o Hj Hrun) as (p2 & Hout2 & Hreach & Hel).
  assert (p2 = p1) by congruence. subst p2. subst o.
  intros H. inversion H; subst w2 out.
  exists resp, p0, w1, p1.
  pose proof (reaches_counts _ _ _ _ _ _ Hreach) as Hcounts.
  cbn [snd] in Hcounts. rewrite Hp in Hcounts.
  assert (Hs1 : sleeps w1 = sleeps w) by (rewrite Hw1; reflexivity).
  rewrite Hs1 in Hcounts.
  repeat split; auto. lia.
Qed.

(** C1. When the job never becomes terminal the runner gives up with the
    timeout error (status 504) whose details are the last snapshot it
    received, whatever the interval [I], the budget [T], the timers and
    the clock are.  The run that leads there is a chain of loop turns,
    each of which found the elapsed time within [T] before it slept and
    polled, and it ends at the first check that finds the elapsed time
    above [T], with no sleep and no poll after that check (as many timers
    were started as polls were issued).  Because the check comes before
    each sleep, once a sleep takes at least [I > 0] ms and the clock does
    not run backwards the runner returns, whatever the provider answers,
    after at most [ceil(T/I)+1] polls, and at most 3 when [I = 10] and
    [T = 25]. *)
Theorem poll_count_within_budget
    (cfg : Config) (rm : Remote) (token : string) (rq : RequestBody)
    (w : World) (fuel : nat) :
  (Spec.neverTerminal rm ->
   forall w' out,
     createAndPollPrediction cfg rm fuel token rq w = Some (w', out) ->
     exists createResponse p0 w1 p,
       fetchJson rm (CreatePrediction token rq) w
       = (w1, Returned (createResponse, p0))
       /\ Spec.Reaches cfg rm token (now w1) (p0, w1) (p, w')
       /\ waitTimeoutMs cfg < now w' - now w1
       /\ (sleeps w' - sleeps w = polls w' - polls w)%nat
       /\ out = Threw (StatusError timeoutMessage 504 p)
       /\ Spec.lastSnapshot rm w' p
       /\ catchError (StatusError timeoutMessage 504 p)
          = respond 504 (ErrorBody timeoutMessage (DetailsValue p)))
  /\ (0 < pollIntervalMs cfg -> 0 <= waitTimeoutMs cfg ->
      Spec.honestTimers rm -> Spec.monotoneClock rm ->
      (Z.to_nat (waitTimeoutMs cfg / pollIntervalMs cfg) + 1 < fuel)%nat ->
      exists w' out,
        createAndPollPrediction cfg rm fuel token rq w = Some (w', out)
        /\ (polls w <= polls w')%nat
        /\ Z.of_nat (polls w' - polls w)
           <= Spec.ceilDiv (waitTimeoutMs cfg) (pollIntervalMs cfg) + 1
        /\ (pollIntervalMs cfg = 10 -> waitTimeoutMs cfg = 25 ->
            (polls w' - polls w <= 3)%nat)).
Proof.
  split.
  { intros Hquiet w' out Hrun.
    destruct (runner_timeout_turns _ _ _ _ _ _ _ _ Hquiet Hrun)
      as (r0 & p0 & w1 & p & H1 & H2 & H3 & H4 & H5 & H6).
    exists r0, p0, w1, p. repeat split; assumption. }
  intros HI HT Htimers Hclock Hfuel.
  set (I := pollIntervalMs cfg) in *. set (T := waitTimeoutMs cfg) in *.
  assert (Hq : 0 <= T / I) by (apply Z.div_pos; lia).
  pose proof (div_le_ceilDiv T I HI) as Hceil.
  unfold createAndPollPrediction.
  pose proof (fetchJson_world rm (CreatePrediction token rq) w) as Hw.
  pose proof (polls_create rm token rq w) as Hp. rewrite <- Hw in Hp.
  destruct (fetchJson rm (CreatePrediction token rq) w)
    as [w1 [[resp p0]|e]] eqn:Hcreate; simpl in Hp.
  2:{ exists w1, (Threw e). rewrite Hp.
      replace (polls w - polls w)%nat with 0%nat by lia.
      repeat split; try lia. }
  destruct (ok resp) eqn:Hok; cbn [negb].
  2:{ eexists w1, _. split; [reflexivity|]. rewrite Hp.
      replace (polls w - polls w)%nat with 0%nat by lia.
      repeat split; try lia. }
  destruct (pollLoop_bounded cfg rm token (now w1) HI Htimers Hclock
              fuel p0 w1 0) as (w' & out & Hrun & Hle & Hbound).
  { lia. } { lia. }
  { fold I T. replace (T / I + 1 - 0) with (T / I + 1) by lia.
    rewrite Z2Nat.inj_add by lia. change (Z.to_nat 1) with 1%nat. lia. }
  fold I T in Hbound. rewrite Hrun. rewrite Hp in Hle, Hbound.
  assert (Hcount : Z.of_nat (polls w' - polls w) <= T / I + 1) by lia.
  destruct out as [p|e].
  - exists w', (Returned (p, elapsedSeconds (now w' - now w1))).
    repeat split; try lia.
    intros HI10 HT25. fold I T in HI10, HT25. rewrite HI10, HT25 in Hcount.
    change (25 / 10) with 2 in Hcount. lia.
  - exists w', (Threw e). repeat split; try lia.
    intros HI10 HT25. fold I T in HI10, HT25. rewrite HI10, HT25 in Hcount.
    change (25 / 10) with 2 in Hcount. lia.
Qed.

Lemma stuck_neverTerminal : Spec.neverTerminal Fixtures.stuck.
Proof.
  intros n. eexists _, _. repeat split; reflexivity.
Qed.

Lemma poll_count_within_budget_witness :
  exists w' out,
    createAndPollPrediction Fixtures.cfg Fixtures.stuck 5 "r8_token"
      (ImageRequest "nano-banana-v1" Fixtures.catInput) Fixtures.start
    = Some (w', out)
    /\ Z.of_nat (polls w' - polls Fixtures.start) <= Spec.ceilDiv 25 10 + 1
    /\ (polls w' - polls Fixtures.start <= 3)%nat
    /\ exists createResponse p0 w1 p,
        fetchJson Fixtures.stuck
          (CreatePrediction "r8_token"
             (ImageRequest "nano-banana-v1" Fixtures.catInput))
          Fixtures.start
        = (w1, Returned (createResponse, p0))
        /\ Spec.Reaches Fixtures.cfg Fixtures.stuck "r8_token" (now w1)
             (p0, w1) (p, w')
        /\ 25 < now w' - now w1
        /\ (sleeps w' - sleeps Fixtures.start
            = polls w' - polls Fixtures.start)%nat
        /\ out = Threw (StatusError timeoutMessage 504 p)
        /\ Spec.lastSnapshot Fixtures.stuck w' p.
Proof.
  destruct (poll_count_within_budget Fixtures.cfg Fixtures.stuck "r8_token"
              (ImageRequest "nano-banana-v1" Fixtures.catInput)
              Fixtures.start 5) as [Hquiet Hbudget].
  destruct Hbudget as (w' & out & Hrun & _ & Hceil & Hthree).
  - reflexivity.
  - discriminate.
  - intros n d. apply Z.le_refl.
  - intros n. discriminate.
  - vm_compute. repeat constructor.
  - exists w', out. split; [exact Hrun|]. split; [exact Hceil|].
    split; [apply Hthree; reflexivity|].
    destruct (Hquiet stuck_neverTerminal w' out Hrun)
      as (r0 & p0 & w1 & p & Hcreate & Hreach & Hel & Hcount & Hout & Hlast & _).
    exists r0, p0, w1, p. repeat split; assumption.
Defined.

(** A budget that is already exceeded when the loop is entered: the
    timeout is declared at the first check, before any sleep or poll. *)
Example negative_budget_times_out_at_once :
  option_map (fun r => (polls (fst r), sleeps (fst r), snd r))
    (createAndPollPrediction
       {| REPLICATE_API_TOKEN := Some "r8_token";
          REPLICATE_DEFAULT_MODEL_KEY := None;
          REPLICATE_SEEDREAM_VERSION := None;
          REPLICATE_MODEL_VERSION := None;
          REPLICATE_NANO_BANANA_VERSION := None;
          REPLICATE_REFINE_MODEL_VERSION := None;
          pollIntervalMs := 10;
          waitTimeoutMs := -1 |}
       Fixtures.stuck 5 "r8_token"
       (ImageRequest "nano-banana-v1" Fixtures.catInput) Fixtures.start)
  = Some (0%nat, 0%nat,
          Threw (StatusError timeoutMessage 504 (Fixtures.job "processing"))).
Proof. vm_compute. reflexivity. Qed.

(** With exact timers the stuck job is polled at 10, 20 and 30 ms and the
    budget of 25 ms is found exceeded before a fourth poll. *)
Example stuck_job_is_polled_three_times :
  option_map (fun r => (polls (fst r), now (fst r), snd r))
    (createAndPollPrediction Fixtures.cfg Fixtures.stuck 5 "r8_token"
       (ImageRequest "nano-banana-v1" Fixtures.catInput) Fixtures.start)
  = Some (3%nat, 1030,
          Threw (StatusError timeoutMessage 504 (Fixtures.job "processing"))).
Proof. vm_compute. reflexivity. Qed.

(** C2. A status is terminal exactly when it is one of the strings
    "succeeded", "failed", "canceled" (so "processing", other spellings
    and non-strings are not); and a job that reaches "failed" or
    "canceled", at creation or after any number of polls, comes back from
    the runner as an ordinary result, which [/api/predictions] answers
    with 200 and the pair of elapsed time and prediction. *)
Theorem terminal_detection_and_failed_jobs :
  (forall v, terminalStatuses_has v = true
             <-> v = Str "succeeded" \/ v = Str "failed" \/ v = Str "canceled")
  /\ terminalStatuses_has (Str "processing") = false
  /\ terminalStatuses_has (Str "Succeeded") = false
  /\ (forall cfg rm reqBody token rq w w1 resp p0 p w2,
         preparePrediction cfg reqBody = Returned (Forward token rq) ->
         fetchJson rm (CreatePrediction token rq) w
         = (w1, Returned (resp, p0)) ->
         ok resp = true ->
         Spec.Reaches cfg rm token (now w1) (p0, w1) (p, w2) ->
         get p "status" = Str "failed" \/ get p "status" = Str "canceled" ->
         exists fuel0, forall fuel, (fuel0 <= fuel)%nat ->
           createAndPollPrediction cfg rm fuel token rq w
           = Some (w2, Returned (p, elapsedSeconds (now w2 - now w1)))
           /\ api_predictions cfg rm fuel reqBody w
              = Some (w2, respond 200
                          (PredictionBody
                             (elapsedSeconds (now w2 - now w1)) p))).
Proof.
  split; [exact terminal_iff|]. do 2 (split; [reflexivity|]).
  intros cfg rm reqBody token rq w w1 resp p0 p w2 Hprep Hcreate Hok Hreach Hst.
  destruct (pollLoop_reaches cfg rm token (now w1) _ _ Hreach)
    as [fuel0 Hrun].
  - simpl. destruct Hst as [-> | ->]; discriminate.
  - simpl. destruct Hst as [-> | ->]; reflexivity.
  - exists fuel0. intros fuel Hf.
    assert (Hcp : createAndPollPrediction cfg rm fuel token rq w
                  = Some (w2, Returned (p, elapsedSeconds (now w2 - now w1)))).
    { unfold createAndPollPrediction. rewrite Hcreate, Hok. cbn [negb].
      pose proof (Hrun fuel Hf) as Hloop. cbn [fst snd] in Hloop.
      rewrite Hloop. reflexivity. }
    split; [exact Hcp|].
    unfold api_predictions. rewrite Hprep, Hcp. reflexivity.
Qed.

Lemma terminal_detection_and_failed_jobs_witness :
  exists fuel0, forall fuel, (fuel0 <= fuel)%nat ->
    createAndPollPrediction Fixtures.cfg
      (Fixtures.settlesAs (Fixtures.job "failed")) fuel "r8_token"
      (ImageRequest "nano-banana-v1" Fixtures.catInput) Fixtures.start
    = Some ({| now := 1017;
               requests :=
                 [CreatePrediction "r8_token"
                    (ImageRequest "nano-banana-v1" Fixtures.catInput);
                  ReadPrediction "r8_token" "j1"];
               sleeps := 1 |},
            Returned (Fixtures.job "failed", elapsedSeconds (1017 - 1003)))
    /\ api_predictions Fixtures.cfg
         (Fixtures.settlesAs (Fixtures.job "failed")) fuel
         Fixtures.catRequest Fixtures.start
       = Some ({| now := 1017;
                  requests :=
                    [CreatePrediction "r8_token"
                       (ImageRequest "nano-banana-v1" Fixtures.catInput);
                     ReadPrediction "r8_token" "j1"];
                  sleeps := 1 |},
               respond 200
                 (PredictionBody (elapsedSeconds (1017 - 1003))
                    (Fixtures.job "failed"))).
Proof.
  destruct terminal_detection_and_failed_jobs as (_ & _ & _ & H).
  apply (H Fixtures.cfg (Fixtures.settlesAs (Fixtures.job "failed"))
           Fixtures.catRequest "r8_token"
           (ImageRequest "nano-banana-v1" Fixtures.catInput)
           Fixtures.start
           {| now := 1003;
              requests :=
                [CreatePrediction "r8_token"
                   (ImageRequest "nano-banana-v1" Fixtures.catInput)];
              sleeps := 0 |}
           {| status := 200; body := Some (Fixtures.job "starting") |}
           (Fixtures.job "starting") (Fixtures.job "failed")).
  - reflexivity.
  - reflexivity.
  - reflexivity.
  - unfold Spec.Reaches.
    eapply Relation_Operators.rt1n_trans;
      [|apply Relation_Operators.rt1n_refl].
    apply (Spec.poll_step _ _ _ _ _ _ (Str "starting") "j1"
             {| status := 200; body := Some (Fixtures.job "failed") |});
      try reflexivity.
    discriminate.
  - left. reflexivity.
Defined.

End RunnerProps.

(* ================================================================== *)
(** ** Properties of request normalisation *)

Module NormalizerProps.
Import Server.

Lemma keys_setProp k k' v ps :
  In k (map fst (setProp k' v ps)) -> k = k' \/ In k (map fst ps).
Proof.
  induction ps as [|[k0 x] r IH]; simpl.
  - intros [H|[]]; auto.
  - destruct (String.eqb k' k0) eqn:E; simpl.
    + apply String.eqb_eq in E. subst. intros [H|H]; auto.
    + intros [H|H]; auto. destruct (IH H); auto.
Qed.

Lemma lookup_setProp_same k v ps : lookup k (setProp k v ps) = Some v.
Proof.
  induction ps as [|[k0 x] r IH]; simpl.
  - rewrite String.eqb_refl. reflexivity.
  - destruct (String.eqb k k0) eqn:E; simpl; rewrite E; auto.
Qed.

Lemma lookup_setProp_other k k' v ps :
  k <> k' -> lookup k (setProp k' v ps) = lookup k ps.
Proof.
  intros Hne. induction ps as [|[k0 x] r IH]; simpl.
  - apply String.eqb_neq in Hne. rewrite Hne. reflexivity.
  - destruct (String.eqb k' k0) eqn:E; simpl.
    + apply String.eqb_eq in E. subst k0.
      apply String.eqb_neq in Hne. rewrite Hne. reflexivity.
    + destruct (String.eqb k k0); auto.
Qed.

Lemma keys_withImageInput k imageInput ps :
  In k (map fst (withImageInput imageInput ps)) ->
  k = "image_input" \/ In k (map fst ps).
Proof.
  destruct imageInput; simpl; auto. apply keys_setProp.
Qed.

Lemma keys_setDimension k d parsed ps :
  In k (map fst (setDimension d parsed ps)) -> k = d \/ In k (map fst ps).
Proof.
  destruct parsed; simpl; auto. apply keys_setProp.
Qed.

Lemma lookup_withImageInput k imageInput ps :
  k <> "image_input" -> lookup k (withImageInput imageInput ps) = lookup k ps.
Proof.
  intros Hne. destruct imageInput; simpl; auto.
  apply lookup_setProp_other; exact Hne.
Qed.

Lemma lookup_setDimension_same d parsed ps :
  lookup d ps = None ->
  lookup d (setDimension d parsed ps)
  = option_map (fun n => ofInt (clampNumber n 1024 4096)) parsed.
Proof.
  intros Hnone. destruct parsed; simpl; auto. apply lookup_setProp_same.
Qed.

Lemma lookup_setDimension_other k d parsed ps :
  k <> d -> lookup k (setDimension d parsed ps) = lookup k ps.
Proof.
  intros Hne. destruct parsed; simpl; auto.
  apply lookup_setProp_other; exact Hne.
Qed.

Lemma clampNumber_bounds n lo hi :
  lo <= hi -> lo <= clampNumber n lo hi <= hi.
Proof. unfold clampNumber. lia. Qed.

Lemma existsb_eqb_In s l : existsb (String.eqb s) l = true <-> In s l.
Proof.
  rewrite existsb_exists. split.
  - intros (x & Hin & Heq). apply String.eqb_eq in Heq. subst. exact Hin.
  - intros Hin. exists s. split; [exact Hin|apply String.eqb_refl].
Qed.

(** What a successful run of the synchronous part went through. *)
Lemma preparePrediction_forward cfg reqBody token version input :
  preparePrediction cfg reqBody
  = Returned (Forward token (ImageRequest version input)) ->
  let body := orElse reqBody (Obj []) in
  let modelKey := resolveModelKey cfg body in
  envOr (REPLICATE_API_TOKEN cfg) None = Some token
  /\ (exists config, MODEL_CONFIG cfg modelKey = Some config
                     /\ entryVersion config = Some version)
  /\ isEmpty (trim (stringOr (get body "prompt") EmptyString)) = false
  /\ buildInput modelKey body (trim (stringOr (get body "prompt") EmptyString))
     = Returned input.
Proof.
  unfold preparePrediction. cbv zeta.
  destruct (envOr (REPLICATE_API_TOKEN cfg) None) as [tk|]; [|discriminate].
  destruct (MODEL_CONFIG cfg _) as [config|]; [|discriminate].
  destruct (entryVersion config) as [ver|] eqn:Hver; [|discriminate].
  destruct (isEmpty _) eqn:Hprompt; [discriminate|].
  destruct (buildInput _ _ _) as [inp|e]; simpl; [|discriminate].
  intros H; inversion H; subst. repeat split; eauto.
Qed.

Lemma resolved_model_key cfg key config version :
  MODEL_CONFIG cfg key = Some config -> entryVersion config = Some version ->
  key = "seedream" \/ key = "nano-banana".
Proof.
  unfold MODEL_CONFIG.
  destruct (String.eqb key "seedream") eqn:E1;
    [apply String.eqb_eq in E1; auto|].
  destruct (String.eqb key "nano-banana") eqn:E2;
    [apply String.eqb_eq in E2; auto|].
  destruct (_ || _)%bool; [|discriminate].
  intros H; inversion H; subst. discriminate.
Qed.

(** The seedream branch, spelled out. *)
Lemma seedreamInput_returned body prompt imageInput input :
  seedreamInput body prompt imageInput = Returned input ->
  exists maxImages base,
    1 <= maxImages <= 15
    /\ base = [("prompt", Str prompt);
               ("size", Str (normalizeSize (get body "size")));
               ("aspect_ratio",
                 Str (stringOr (get body "aspect_ratio") "match_input_image"));
               ("sequential_image_generation",
                 Str (stringOr (get body "sequential_image_generation")
                        "disabled"));
               ("max_images", ofInt maxImages)]
    /\ ((normalizeSize (get body "size") <> "custom"
         /\ input = withImageInput imageInput base)
        \/ (normalizeSize (get body "size") = "custom"
            /\ exists pw ph,
                parseInt (get body "width") = Returned pw
                /\ parseInt (get body "height") = Returned ph
                /\ input = withImageInput imageInput
                             (setDimension "height" ph
                                (setDimension "width" pw base)))).
Proof.
  unfold seedreamInput.
  destruct (parseInt (get body "max_images")) as [pm|]; [|discriminate].
  cbn [bindO].
  set (maxImages := match pm with
                    | Some n => clampNumber n (fst MAX_IMAGES_LIMITS)
                                  (snd MAX_IMAGES_LIMITS)
                    | None => 1
                    end).
  assert (Hmax : 1 <= maxImages <= 15).
  { subst maxImages. destruct pm; [|lia].
    apply clampNumber_bounds. simpl. lia. }
  destruct (String.eqb (normalizeSize (get body "size")) "custom") eqn:Hsize.
  - apply String.eqb_eq in Hsize.
    destruct (parseInt (get body "width")) as [pw|]; [|discriminate].
    destruct (parseInt (get body "height")) as [ph|]; [|discriminate].
    cbn [bindO]. intros H; inversion H; subst.
    eexists maxImages, _. split; [exact Hmax|]. split; [reflexivity|].
    right. split; [exact Hsize|]. exists pw, ph. auto.
  - apply String.eqb_neq in Hsize. cbn [bindO].
    intros H; inversion H; subst.
    eexists maxImages, _. split; [exact Hmax|]. split; [reflexivity|].
    left. auto.
Qed.

(** C3. Whenever a request body with a supported model key and a
    non-empty prompt is normalised, the input object carries only fields
    of that model's variant; and for model_key "nano-banana", prompt
    "a cat" and no image_input (nor aspect_ratio or output_format) it is
    exactly prompt "a cat", aspect_ratio "16:9", output_format "jpg",
    whatever else the body holds, so none of size,
    sequential_image_generation, max_images, width, height is present. *)
Theorem normalized_input_has_only_variant_fields :
  (forall cfg reqBody token version input,
      preparePrediction cfg reqBody
      = Returned (Forward token (ImageRequest version input)) ->
      let modelKey := resolveModelKey cfg (orElse reqBody (Obj [])) in
      (modelKey = "seedream" \/ modelKey = "nano-banana")
      /\ (forall k, In k (map fst input) -> In k (Spec.variantFields modelKey))
      /\ (modelKey = "nano-banana" ->
          forall k, In k Spec.seedreamOnly -> lookup k input = None))
  /\ (forall cfg body token version,
         envOr (REPLICATE_API_TOKEN cfg) None = Some token ->
         envOr (REPLICATE_NANO_BANANA_VERSION cfg) None = Some version ->
         get body "model_key" = Str "nano-banana" ->
         get body "prompt" = Str "a cat" ->
         get body "aspect_ratio" = Undefined ->
         get body "output_format" = Undefined ->
         get body "image_input" = Undefined ->
         preparePrediction cfg body
         = Returned (Forward token (ImageRequest version Fixtures.catInput))).
Proof.
  split.
  - intros cfg reqBody token version input Hprep.
    apply preparePrediction_forward in Hprep.
    cbv zeta in Hprep. destruct Hprep as (_ & (config & Hcfg & Hver) & _ & Hbuild).
    cbv zeta. set (body := orElse reqBody (Obj [])) in *.
    set (modelKey := resolveModelKey cfg body) in *.
    pose proof (resolved_model_key _ _ _ _ Hcfg Hver) as Hkey.
    split; [exact Hkey|].
    unfold buildInput in Hbuild.
    destruct Hkey as [Hkey|Hkey]; rewrite Hkey in *; simpl in Hbuild.
    + apply seedreamInput_returned in Hbuild.
      destruct Hbuild as (mx & base & _ & Hbase & Hinput).
      split; [|discriminate].
      intros k Hk. change (Spec.variantFields "seedream")
        with (["prompt"; "aspect_ratio"; "image_input"] ++ Spec.seedreamOnly)%list.
      destruct Hinput as [[_ ->]|[_ (pw & ph & _ & _ & ->)]].
      * apply keys_withImageInput in Hk. subst base. simpl in Hk.
        simpl. intuition auto.
      * apply keys_withImageInput in Hk. destruct Hk as [Hk|Hk];
          [subst; in_list|].
        apply keys_setDimension in Hk. destruct Hk as [Hk|Hk];
          [subst; in_list|].
        apply keys_setDimension in Hk. destruct Hk as [Hk|Hk];
          [subst; in_list|].
        subst base. simpl in Hk. simpl. intuition auto.
    + inversion Hbuild; subst input. unfold otherInput. split.
      * intros k Hk. apply keys_withImageInput in Hk. simpl in Hk.
        simpl. intuition auto.
      * intros _ k Hk.
        rewrite lookup_withImageInput
          by (intros ->; simpl in Hk; intuition discriminate).
        simpl in Hk. destruct Hk as [<-|[<-|[<-|[<-|[<-|[]]]]]]; reflexivity.
  - intros cfg body token version Htoken Hver Hkey Hprompt Har Hof Him.
    assert (Hbody : orElse body (Obj []) = body).
    { destruct body; simpl in Hkey; try discriminate. reflexivity. }
    unfold preparePrediction. rewrite Htoken, Hbody.
    unfold resolveModelKey. rewrite Hkey.
    change (toLowerCase (envOrDefault (Some "nano-banana") (DEFAULT_MODEL_KEY cfg)))
      with "nano-banana".
    change (MODEL_CONFIG cfg "nano-banana")
      with (Some (Entry "REPLICATE_NANO_BANANA_VERSION"
                    (REPLICATE_NANO_BANANA_VERSION cfg))).
    cbn [entryVersion]. rewrite Hver, Hprompt.
    unfold buildInput, otherInput, imageInputOf. rewrite Har, Hof, Him.
    reflexivity.
Qed.

Lemma normalized_input_has_only_variant_fields_witness :
  (("nano-banana" = "seedream" \/ "nano-banana" = "nano-banana")
   /\ (forall k, In k (map fst Fixtures.catInput) ->
                 In k (Spec.variantFields "nano-banana"))
   /\ ("nano-banana" = "nano-banana" ->
       forall k, In k Spec.seedreamOnly -> lookup k Fixtures.catInput = None))
  /\ preparePrediction Fixtures.cfg Fixtures.catRequest
     = Returned (Forward "r8_token"
                   (ImageRequest "nano-banana-v1" Fixtures.catInput)).
Proof.
  split.
  - apply (proj1 normalized_input_has_only_variant_fields
             Fixtures.cfg Fixtures.catRequest "r8_token" "nano-banana-v1"
             Fixtures.catInput).
    reflexivity.
  - apply (proj2 normalized_input_has_only_variant_fields
             Fixtures.cfg Fixtures.catRequest "r8_token" "nano-banana-v1");
      reflexivity.
Defined.

(** A blank prompt is not always answered with the prompt-required
    response: the token and the model key are checked first, so a blank
    prompt sent with an unknown model key is answered with the
    unsupported-model response, and without a token with 500. *)
Lemma blank_prompt_other_rejection_counterexample :
  trim "   " = EmptyString
  /\ api_predictions Fixtures.cfg Fixtures.stuck 5
       (Obj [("model_key", Str "dall-e"); ("prompt", Str "   ")])
       Fixtures.start
     = Some (Fixtures.start, unsupportedModel "dall-e")
  /\ unsupportedModel "dall-e" <> missingPrompt
  /\ api_predictions Fixtures.tokenless Fixtures.stuck 5
       (Obj [("model_key", Str "seedream"); ("prompt", Str "   ")])
       Fixtures.start
     = Some (Fixtures.start, missingToken)
  /\ statusCode missingToken = 500
  /\ statusCode missingPrompt = 400.
Proof.
  repeat split; try reflexivity. discriminate.
Qed.

(** C4 (amended). A request whose prompt is not a string, or is empty
    once trimmed (the blank prompt of three spaces included), is answered
    without any request to the provider: the world is handed back
    untouched.  The answer is that of the first check that fails, in the
    handler's order: no token (500), unknown model key (400), no version
    configured for the model (500), and only then the 400 response saying
    that the prompt field is required, decided on the trimmed prompt. *)
Theorem blank_prompt_is_rejected_before_any_request
    (cfg : Config) (rm : Remote) (fuel : nat) (reqBody : Value) (w : World) :
  let body := orElse reqBody (Obj []) in
  let modelKey := resolveModelKey cfg body in
  (forall s, get body "prompt" <> Str s)
  \/ (exists s, get body "prompt" = Str s /\ trim s = EmptyString) ->
  api_predictions cfg rm fuel reqBody w
  = Some (w,
          match envOr (REPLICATE_API_TOKEN cfg) None with
          | None => missingToken
          | Some _ =>
              match MODEL_CONFIG cfg modelKey with
              | None => unsupportedModel modelKey
              | Some config =>
                  match entryVersion config with
                  | None => missingVersion modelKey config
                  | Some _ => missingPrompt
                  end
              end
          end)
  /\ (forall token config version,
         envOr (REPLICATE_API_TOKEN cfg) None = Some token ->
         MODEL_CONFIG cfg modelKey = Some config ->
         entryVersion config = Some version ->
         preparePrediction cfg reqBody = Returned (Reject missingPrompt)
         /\ api_predictions cfg rm fuel reqBody w = Some (w, missingPrompt))
  /\ statusCode missingToken = 500
  /\ (forall key, statusCode (unsupportedModel key) = 400)
  /\ (forall key config, statusCode (missingVersion key config) = 500)
  /\ statusCode missingPrompt = 400
  /\ trim "   " = EmptyString.
Proof.
  intros body modelKey Hprompt.
  assert (Hblank : isEmpty (trim (stringOr (get body "prompt") EmptyString))
                   = true).
  { destruct Hprompt as [Hns|(s & Hs & Hts)].
    - destruct (get body "prompt"); try reflexivity. destruct (Hns s); reflexivity.
    - rewrite Hs. simpl. rewrite Hts. reflexivity. }
  assert (Hprep :
            forall token config version,
              envOr (REPLICATE_API_TOKEN cfg) None = Some token ->
              MODEL_CONFIG cfg modelKey = Some config ->
              entryVersion config = Some version ->
              preparePrediction cfg reqBody = Returned (Reject missingPrompt)).
  { intros token config version Ht Hc Hv. unfold preparePrediction.
    fold body. fold modelKey. rewrite Ht, Hc, Hv, Hblank. reflexivity. }
  split; [|split; [|repeat split]].
  - unfold api_predictions, preparePrediction. fold body. fold modelKey.
    destruct (envOr (REPLICATE_API_TOKEN cfg) None) as [token|];
      [|reflexivity].
    destruct (MODEL_CONFIG cfg modelKey) as [config|]; [|reflexivity].
    destruct (entryVersion config) as [version|]; [|reflexivity].
    rewrite Hblank. reflexivity.
  - intros token config version Ht Hc Hv.
    pose proof (Hprep token config version Ht Hc Hv) as H.
    split; [exact H|].
    unfold api_predictions. rewrite H. reflexivity.
Qed.

Lemma blank_prompt_is_rejected_before_any_request_witness :
  api_predictions Fixtures.cfg Fixtures.stuck 5
    (Obj [("model_key", Str "seedream"); ("prompt", Str (nbsp ++ "  "))])
    Fixtures.start
  = Some (Fixtures.start, missingPrompt)
  /\ statusCode missingPrompt = 400.
Proof.
  destruct (blank_prompt_is_rejected_before_any_request Fixtures.cfg
              Fixtures.stuck 5
              (Obj [("model_key", Str "seedream");
                    ("prompt", Str (nbsp ++ "  "))])
              Fixtures.start) as (_ & Hreject & _ & _ & _ & Hstatus & _).
  - right. exists (nbsp ++ "  "). split; reflexivity.
  - destruct (Hreject "r8_token"
                (Entry "REPLICATE_SEEDREAM_VERSION" (Some "seedream-v4"))
                "seedream-v4") as (_ & Hanswer);
      try reflexivity.
    split; assumption.
Defined.

Lemma sameUnits_eq (a b : list nat) : sameUnits a b = true <-> a = b.
Proof.
  revert b. induction a as [|x a IH]; intros [|y b]; simpl;
    try (split; [discriminate | discriminate]); [tauto|].
  rewrite andb_true_iff, Nat.eqb_eq, IH. split.
  - intros [-> ->]. reflexivity.
  - intros E. inversion E. split; reflexivity.
Qed.

Lemma units_inj (a b : string) : units a = units b -> a = b.
Proof.
  revert b. induction a as [|x a IH]; intros [|y b] E; simpl in E;
    try discriminate; [reflexivity|].
  inversion E as [[Hc Hr]]. unfold code in Hc.
  rewrite <- (ascii_nat_embedding x), <- (ascii_nat_embedding y), Hc.
  f_equal. apply IH, Hr.
Qed.

Lemma includes_found (choices : list string) (u : list nat) (k : string) :
  includes choices u = Some k -> In k choices /\ u = units k.
Proof.
  unfold includes. intros H. apply find_some in H as [Hin Hs].
  apply sameUnits_eq in Hs. split; assumption.
Qed.

Lemma includes_of (choices : list string) (k : string) :
  In k choices -> includes choices (units k) = Some k.
Proof.
  unfold includes. induction choices as [|c r IH]; intros Hin; [destruct Hin|].
  simpl. destruct (sameUnits (units k) (units c)) eqn:E.
  - apply sameUnits_eq, units_inj in E. subst. reflexivity.
  - destruct Hin as [->|Hin]; [|apply IH, Hin].
    assert (sameUnits (units k) (units k) = true) as E'
        by (apply sameUnits_eq; reflexivity).
    rewrite E' in E. discriminate.
Qed.

Lemma includes_none (choices : list string) (u : list nat) :
  (forall k, In k choices -> u <> units k) -> includes choices u = None.
Proof.
  intros H. destruct (includes choices u) as [k|] eqn:E; [|reflexivity].
  apply includes_found in E as [Hin ->]. destruct (H k Hin). reflexivity.
Qed.

(** Size normalisation does more than adjust case: " 4k" is neither
    "custom" in lower case nor one of the three sizes in upper case, yet
    it does not default to "2K". *)
Lemma size_case_only_counterexample :
  toLowerCase " 4k" <> "custom"
  /\ (forall k, In k ["1K"; "2K"; "4K"] -> toUpperCase " 4k" <> units k)
  /\ Spec.sizeByCase (Str " 4k") = "2K"
  /\ normalizeSize (Str " 4k") = "4K"
  /\ normalizeSize (Str " 4k") <> Spec.sizeByCase (Str " 4k").
Proof.
  repeat split; try reflexivity; try discriminate.
  simpl. intros k [<-|[<-|[<-|[]]]]; discriminate.
Qed.

(** C7 (amended). The raw size is trimmed first; then it becomes "custom"
    when the lower-cased trimmed text is "custom", the upper-cased trimmed
    text when that is "1K", "2K" or "4K", and "2K" in every other case,
    a missing, empty or non-string value included. *)
Theorem size_is_trimmed_then_case_normalised (raw : Value) :
  normalizeSize raw = Spec.sizeByTrimmedCase raw
  /\ In (normalizeSize raw) ["1K"; "2K"; "4K"; "custom"]
  /\ (forall s, raw = Str s -> toLowerCase (trim s) = "custom" ->
                normalizeSize raw = "custom")
  /\ (forall s size, raw = Str s -> toLowerCase (trim s) <> "custom" ->
                In size ["1K"; "2K"; "4K"] ->
                toUpperCase (trim s) = units size ->
                normalizeSize raw = size)
  /\ (forall s, raw = Str s -> toLowerCase (trim s) <> "custom" ->
                (forall size, In size ["1K"; "2K"; "4K"] ->
                              toUpperCase (trim s) <> units size) ->
                normalizeSize raw = "2K")
  /\ ((forall s, raw <> Str s) -> normalizeSize raw = "2K").
Proof.
  assert (Hstr : forall s,
             normalizeSize (Str s)
             = if String.eqb (toLowerCase (trim s)) "custom" then "custom"
               else match includes ["1K"; "2K"; "4K"] (toUpperCase (trim s))
                    with Some size => size | None => "2K" end)
    by reflexivity.
  split; [destruct raw; reflexivity|].
  split.
  { destruct raw; try (simpl; tauto). rewrite Hstr.
    destruct (String.eqb (toLowerCase (trim s)) "custom"); [in_list|].
    destruct (includes _ _) as [k|] eqn:E; [|in_list].
    apply includes_found in E as [Hin _]. simpl in Hin. simpl. tauto. }
  split; [|split; [|split]].
  - intros s -> Hl. rewrite Hstr. apply String.eqb_eq in Hl.
    rewrite Hl. reflexivity.
  - intros s size -> Hl Hin Hu. rewrite Hstr. apply String.eqb_neq in Hl.
    rewrite Hl, Hu, (includes_of _ _ Hin). reflexivity.
  - intros s -> Hl Hu. rewrite Hstr. apply String.eqb_neq in Hl. rewrite Hl.
    rewrite (includes_none _ _ Hu). reflexivity.
  - intros Hns. destruct raw; try reflexivity. destruct (Hns s); reflexivity.
Qed.

Lemma size_is_trimmed_then_case_normalised_witness :
  normalizeSize (Str (nbsp ++ " 4k" ++ nbsp)) = "4K"
  /\ normalizeSize (Str "  CuStOm") = "custom"
  /\ normalizeSize (Str "8k") = "2K"
  /\ normalizeSize (ofInt 4) = "2K".
Proof.
  split; [|split; [|split]].
  - apply (proj1 (proj2 (proj2 (proj2
             (size_is_trimmed_then_case_normalised
                (Str (nbsp ++ " 4k" ++ nbsp))))))
             (nbsp ++ " 4k" ++ nbsp) "4K").
    + reflexivity.
    + discriminate.
    + simpl. tauto.
    + reflexivity.
  - apply (proj1 (proj2 (proj2
             (size_is_trimmed_then_case_normalised (Str "  CuStOm"))))
             "  CuStOm"); reflexivity.
  - apply (proj1 (proj2 (proj2 (proj2 (proj2
             (size_is_trimmed_then_case_normalised (Str "8k")))))) "8k").
    + reflexivity.
    + discriminate.
    + simpl. intros size [<-|[<-|[<-|[]]]]; discriminate.
  - apply (proj2 (proj2 (proj2 (proj2 (proj2
             (size_is_trimmed_then_case_normalised (ofInt 4))))))).
    intros s. discriminate.
Defined.

(** C6. When the normalised size is "custom", width and height are each
    parsed with [parseInt] on their own: a dimension whose parse is NaN
    (such as width "abc") is left out of the input with nothing put in
    its place, the other one being unaffected, and a dimension that
    parses is present as its value clamped into [1024, 4096]. *)
Theorem custom_dimensions_are_parsed_independently
    (cfg : Config) (reqBody : Value) (token version : string)
    (input : list (string * Value)) :
  preparePrediction cfg reqBody
  = Returned (Forward token (ImageRequest version input)) ->
  lookup "size" input = Some (Str "custom") ->
  let body := orElse reqBody (Obj []) in
  let clamped := option_map (fun n => ofInt (clampNumber n 1024 4096)) in
  exists pw ph,
    parseInt (get body "width") = Returned pw
    /\ parseInt (get body "height") = Returned ph
    /\ lookup "width" input = clamped pw
    /\ lookup "height" input = clamped ph
    /\ (forall n, 1024 <= clampNumber n 1024 4096 <= 4096)
    /\ (get body "width" = Str "abc" ->
        lookup "width" input = None /\ lookup "height" input = clamped ph).
Proof.
  intros Hprep Hsize body clamped.
  apply preparePrediction_forward in Hprep. cbv zeta in Hprep. fold body in Hprep.
  destruct Hprep as (_ & (config & Hcfg & Hver) & _ & Hbuild).
  pose proof (resolved_model_key _ _ _ _ Hcfg Hver) as Hkey.
  unfold buildInput in Hbuild.
  destruct Hkey as [Hkey|Hkey]; rewrite Hkey in Hbuild; simpl in Hbuild.
  2:{ inversion Hbuild; subst input. unfold otherInput in Hsize.
      rewrite lookup_withImageInput in Hsize by discriminate.
      discriminate. }
  apply seedreamInput_returned in Hbuild.
  destruct Hbuild as (mx & base & _ & Hbase & Hinput).
  destruct Hinput as [[Hnc ->]|[_ (pw & ph & Hpw & Hph & ->)]].
  { rewrite lookup_withImageInput in Hsize by discriminate.
    subst base. simpl in Hsize. congruence. }
  assert (Hw : lookup "width" (withImageInput (imageInputOf body)
                 (setDimension "height" ph (setDimension "width" pw base)))
               = clamped pw).
  { rewrite lookup_withImageInput by discriminate.
    rewrite lookup_setDimension_other by discriminate.
    apply lookup_setDimension_same. subst base. reflexivity. }
  assert (Hh : lookup "height" (withImageInput (imageInputOf body)
                 (setDimension "height" ph (setDimension "width" pw base)))
               = clamped ph).
  { rewrite lookup_withImageInput by discriminate.
    apply lookup_setDimension_same.
    rewrite lookup_setDimension_other by discriminate.
    subst base. reflexivity. }
  exists pw, ph. repeat split; auto.
  - apply clampNumber_bounds; lia.
  - apply clampNumber_bounds; lia.
  - rewrite Hw.
    match goal with Habc : get body "width" = _ |- _ => rewrite Habc in Hpw end.
    inversion Hpw. reflexivity.
Qed.

Lemma custom_dimensions_are_parsed_independently_witness :
  exists ph,
    parseInt (get Fixtures.customRequest "height") = Returned ph
    /\ lookup "width" Fixtures.customInput = None
    /\ lookup "height" Fixtures.customInput
       = option_map (fun n => ofInt (clampNumber n 1024 4096)) ph.
Proof.
  destruct (custom_dimensions_are_parsed_independently Fixtures.cfg
              Fixtures.customRequest "r8_token" "seedream-v4"
              Fixtures.customInput)
    as (pw & ph & _ & Hph & _ & _ & _ & Habc); try reflexivity.
  exists ph. split; [exact Hph|]. apply Habc. reflexivity.
Defined.

(** A number that prints in exponent form is read up to its first
    non-digit, a fraction up to its point, and the white space [parseInt]
    skips includes the no-break space. *)
Example custom_dimensions_printed_forms :
  parseInt (Num "1e+21") = Returned (Some 1)
  /\ parseInt (Num "2048.75") = Returned (Some 2048)
  /\ parseInt (Str (nbsp ++ " 2048")) = Returned (Some 2048)
  /\ preparePrediction Fixtures.cfg
       (Obj [("prompt", Str "a city"); ("size", Str "custom");
             ("width", Num "1e+21"); ("height", Str (nbsp ++ "2048"))])
     = Returned (Forward "r8_token"
         (ImageRequest "seedream-v4"
            [("prompt", Str "a city"); ("size", Str "custom");
             ("aspect_ratio", Str "match_input_image");
             ("sequential_image_generation", Str "disabled");
             ("max_images", ofInt 1); ("width", ofInt 1024);
             ("height", ofInt 2048)])).
Proof. vm_compute. repeat split. Qed.

(** Out-of-range and partly numeric dimensions. *)
Example custom_dimensions_clamped :
  preparePrediction Fixtures.cfg
    (Obj [("prompt", Str " a city "); ("size", Str "Custom");
          ("width", ofInt 99999); ("height", Str " 12px");
          ("max_images", Str "999")])
  = Returned (Forward "r8_token"
      (ImageRequest "seedream-v4"
         [("prompt", Str "a city"); ("size", Str "custom");
          ("aspect_ratio", Str "match_input_image");
          ("sequential_image_generation", Str "disabled");
          ("max_images", ofInt 15); ("width", ofInt 4096);
          ("height", ofInt 1024)])).
Proof. vm_compute. reflexivity. Qed.

End NormalizerProps.

(* ================================================================== *)
(** ** Properties of image extraction *)

Module ImageProps.
Import Client.

Lemma strip_trimStart s : stripWhiteSpace (trimStart s) = stripWhiteSpace s.
Proof.
  induction s as [|c r IH]; [reflexivity|].
  unfold stripWhiteSpace in *. simpl.
  destruct (isWhiteSpace c) eqn:E; simpl; [exact IH|].
  rewrite E. reflexivity.
Qed.

Lemma strip_trimEnd s : stripWhiteSpace (trimEnd s) = stripWhiteSpace s.
Proof.
  induction s as [|c r IH]; [reflexivity|].
  unfold stripWhiteSpace in *. cbn [trimEnd].
  destruct (isWhiteSpace c) eqn:E; cbn [andb].
  - destruct (isEmpty (trimEnd r)) eqn:Er.
    + destruct (trimEnd r); [|discriminate].
      simpl. rewrite E. simpl. rewrite <- IH. reflexivity.
    + simpl. rewrite E. simpl. exact IH.
  - simpl. rewrite E. simpl. rewrite IH. reflexivity.
Qed.

(** Stripping every white space makes the earlier trim invisible. *)
Lemma strip_trim s : stripWhiteSpace (trim s) = stripWhiteSpace s.
Proof. unfold trim. rewrite strip_trimEnd. apply strip_trimStart. Qed.

Lemma keepAlnum_alnum s : allChars isAlnum (keepAlnum s) = true.
Proof.
  induction s as [|c r IH]; [reflexivity|].
  unfold keepAlnum in *. simpl. destruct (isAlnum c) eqn:E; [|exact IH].
  simpl. rewrite E. exact IH.
Qed.

Lemma format_usable ext :
  let format := strOr (keepAlnum ext) "jpeg" in
  allChars isAlnum format = true /\ isEmpty format = false.
Proof.
  cbv zeta. unfold strOr. destruct (isEmpty (keepAlnum ext)) eqn:E.
  - split; reflexivity.
  - split; [apply keepAlnum_alnum|exact E].
Qed.

(** What [normalizeImageValue] returns is never the empty string, so the
    truthiness tests on its result only tell [null] apart. *)
Lemma normalized_nonempty pg v mk r :
  normalizeImageValue pg v mk = Some r -> isEmpty r = false.
Proof.
  destruct v; simpl; try discriminate.
  destruct (isEmpty (trim s)) eqn:E; [discriminate|].
  destruct (hasScheme (trim s)).
  - intros H; inversion H; subst. exact E.
  - destruct (_ && _)%bool; [|discriminate].
    intros H; inversion H. reflexivity.
Qed.

Lemma usable_normalized pg v mk :
  usable (normalizeImageValue pg v mk)
  = match normalizeImageValue pg v mk with Some _ => true | None => false end.
Proof.
  destruct (normalizeImageValue pg v mk) as [r|] eqn:E; [|reflexivity].
  simpl. rewrite (normalized_nonempty _ _ _ _ E). reflexivity.
Qed.

Lemma firstNormalized_firstSuccess pg mk sources :
  firstNormalized pg mk sources
  = Spec.firstSuccess (fun c => normalizeImageValue pg c mk) sources.
Proof.
  induction sources as [|x r IH]; [reflexivity|].
  simpl. rewrite usable_normalized.
  destruct (normalizeImageValue pg x mk); auto.
Qed.

Lemma firstSuccess_app {A B} (f : A -> option B) l1 l2 :
  Spec.firstSuccess f (l1 ++ l2)%list
  = match Spec.firstSuccess f l1 with
    | Some y => Some y
    | None => Spec.firstSuccess f l2
    end.
Proof.
  induction l1 as [|x r IH]; [reflexivity|].
  simpl. destruct (f x); auto.
Qed.

Lemma scanItem_candidates pg mk item :
  scanItem pg mk item
  = Spec.firstSuccess (fun c => normalizeImageValue pg c mk)
      (Spec.elementCandidates item).
Proof.
  destruct item as [| |b|z|s|items|ps]; try reflexivity.
  - destruct b; reflexivity.
  - unfold scanItem. cbn [typeof truthy].
    change (String.eqb "number" "object") with false.
    rewrite andb_false_r. reflexivity.
  - pose proof (usable_normalized pg (Str s) mk) as Hu.
    unfold scanItem. cbn [Spec.elementCandidates Spec.firstSuccess].
    set (n := normalizeImageValue pg (Str s) mk) in *.
    change (String.eqb (typeof (Str s)) "string") with true.
    change (String.eqb (typeof (Str s)) "object") with false.
    cbv iota. rewrite Hu, andb_false_r. destruct n; reflexivity.
  - unfold scanItem. cbn [typeof truthy andb Spec.elementCandidates].
    change (String.eqb "object" "string") with false.
    change (String.eqb "object" "object") with true.
    cbv iota. cbn [usable]. apply firstNormalized_firstSuccess.
Qed.

Lemma scanItems_candidates pg mk items :
  scanItems pg mk items
  = Spec.firstSuccess (fun c => normalizeImageValue pg c mk)
      (flat_map Spec.elementCandidates items).
Proof.
  induction items as [|item r IH]; [reflexivity|].
  cbn [scanItems flat_map]. rewrite firstSuccess_app, scanItem_candidates, IH.
  reflexivity.
Qed.

(** One candidate per element is not what the loop does: an object whose
    [image] is present but unusable still yields its [url]. *)
Lemma one_candidate_per_element_counterexample :
  let item := Obj [("image", Str "not-an-image");
                   ("url", Str "https://cdn.example/a.png")] in
  Spec.elementCandidate item = [Str "not-an-image"]
  /\ normalizeImageValue Fixtures.page (Str "not-an-image") (Some "seedream")
     = None
  /\ Spec.extractFromListOnePerElement Fixtures.page (Some "seedream") [item]
     = None
  /\ extractImageUrl Fixtures.page (Obj [("output", Arr [item])])
       (Some "seedream")
     = Some "https://cdn.example/a.png".
Proof. vm_compute. repeat split. Qed.

(** C5 (amended). For a list-valued output every string element is a
    candidate, and every object element contributes its image, url, uri
    and path fields as candidates in that order; the result is the first
    candidate, in source order, that normalises successfully, and null
    when none does. *)
Theorem list_output_first_normalizable_candidate
    (pg : Page) (prediction : Value) (modelKey : option string)
    (items : list Value) :
  get prediction "output" = Arr items ->
  extractImageUrl pg prediction modelKey
  = Spec.firstSuccess (fun c => normalizeImageValue pg c modelKey)
      (flat_map Spec.elementCandidates items).
Proof.
  intros Hout.
  assert (Htruthy : truthy prediction = true).
  { destruct prediction; simpl in Hout; try discriminate. reflexivity. }
  unfold extractImageUrl. rewrite Htruthy, Hout. cbn [negb nullish].
  change (String.eqb (typeof (Arr items)) "string") with false. cbv iota.
  rewrite scanItems_candidates.
  destruct (Spec.firstSuccess _ _); reflexivity.
Qed.

Lemma list_output_first_normalizable_candidate_witness :
  extractImageUrl Fixtures.page
    (Obj [("output",
           Arr [Str "pending";
                Obj [("image", Str "not-an-image");
                     ("url", Str "https://cdn.example/a.png")];
                Str "https://cdn.example/b.png"])])
    (Some "seedream")
  = Spec.firstSuccess
      (fun c => normalizeImageValue Fixtures.page c (Some "seedream"))
      (flat_map Spec.elementCandidates
         [Str "pending";
          Obj [("image", Str "not-an-image");
               ("url", Str "https://cdn.example/a.png")];
          Str "https://cdn.example/b.png"]).
Proof.
  apply (list_output_first_normalizable_candidate Fixtures.page).
  reflexivity.
Defined.

(** Length and pattern are not read off the candidate as it stands: 100
    letters followed by one space have no scheme, match the pattern and
    are 101 long, yet the candidate is rejected, because what is measured
    is the trimmed text. *)
Lemma untrimmed_candidate_counterexample :
  let candidate := Fixtures.repeatChar 100 "A" ++ " " in
  hasScheme candidate = false
  /\ base64Pattern candidate = true
  /\ String.length candidate = 101%nat
  /\ expectedExtension Fixtures.page (Some "seedream") = "png"
  /\ Spec.normalizeUntrimmed "png" candidate
     = Some ("data:image/png;base64," ++ Fixtures.repeatChar 100 "A")
  /\ normalizeImageValue Fixtures.page (Str candidate) (Some "seedream")
     = None.
Proof. vm_compute. repeat split. Qed.

(** C8 (amended). The candidate is trimmed first. When the trimmed text
    has no http(s) or data: prefix, matches the base64 pattern and is
    longer than 100, the result is the data URI whose subtype is the
    expected extension reduced to its letters and digits ("jpeg" when
    nothing is left) and whose payload is the candidate with all white
    space removed: for the extension "png" exactly
    data:image/png;base64, followed by that payload. Any other trimmed
    text without such a prefix gives null. *)
Theorem base64_candidate_is_wrapped
    (pg : Page) (modelKey : option string) (s : string) :
  hasScheme (trim s) = false ->
  let format := strOr (keepAlnum (expectedExtension pg modelKey)) "jpeg" in
  (base64Pattern (trim s) = true -> (100 < String.length (trim s))%nat ->
   normalizeImageValue pg (Str s) modelKey
   = Some ("data:image/" ++ format ++ ";base64," ++ stripWhiteSpace s)
   /\ allChars isAlnum format = true /\ isEmpty format = false
   /\ (expectedExtension pg modelKey = "png" ->
       normalizeImageValue pg (Str s) modelKey
       = Some ("data:image/png;base64," ++ stripWhiteSpace s)))
  /\ (base64Pattern (trim s) = false
      \/ (String.length (trim s) <= 100)%nat ->
      normalizeImageValue pg (Str s) modelKey = None).
Proof.
  intros Hscheme format. split.
  - intros Hpat Hlen.
    assert (Hne : isEmpty (trim s) = false).
    { unfold base64Pattern in Hpat. apply andb_true_iff in Hpat.
      destruct Hpat as [Hpat _]. apply negb_true_iff in Hpat. exact Hpat. }
    assert (Hres : normalizeImageValue pg (Str s) modelKey
                   = Some ("data:image/" ++ format ++ ";base64,"
                           ++ stripWhiteSpace s)).
    { unfold normalizeImageValue. rewrite Hne, Hscheme, Hpat.
      apply Nat.ltb_lt in Hlen. rewrite Hlen. cbn [andb].
      rewrite strip_trim. reflexivity. }
    split; [exact Hres|].
    destruct (format_usable (expectedExtension pg modelKey)) as [Ha He].
    split; [exact Ha|]. split; [exact He|].
    intros Hpng. rewrite Hres. subst format. rewrite Hpng. reflexivity.
  - intros Hno. unfold normalizeImageValue.
    destruct (isEmpty (trim s)); [reflexivity|]. rewrite Hscheme.
    destruct Hno as [Hpat|Hlen].
    + rewrite Hpat. reflexivity.
    + apply Nat.ltb_ge in Hlen. rewrite Hlen, andb_false_r. reflexivity.
Qed.

Lemma base64_candidate_is_wrapped_witness :
  normalizeImageValue Fixtures.page
    (Str ("  " ++ Fixtures.repeatChar 101 "Q" ++ " ")) (Some "seedream")
  = Some ("data:image/png;base64,"
          ++ stripWhiteSpace ("  " ++ Fixtures.repeatChar 101 "Q" ++ " "))
  /\ normalizeImageValue Fixtures.page (Str " aGVsbG8= ") (Some "seedream")
     = None
  /\ normalizeImageValue Fixtures.page
       (Str (nbsp ++ Fixtures.repeatChar 60 "Q" ++ nbsp
             ++ Fixtures.repeatChar 60 "Q"))
       (Some "constructor")
     = Some ("data:image/jpeg;base64," ++ Fixtures.repeatChar 120 "Q").
Proof.
  split; [|split].
  - destruct (base64_candidate_is_wrapped Fixtures.page (Some "seedream")
                ("  " ++ Fixtures.repeatChar 101 "Q" ++ " "))
      as [Hwrap _]; [reflexivity|].
    destruct Hwrap as (_ & _ & _ & Hpng).
    + reflexivity.
    + vm_compute. repeat constructor.
    + apply Hpng. reflexivity.
  - destruct (base64_candidate_is_wrapped Fixtures.page (Some "seedream")
                " aGVsbG8= ") as [_ Hnull]; [reflexivity|].
    apply Hnull. right. vm_compute. repeat constructor.
  - destruct (base64_candidate_is_wrapped Fixtures.page (Some "constructor")
                (nbsp ++ Fixtures.repeatChar 60 "Q" ++ nbsp
                 ++ Fixtures.repeatChar 60 "Q"))
      as [Hwrap _]; [reflexivity|].
    destruct Hwrap as (Hjpeg & _).
    + reflexivity.
    + vm_compute. repeat constructor.
    + exact Hjpeg.
Defined.

(** A model key that names a property every object inherits resolves to
    a state without extensions, so the expected extension is "jpeg". *)
Example inherited_key_expects_jpeg (pg : Page) (key : string) :
  In key objectPrototypeNames -> expectedExtension pg (Some key) = "jpeg".
Proof.
  intros Hin. unfold expectedExtension, modelStates.
  assert (Hex : existsb (String.eqb key) objectPrototypeNames = true).
  { apply existsb_exists. exists key. split; [exact Hin|apply String.eqb_refl]. }
  simpl in Hin.
  repeat (destruct Hin as [<-|Hin]; [reflexivity|]). destruct Hin.
Qed.

(** A payload broken over lines, for a page that expects "png". *)
Example wrapped_png :
  normalizeImageValue Fixtures.page
    (Str (" " ++ Fixtures.repeatChar 60 "i" ++ String (ascii_of_nat 10)
            (Fixtures.repeatChar 60 "V" ++ "==")))
    (Some "seedream")
  = Some ("data:image/png;base64," ++ Fixtures.repeatChar 60 "i"
          ++ Fixtures.repeatChar 60 "V" ++ "==").
Proof. vm_compute. reflexivity. Qed.

(** C10. When the output field is null or absent, extraction runs on the
    top-level images field instead; and when the source so resolved is a
    single object that is not an array, the result is the first of its
    image, url, uri, path fields, in that order, that normalises
    successfully, and null when none does. *)
Theorem images_fallback_and_single_object
    (pg : Page) (modelKey : option string) (prediction : Value) :
  (get prediction "output" = Null \/ get prediction "output" = Undefined ->
   extractImageUrl pg prediction modelKey
   = extractImageUrl pg (Obj [("output", get prediction "images")]) modelKey)
  /\ (forall props,
         nullish (nullish (get prediction "output") (get prediction "images"))
           Null = Obj props ->
         extractImageUrl pg prediction modelKey
         = Spec.firstSuccess (fun c => normalizeImageValue pg c modelKey)
             [get (Obj props) "image"; get (Obj props) "url";
              get (Obj props) "uri"; get (Obj props) "path"]).
Proof.
  split.
  - intros Hout.
    assert (Hsrc : nullish (nullish (get prediction "output")
                              (get prediction "images")) Null
                   = nullish (get prediction "images") Null)
      by (destruct Hout as [-> | ->]; reflexivity).
    unfold extractImageUrl at 2. cbn [truthy negb get lookup].
    change (String.eqb "output" "output") with true.
    change (String.eqb "images" "output") with false. cbv iota.
    assert (Hsrc' : nullish (nullish (get prediction "images") Undefined) Null
                    = nullish (get prediction "images") Null)
      by (destruct (get prediction "images"); reflexivity).
    rewrite Hsrc'. unfold extractImageUrl.
    destruct (truthy prediction) eqn:Ht; cbn [negb].
    + rewrite Hsrc. reflexivity.
    + assert (Him : get prediction "images" = Undefined)
        by (destruct prediction; try reflexivity; discriminate).
      rewrite Him. reflexivity.
  - intros props Hsrc.
    assert (Ht : truthy prediction = true).
    { destruct prediction; try reflexivity; simpl in Hsrc; discriminate. }
    unfold extractImageUrl. rewrite Ht, Hsrc. cbn [negb].
    change (String.eqb (typeof (Obj props)) "string") with false.
    change (String.eqb (typeof (Obj props)) "object") with true.
    cbn [truthy andb]. cbv iota.
    apply firstNormalized_firstSuccess.
Qed.

Lemma images_fallback_and_single_object_witness :
  extractImageUrl Fixtures.page
    (Obj [("output", Null);
          ("images", Obj [("image", Str "blob");
                          ("uri", Str " https://cdn.example/c.jpg ")])])
    None
  = extractImageUrl Fixtures.page
      (Obj [("output",
             Obj [("image", Str "blob");
                  ("uri", Str " https://cdn.example/c.jpg ")])])
      None
  /\ extractImageUrl Fixtures.page
       (Obj [("output", Null);
             ("images", Obj [("image", Str "blob");
                             ("uri", Str " https://cdn.example/c.jpg ")])])
       None
     = Spec.firstSuccess (fun c => normalizeImageValue Fixtures.page c None)
         [Str "blob"; Undefined; Str " https://cdn.example/c.jpg "; Undefined].
Proof.
  split.
  - apply (proj1 (images_fallback_and_single_object Fixtures.page None
             (Obj [("output", Null);
                   ("images", Obj [("image", Str "blob");
                                   ("uri", Str " https://cdn.example/c.jpg ")])]))).
    left. reflexivity.
  - apply (proj2 (images_fallback_and_single_object Fixtures.page None
             (Obj [("output", Null);
                   ("images", Obj [("image", Str "blob");
                                   ("uri", Str " https://cdn.example/c.jpg ")])]))
             [("image", Str "blob");
              ("uri", Str " https://cdn.example/c.jpg ")]).
    reflexivity.
Defined.

End ImageProps.

(* ================================================================== *)
(** ** Properties of text extraction and of [/api/refine] *)

Module TextProps.
Import Server.

Lemma string_candidate v :
  (if String.eqb (typeof v) "string" then [v] else [])
  = map Str (Spec.strings [v]).
Proof. destruct v; reflexivity. Qed.

Lemma pieceCandidates_texts piece :
  pieceCandidates piece = map Str (Spec.pieceTexts piece).
Proof.
  destruct piece as [| |b|z|s|items|ps]; try reflexivity.
  - destruct b; reflexivity.
  - unfold pieceCandidates. cbn [typeof truthy].
    change (String.eqb "number" "string") with false.
    change (String.eqb "number" "object") with false.
    rewrite andb_false_r. reflexivity.
  - unfold pieceCandidates. cbn [typeof truthy andb Spec.pieceTexts].
    change (String.eqb "object" "string") with false.
    change (String.eqb "object" "object") with true. cbv iota.
    destruct (get (Obj ps) "text"); reflexivity.
Qed.

Lemma flat_map_texts {A} (f : A -> list Value) (g : A -> list string) l :
  (forall x, f x = map Str (g x)) ->
  flat_map f l = map Str (flat_map g l).
Proof.
  intros Hfg. induction l as [|x r IH]; [reflexivity|].
  simpl. rewrite Hfg, IH, map_app. reflexivity.
Qed.

Lemma itemCandidates_texts item :
  itemCandidates item = map Str (Spec.itemTexts item).
Proof.
  destruct item as [| |b|z|s|items|ps]; try reflexivity.
  - destruct b; reflexivity.
  - unfold itemCandidates. cbn [typeof truthy].
    change (String.eqb "number" "string") with false.
    change (String.eqb "number" "object") with false.
    rewrite andb_false_r. reflexivity.
  - unfold itemCandidates. cbn [typeof truthy andb Spec.itemTexts].
    change (String.eqb "object" "string") with false.
    change (String.eqb "object" "object") with true. cbv iota.
    assert (Hc : match get (Obj ps) "content" with
                 | Arr content => flat_map pieceCandidates content
                 | _ => []
                 end
                 = map Str match get (Obj ps) "content" with
                           | Arr pieces => flat_map Spec.pieceTexts pieces
                           | _ => []
                           end).
    { destruct (get (Obj ps) "content"); try reflexivity.
      apply flat_map_texts. exact pieceCandidates_texts. }
    rewrite Hc, map_app.
    destruct (get (Obj ps) "text"), (get (Obj ps) "message"); reflexivity.
Qed.

Lemma textCandidates_texts prediction :
  textCandidates prediction = map Str (Spec.textCandidates prediction).
Proof.
  unfold textCandidates, Spec.textCandidates.
  assert (Hitems : match get prediction "output" with
                   | Arr items => flat_map itemCandidates items
                   | _ => []
                   end
                   = map Str match get prediction "output" with
                             | Arr items => flat_map Spec.itemTexts items
                             | _ => []
                             end).
  { destruct (get prediction "output"); try reflexivity.
    apply flat_map_texts. exact itemCandidates_texts. }
  assert (Hlogs : match get prediction "logs" with
                  | Str logs => [Str (lastLogLines logs)]
                  | _ => []
                  end
                  = map Str match get prediction "logs" with
                            | Str logs => [Spec.lastLines 5 logs]
                            | _ => []
                            end).
  { destruct (get prediction "logs"); reflexivity. }
  rewrite Hitems, Hlogs, !string_candidate, !map_app. reflexivity.
Qed.

Lemma firstText_trimmed l :
  firstText (map Str l) = Spec.firstNonBlankTrimmed l.
Proof.
  unfold Spec.firstNonBlankTrimmed, Spec.firstNonBlank.
  induction l as [|c r IH]; [reflexivity|].
  cbn [map firstText find normalizeText]. unfold Spec.nonBlank at 1.
  destruct (negb (isEmpty (trim c))); [reflexivity|exact IH].
Qed.

(** Neither the extracted text nor the fallback prompt is handed back as
    it stands: both are trimmed. *)
Lemma untrimmed_text_counterexample :
  Spec.firstNonBlank (Spec.textCandidates (Obj [("output", Str " hi ")]))
  = " hi "
  /\ extractTextOutput (Obj [("output", Str " hi ")]) = "hi"
  /\ extractTextOutput (Fixtures.job "succeeded") = EmptyString
  /\ api_refine Fixtures.cfg Fixtures.silent 3
       (Obj [("prompt", Str " a cat ")]) Fixtures.start
     = Some ({| now := 1007;
                requests := [CreatePrediction "r8_token"
                               (RefineRequest "gpt-5-mini-v1" "a cat")];
                sleeps := 0 |},
             respond 200 (RefineBody "a cat" 0 (Fixtures.job "succeeded")))
  /\ "a cat" <> " a cat ".
Proof. vm_compute. repeat split. discriminate. Qed.

(** C9 (amended). Text extraction considers, in this order, a plain
    string output; for each element of a list output the string itself, or
    an object's text and message fields followed by the strings and the
    text fields of the objects in its content list; the top-level
    output_text; the last five lines of logs joined by spaces. It returns
    the first of them that is non-empty after trimming, trimmed, and the
    empty string when there is none. When the runner returns and
    extraction yields the empty string, [/api/refine] answers 200 with
    the trimmed request prompt as the refined prompt. *)
Theorem text_extraction_order_and_refine_fallback :
  (forall prediction,
      extractTextOutput prediction
      = Spec.firstNonBlankTrimmed (Spec.textCandidates prediction))
  /\ (forall cfg rm fuel reqBody w token rq trimmedPrompt w' prediction elapsed,
         prepareRefine cfg reqBody = (Forward token rq, trimmedPrompt) ->
         createAndPollPrediction cfg rm fuel token rq w
         = Some (w', Returned (prediction, elapsed)) ->
         extractTextOutput prediction = EmptyString ->
         trimmedPrompt = trim (stringOr (getOpt reqBody "prompt") EmptyString)
         /\ api_refine cfg rm fuel reqBody w
            = Some (w', respond 200
                          (RefineBody trimmedPrompt elapsed prediction))).
Proof.
  split.
  - intros prediction. unfold extractTextOutput.
    destruct (truthy prediction) eqn:Ht; cbn [negb].
    + rewrite textCandidates_texts. apply firstText_trimmed.
    + destruct prediction; try discriminate; try reflexivity.
  - intros cfg rm fuel reqBody w token rq tp w' prediction elapsed
      Hprep Hrun Hempty.
    split.
    + unfold prepareRefine in Hprep.
      destruct (envOr (REPLICATE_API_TOKEN cfg) None); [|discriminate].
      destruct (envOr (REPLICATE_REFINE_MODEL_VERSION cfg) None);
        [|discriminate].
      destruct (isEmpty _); inversion Hprep; reflexivity.
    + unfold api_refine. rewrite Hprep, Hrun, Hempty. reflexivity.
Qed.

Lemma text_extraction_order_and_refine_fallback_witness :
  api_refine Fixtures.cfg Fixtures.silent 3
    (Obj [("prompt", Str " a cat ")]) Fixtures.start
  = Some ({| now := 1007;
             requests := [CreatePrediction "r8_token"
                            (RefineRequest "gpt-5-mini-v1" "a cat")];
             sleeps := 0 |},
          respond 200 (RefineBody "a cat" 0 (Fixtures.job "succeeded"))).
Proof.
  apply (proj2 text_extraction_order_and_refine_fallback
           Fixtures.cfg Fixtures.silent 3%nat
           (Obj [("prompt", Str " a cat ")])
           Fixtures.start "r8_token"
           (RefineRequest "gpt-5-mini-v1" "a cat") "a cat");
    reflexivity.
Defined.

(** A candidate made of a no-break space is blank: the next one is
    taken, and a refine request with such a prompt is answered with 400
    without any request to the provider. *)
Example no_break_space_is_blank :
  extractTextOutput (Obj [("output", Str nbsp); ("output_text", Str "real")])
  = "real"
  /\ api_refine Fixtures.cfg Fixtures.silent 3 (Obj [("prompt", Str nbsp)])
       Fixtures.start
     = Some (Fixtures.start, missingPrompt).
Proof. split; reflexivity. Qed.

(** The order of the candidates on one job that has them all. *)
Example text_candidates_in_order :
  Spec.textCandidates
    (Obj [("logs",
           Str ("l1" ++ lf ++ "l2" ++ lf ++ "l3" ++ lf ++ "l4" ++ lf ++ "l5"
                ++ lf ++ "l6"));
          ("output_text", Str "ot");
          ("output",
           Arr [Str "s";
                Obj [("content", Arr [Str "c1"; Obj [("text", Str "c2")]]);
                     ("message", Str "m"); ("text", Str "t")]])])
  = ["s"; "t"; "m"; "c1"; "c2"; "ot"; "l2 l3 l4 l5 l6"].
Proof. vm_compute. reflexivity. Qed.

End TextProps.

(* ================================================================== *)
(** ** Further properties of the job runner *)

Module RunnerExtra.
Import Server.

Lemma fetch_requests rm rq w :
  requests (fst (fetch rm rq w)) = (requests w ++ [rq])%list
  /\ sleeps (fst (fetch rm rq w)) = sleeps w
  /\ now (fst (fetch rm rq w)) = now w + latency rm (List.length (requests w)).
Proof. repeat split. Qed.

Lemma fetchJson_fst rm rq w :
  fst (fetchJson rm rq w) = fst (fetch rm rq w).
Proof.
  unfold fetchJson. destruct (fetch rm rq w) as [w' [resp|]]; simpl; auto.
  destruct (body resp); reflexivity.
Qed.

(** What the loop adds to the request log and to the timers. *)
Lemma pollLoop_log cfg rm token t0 :
  forall fuel p w w' out,
    pollLoop cfg rm token t0 fuel p w = Some (w', out) ->
    exists reads,
      requests w' = (requests w ++ reads)%list
      /\ forallb (Vocabulary.isReadWith token) reads = true
      /\ (sleeps w' = (sleeps w + List.length reads)%nat
          \/ (sleeps w' = (sleeps w + List.length reads + 1)%nat
              /\ out = Threw OtherError)).
Proof.
  induction fuel as [|fuel IH]; intros p w w' out; [discriminate|].
  cbn [pollLoop].
  assert (Hstay : forall o : Outcome Value,
             Some (w, o) = Some (w', out) ->
             exists reads,
               requests w' = (requests w ++ reads)%list
               /\ forallb (Vocabulary.isReadWith token) reads = true
               /\ (sleeps w' = (sleeps w + List.length reads)%nat
                   \/ (sleeps w' = (sleeps w + List.length reads + 1)%nat
                       /\ out = Threw OtherError))).
  { intros o H; inversion H; subst. exists []. rewrite app_nil_r.
    simpl. repeat split. left. lia. }
  destruct (getProp p "status") as [st|e]; [|apply Hstay].
  destruct (terminalStatuses_has st); [apply Hstay|].
  destruct (now w - t0 >? waitTimeoutMs cfg); [apply Hstay|].
  destruct (toStringJs (get p "id")) as [id|].
  2:{ intros H; inversion H; subst. exists []. rewrite app_nil_r.
      simpl. repeat split. right. split; [lia|reflexivity]. }
  set (w1 := sleep rm (pollIntervalMs cfg) w).
  pose proof (fetchJson_fst rm (ReadPrediction token id) w1) as Hw.
  destruct (fetch_requests rm (ReadPrediction token id) w1) as (Hr & Hs & _).
  rewrite <- Hw in Hr, Hs.
  destruct (fetchJson rm (ReadPrediction token id) w1) as [w2 [[resp j]|e]];
    cbn [fst] in Hr, Hs.
  2:{ intros H; inversion H; subst. exists [ReadPrediction token id].
      rewrite Hr, Hs. simpl. rewrite String.eqb_refl.
      repeat split. left. lia. }
  destruct (negb (ok resp)).
  { intros H; inversion H; subst. exists [ReadPrediction token id].
    rewrite Hr, Hs. simpl. rewrite String.eqb_refl. repeat split. left. lia. }
  intros Hrun. apply IH in Hrun.
  destruct Hrun as (reads & Hreq & Hall & Hsl).
  exists (ReadPrediction token id :: reads). rewrite Hreq, Hr.
  cbn [requests w1 sleep]. rewrite <- app_assoc. split; [reflexivity|].
  cbn [forallb Vocabulary.isReadWith]. rewrite String.eqb_refl, Hall.
  split; [reflexivity|].
  rewrite Hs in Hsl. simpl in Hsl. simpl.
  destruct Hsl as [Hsl|[Hsl Hout]]; [left; lia|right; split; [lia|exact Hout]].
Qed.

(** The requests a whole run adds to the log. *)
Lemma runner_requests
    (cfg : Config) (rm : Remote) (fuel : nat) (token : string)
    (rq : RequestBody) (w w' : World) (out : Outcome (Value * Z)) :
  createAndPollPrediction cfg rm fuel token rq w = Some (w', out) ->
  exists reads,
    requests w' = (requests w ++ CreatePrediction token rq :: reads)%list
    /\ forallb (Vocabulary.isReadWith token) reads = true.
Proof.
  unfold createAndPollPrediction.
  pose proof (fetchJson_fst rm (CreatePrediction token rq) w) as Hw.
  destruct (fetch_requests rm (CreatePrediction token rq) w) as (Hr & _ & _).
  rewrite <- Hw in Hr.
  destruct (fetchJson rm (CreatePrediction token rq) w)
    as [w1 [[resp p0]|e]]; cbn [fst] in Hr.
  2:{ intros H; inversion H; subst. exists []. auto. }
  destruct (negb (ok resp)).
  { intros H; inversion H; subst. exists []. auto. }
  destruct (pollLoop cfg rm token (now w1) fuel p0 w1) as [[w2 o]|] eqn:Hloop;
    [|discriminate].
  apply pollLoop_log in Hloop. destruct Hloop as (reads & Hreq & Hall & _).
  assert (Hshape : requests w2
                   = (requests w ++ CreatePrediction token rq :: reads)%list)
    by (rewrite Hreq, Hr, <- app_assoc; reflexivity).
  destruct o as [p|e]; intros H; inversion H; subst; exists reads; auto.
Qed.

(** X1. Whatever happens, a run of the runner adds to the request log
    exactly one create request, first, followed only by polls that carry
    the same token.  It starts as many timers as it issues polls, or one
    more, and one more only in a run that ends in an error without a
    status. *)
Theorem one_create_then_only_polls
    (cfg : Config) (rm : Remote) (fuel : nat) (token : string)
    (rq : RequestBody) (w w' : World) (out : Outcome (Value * Z)) :
  createAndPollPrediction cfg rm fuel token rq w = Some (w', out) ->
  exists reads,
    requests w' = (requests w ++ CreatePrediction token rq :: reads)%list
    /\ forallb (Vocabulary.isReadWith token) reads = true
    /\ polls w' = (polls w + List.length reads)%nat
    /\ (sleeps w' = (sleeps w + List.length reads)%nat
        \/ (sleeps w' = (sleeps w + List.length reads + 1)%nat
            /\ out = Threw OtherError)).
Proof.
  unfold createAndPollPrediction.
  pose proof (fetchJson_fst rm (CreatePrediction token rq) w) as Hw.
  destruct (fetch_requests rm (CreatePrediction token rq) w) as (Hr & Hs & _).
  rewrite <- Hw in Hr, Hs.
  assert (Hnil : forall w1,
             requests w1 = (requests w ++ [CreatePrediction token rq])%list ->
             sleeps w1 = sleeps w ->
             forall o, Some (w1, o) = Some (w', out) ->
             exists reads,
               requests w' = (requests w ++ CreatePrediction token rq :: reads)%list
               /\ forallb (Vocabulary.isReadWith token) reads = true
               /\ polls w' = (polls w + List.length reads)%nat
               /\ (sleeps w' = (sleeps w + List.length reads)%nat
                   \/ (sleeps w' = (sleeps w + List.length reads + 1)%nat
                       /\ out = Threw OtherError))).
  { intros w1 Hr1 Hs1 o H; inversion H; subst. exists [].
    unfold polls. rewrite Hr1, Hs1, filter_app, length_app. simpl.
    split; [reflexivity|]. split; [reflexivity|]. split; [lia|left; lia]. }
  destruct (fetchJson rm (CreatePrediction token rq) w)
    as [w1 [[resp p0]|e]]; cbn [fst] in Hr, Hs; [|apply (Hnil w1 Hr Hs)].
  destruct (negb (ok resp)); [apply (Hnil w1 Hr Hs)|].
  destruct (pollLoop cfg rm token (now w1) fuel p0 w1) as [[w2 o]|] eqn:Hloop;
    [|discriminate].
  apply pollLoop_log in Hloop. destruct Hloop as (reads & Hreq & Hall & Hsl).
  assert (Hpolls : polls w2 = (polls w + List.length reads)%nat).
  { unfold polls. rewrite Hreq, Hr, !filter_app, !length_app. simpl.
    assert (Hf : filter isRead reads = reads).
    { clear - Hall. induction reads as [|r rs IH]; [reflexivity|].
      simpl in Hall. apply andb_true_iff in Hall. destruct Hall as [Hr Hrs].
      destruct r; [discriminate|]. simpl. rewrite (IH Hrs). reflexivity. }
    rewrite Hf. lia. }
  assert (Hlog : requests w2
                 = (requests w ++ CreatePrediction token rq :: reads)%list)
    by (rewrite Hreq, Hr, <- app_assoc; reflexivity).
  rewrite Hs in Hsl.
  destruct o as [p|e]; intros H; inversion H; subst; exists reads;
    (split; [exact Hlog|]; split; [exact Hall|]; split; [exact Hpolls|]).
  - destruct Hsl as [Hsl|[_ Habs]]; [left; exact Hsl|discriminate].
  - destruct Hsl as [Hsl|[Hsl Hout]]; [left; exact Hsl|].
    right. split; [exact Hsl|]. inversion Hout. reflexivity.
Qed.

Lemma one_create_then_only_polls_witness :
  exists reads,
    [CreatePrediction "r8_token"
       (ImageRequest "nano-banana-v1" Fixtures.catInput);
     ReadPrediction "r8_token" "j1"]
    = (requests Fixtures.start
       ++ CreatePrediction "r8_token"
            (ImageRequest "nano-banana-v1" Fixtures.catInput) :: reads)%list
    /\ forallb (Vocabulary.isReadWith "r8_token") reads = true
    /\ 1%nat = (polls Fixtures.start + List.length reads)%nat
    /\ (1%nat = (sleeps Fixtures.start + List.length reads)%nat
        \/ (1%nat = (sleeps Fixtures.start + List.length reads + 1)%nat
            /\ Returned (Fixtures.job "failed", 1) = Threw OtherError)).
Proof.
  apply (one_create_then_only_polls Fixtures.cfg
           (Fixtures.settlesAs (Fixtures.job "failed")) 3 "r8_token"
           (ImageRequest "nano-banana-v1" Fixtures.catInput) Fixtures.start
           {| now := 1017;
              requests :=
                [CreatePrediction "r8_token"
                   (ImageRequest "nano-banana-v1" Fixtures.catInput);
                 ReadPrediction "r8_token" "j1"];
              sleeps := 1 |}
           (Returned (Fixtures.job "failed", 1))).
  reflexivity.
Defined.

(** A normal return of the loop hands back a snapshot whose status is
    terminal. *)
Lemma pollLoop_returns_terminal cfg rm token t0 :
  forall fuel p w w' p',
    pollLoop cfg rm token t0 fuel p w = Some (w', Returned p') ->
    terminalStatuses_has (get p' "status") = true.
Proof.
  induction fuel as [|fuel IH]; intros p w w' p'; [discriminate|].
  cbn [pollLoop].
  destruct (getProp p "status") as [st|e] eqn:Hst; [|discriminate].
  destruct (terminalStatuses_has st) eqn:Hterm.
  { intros H; inversion H; subst.
    destruct p'; simpl in Hst; try discriminate; inversion Hst; subst;
      exact Hterm. }
  destruct (now w - t0 >? waitTimeoutMs cfg); [discriminate|].
  destruct (toStringJs (get p "id")); [|discriminate].
  destruct (fetchJson rm _ _) as [w2 [[resp j]|e]]; [|discriminate].
  destruct (negb (ok resp)); [discriminate|]. apply IH.
Qed.

(** The status of an error thrown by [providerError] is the one given. *)
Lemma providerError_status data fallback st m st' d :
  providerError data fallback st = StatusError m st' d -> st' = st /\ d = data.
Proof.
  unfold providerError. destruct (toStringJs _); [|discriminate].
  intros H; inversion H; auto.
Qed.

(** Errors thrown by the loop never carry a success status. *)
Lemma pollLoop_error_status cfg rm token t0 :
  forall fuel p w w' m st d,
    pollLoop cfg rm token t0 fuel p w = Some (w', Threw (StatusError m st d)) ->
    (200 <=? st) && (st <=? 299) = false.
Proof.
  induction fuel as [|fuel IH]; intros p w w' m st d; [discriminate|].
  cbn [pollLoop].
  destruct (getProp p "status") as [s|e] eqn:Hst.
  2:{ destruct p; simpl in Hst; inversion Hst; discriminate. }
  destruct (terminalStatuses_has s); [discriminate|].
  destruct (now w - t0 >? waitTimeoutMs cfg).
  { intros H; inversion H; subst. reflexivity. }
  destruct (toStringJs (get p "id")); [|discriminate].
  destruct (fetchJson rm _ _) as [w2 [[resp j]|e]] eqn:Hf.
  2:{ unfold fetchJson in Hf. destruct (fetch rm _ _) as [w3 [r|]].
      - destruct (body r); inversion Hf; discriminate.
      - inversion Hf; discriminate. }
  destruct (negb (ok resp)) eqn:Hok.
  { intros H; inversion H as [[Hw He]].
    apply providerError_status in He. destruct He as [-> _].
    apply negb_true_iff in Hok. exact Hok. }
  apply IH.
Qed.

Lemma runner_error_status cfg rm fuel token rq w w' m st d :
  createAndPollPrediction cfg rm fuel token rq w
  = Some (w', Threw (StatusError m st d)) ->
  (200 <=? st) && (st <=? 299) = false.
Proof.
  unfold createAndPollPrediction.
  destruct (fetchJson rm _ _) as [w1 [[resp p0]|e]] eqn:Hf.
  2:{ unfold fetchJson in Hf. destruct (fetch rm _ _) as [w3 [r|]].
      - destruct (body r); inversion Hf; discriminate.
      - inversion Hf; discriminate. }
  destruct (negb (ok resp)) eqn:Hok.
  { intros H; inversion H as [[Hw He]].
    apply providerError_status in He. destruct He as [-> _].
    apply negb_true_iff in Hok. exact Hok. }
  destruct (pollLoop _ _ _ _ _ _ _) as [[w2 [p|e]]|] eqn:Hloop;
    try discriminate.
  intros H; inversion H; subst.
  apply (pollLoop_error_status _ _ _ _ _ _ _ _ _ _ _ Hloop).
Qed.

Lemma runner_returns_terminal cfg rm fuel token rq w w' p elapsed :
  createAndPollPrediction cfg rm fuel token rq w
  = Some (w', Returned (p, elapsed)) ->
  terminalStatuses_has (get p "status") = true.
Proof.
  unfold createAndPollPrediction.
  destruct (fetchJson rm _ _) as [w1 [[resp p0]|e]]; [|discriminate].
  destruct (negb (ok resp)); [discriminate|].
  destruct (pollLoop _ _ _ _ _ _ _) as [[w2 [q|e]]|] eqn:Hloop;
    try discriminate.
  intros H; inversion H; subst.
  apply (pollLoop_returns_terminal _ _ _ _ _ _ _ _ _ Hloop).
Qed.

Lemma catchError_shape e :
  Vocabulary.isErrorBody (json (catchError e)) = true
  /\ isEmpty (Vocabulary.errorText (json (catchError e))) = false
  /\ (forall m st d, e = StatusError m st d ->
        (200 <=? st) && (st <=? 299) = false ->
        (200 <=? statusCode (catchError e))
        && (statusCode (catchError e) <=? 299) = false)
  /\ (e = OtherError -> statusCode (catchError e) = 500).
Proof.
  destruct e as [m st d|]; simpl.
  - repeat split; try discriminate.
    + destruct (isEmpty m) eqn:E; [reflexivity|exact E].
    + intros m' st' d' H Hst. inversion H; subst.
      destruct (st' =? 0); [reflexivity|exact Hst].
  - repeat split; intros; discriminate.
Qed.

Lemma prepare_reject_shape cfg reqBody r :
  preparePrediction cfg reqBody = Returned (Reject r) ->
  Vocabulary.isErrorBody (json r) = true
  /\ isEmpty (Vocabulary.errorText (json r)) = false
  /\ (statusCode r = 400 \/ statusCode r = 500).
Proof.
  unfold preparePrediction.
  destruct (envOr (REPLICATE_API_TOKEN cfg) None) as [tk|].
  2:{ intros H; inversion H; subst. repeat split; auto. }
  destruct (MODEL_CONFIG cfg _) as [config|].
  2:{ intros H; inversion H; subst. repeat split; auto. }
  destruct (entryVersion config) as [ver|].
  2:{ intros H; inversion H; subst. repeat split; auto. }
  destruct (isEmpty _).
  { intros H; inversion H; subst. repeat split; auto. }
  destruct (buildInput _ _ _); simpl; discriminate.
Qed.

(** X2. Every answer of [/api/predictions] is of one of two kinds: status
    200 with the elapsed time and a prediction whose status is terminal, or
    an error body with a non-empty error text and a status outside
    200..299.  A job that is still running is never answered with 200. *)
Theorem predictions_answers_are_terminal_or_errors
    (cfg : Config) (rm : Remote) (fuel : nat) (reqBody : Value)
    (w w' : World) (r : HttpResponse) :
  api_predictions cfg rm fuel reqBody w = Some (w', r) ->
  (exists elapsed p,
      r = respond 200 (PredictionBody elapsed p)
      /\ terminalStatuses_has (get p "status") = true)
  \/ (Vocabulary.isErrorBody (json r) = true
      /\ isEmpty (Vocabulary.errorText (json r)) = false
      /\ (200 <=? statusCode r) && (statusCode r <=? 299) = false).
Proof.
  unfold api_predictions.
  destruct (preparePrediction cfg reqBody) as [[rj|token rq]|e] eqn:Hprep.
  - intros H; inversion H; subst. right.
    destruct (prepare_reject_shape _ _ _ Hprep) as (Hb & Ht & Hs).
    repeat split; auto. destruct Hs as [-> | ->]; reflexivity.
  - destruct (createAndPollPrediction cfg rm fuel token rq w)
      as [[w2 [[p elapsed]|e]]|] eqn:Hrun; [| |discriminate].
    + intros H; inversion H; subst. left. exists elapsed, p.
      split; [reflexivity|]. apply (runner_returns_terminal _ _ _ _ _ _ _ _ _ Hrun).
    + intros H; inversion H; subst. right.
      destruct (catchError_shape e) as (Hb & Ht & Hs & Ho).
      repeat split; auto. destruct e as [m st d|].
      * apply (Hs m st d eq_refl).
        apply (runner_error_status _ _ _ _ _ _ _ _ _ _ Hrun).
      * rewrite (Ho eq_refl). reflexivity.
  - intros H; inversion H; subst. right.
    destruct (catchError_shape e) as (Hb & Ht & Hs & Ho).
    repeat split; auto. destruct e as [m st d|].
    + exfalso. unfold preparePrediction in Hprep.
      destruct (envOr (REPLICATE_API_TOKEN cfg) None); [|discriminate].
      destruct (MODEL_CONFIG cfg _) as [cf|]; [|discriminate].
      destruct (entryVersion cf); [|discriminate].
      destruct (isEmpty _); [discriminate|].
      unfold buildInput in Hprep.
      destruct (String.eqb _ "seedream"); [|discriminate].
      unfold seedreamInput, parseInt, toStringO in Hprep.
      repeat match type of Hprep with
             | context [toStringJs ?v] => destruct (toStringJs v)
             | context [String.eqb ?a ?b] => destruct (String.eqb a b)
             end; simpl in Hprep; try discriminate.
    + rewrite (Ho eq_refl). reflexivity.
Qed.

Lemma predictions_answers_are_terminal_or_errors_witness :
  (exists elapsed p,
      respond 200 (PredictionBody 1 (Fixtures.job "failed"))
      = respond 200 (PredictionBody elapsed p)
      /\ terminalStatuses_has (get p "status") = true)
  \/ (Vocabulary.isErrorBody
        (json (respond 200 (PredictionBody 1 (Fixtures.job "failed")))) = true
      /\ isEmpty (Vocabulary.errorText
           (json (respond 200 (PredictionBody 1 (Fixtures.job "failed")))))
         = false
      /\ (200 <=? statusCode (respond 200 (PredictionBody 1 (Fixtures.job "failed"))))
         && (statusCode (respond 200 (PredictionBody 1 (Fixtures.job "failed")))
             <=? 299) = false).
Proof.
  apply (predictions_answers_are_terminal_or_errors Fixtures.cfg
           (Fixtures.settlesAs (Fixtures.job "failed")) 3
           Fixtures.catRequest Fixtures.start
           {| now := 1017;
              requests :=
                [CreatePrediction "r8_token"
                   (ImageRequest "nano-banana-v1" Fixtures.catInput);
                 ReadPrediction "r8_token" "j1"];
              sleeps := 1 |}).
  reflexivity.
Defined.







Section Elapsed.
Variables (cfg : Config) (rm : Remote) (token : string) (t0 : Z).
Hypothesis timers_wait : Spec.honestTimers rm.
Hypothesis clock_monotone : Spec.monotoneClock rm.
Hypothesis interval_nonneg : 0 <= pollIntervalMs cfg.

(** Each poll costs at least one interval of wall-clock time. *)
Lemma pollLoop_elapsed :
  forall fuel p w w' out,
    pollLoop cfg rm token t0 fuel p w = Some (w', out) ->
    (polls w <= polls w')%nat
    /\ Z.of_nat (polls w' - polls w) * pollIntervalMs cfg <= now w' - now w
    /\ (polls w' = polls w -> forall p', out = Returned p' -> w' = w).
Proof.
  induction fuel as [|fuel IH]; intros p w w' out; [discriminate|].
  cbn [pollLoop].
  assert (Hstay : forall o : Outcome Value,
             Some (w, o) = Some (w', out) ->
             (polls w <= polls w')%nat
             /\ Z.of_nat (polls w' - polls w) * pollIntervalMs cfg
                <= now w' - now w
             /\ (polls w' = polls w -> forall p', out = Returned p' -> w' = w)).
  { intros o H; inversion H; subst.
    replace (polls w' - polls w')%nat with 0%nat by lia.
    repeat split; auto; lia. }
  destruct (getProp p "status") as [st|e]; [|apply Hstay].
  destruct (terminalStatuses_has st); [apply Hstay|].
  destruct (now w - t0 >? waitTimeoutMs cfg); [apply Hstay|].
  pose proof (timers_wait (sleeps w) (pollIntervalMs cfg)) as Ht.
  pose proof (clock_monotone (List.length (requests w))) as Hl.
  destruct (toStringJs (get p "id")) as [id|].
  2:{ intros H; inversion H; subst. rewrite RunnerProps.polls_sleep.
      replace (polls w - polls w)%nat with 0%nat by lia.
      cbn [sleep now]. repeat split; first [lia | intros; discriminate]. }
  pose proof (RunnerProps.fetchJson_world rm (ReadPrediction token id)
                (sleep rm (pollIntervalMs cfg) w)) as Hw.
  pose proof (RunnerProps.polls_read rm token id
                (sleep rm (pollIntervalMs cfg) w)) as Hp.
  pose proof (RunnerProps.now_after_poll rm token id (pollIntervalMs cfg) w)
    as Hn.
  rewrite <- Hw in Hp, Hn. rewrite RunnerProps.polls_sleep in Hp.
  destruct (fetchJson rm (ReadPrediction token id)
              (sleep rm (pollIntervalMs cfg) w)) as [w2 [[resp j]|e]];
    cbn [fst] in Hp, Hn.
  2:{ intros H; inversion H; subst. rewrite Hp.
      replace (S (polls w) - polls w)%nat with 1%nat by lia.
      repeat split; first [lia | intros; discriminate]. }
  destruct (negb (ok resp)).
  { intros H; inversion H; subst. rewrite Hp.
    replace (S (polls w) - polls w)%nat with 1%nat by lia.
    repeat split; first [lia | intros; discriminate]. }
  intros Hrun. apply IH in Hrun. destruct Hrun as (Hle & Hel & _).
  rewrite Hp in Hle, Hel. split; [lia|]. split; [|lia].
  replace (Z.of_nat (polls w' - polls w))
    with (1 + Z.of_nat (polls w' - S (polls w))) by lia.
  lia.
Qed.
End Elapsed.

(** X5. With timers that do not fire early, a clock that does not run
    backwards and a non-negative interval: the seconds the runner reports
    with a result are the rounding of a measured time that is at least one
    interval per poll it issued, never negative and no more than the time
    the whole run took; a result handed back without any poll measured 0 ms,
    reports 0 and used no timer. *)
Theorem elapsed_covers_every_poll
    (cfg : Config) (rm : Remote) (fuel : nat) (token : string)
    (rq : RequestBody) (w w' : World) (p : Value) (elapsed : Z) :
  Spec.honestTimers rm -> Spec.monotoneClock rm ->
  0 <= pollIntervalMs cfg ->
  createAndPollPrediction cfg rm fuel token rq w
  = Some (w', Returned (p, elapsed)) ->
  exists measured,
    elapsed = elapsedSeconds measured
    /\ Z.of_nat (polls w' - polls w) * pollIntervalMs cfg <= measured
    /\ 0 <= measured
    /\ measured <= now w' - now w
    /\ (polls w' = polls w ->
        measured = 0 /\ elapsed = 0 /\ sleeps w' = sleeps w).
Proof.
  intros Ht Hc Hi. unfold createAndPollPrediction.
  pose proof (RunnerProps.fetchJson_world rm (CreatePrediction token rq) w) as Hw.
  pose proof (RunnerProps.polls_create rm token rq w) as Hp.
  destruct (fetch_requests rm (CreatePrediction token rq) w) as (_ & Hs & Hn).
  rewrite <- Hw in Hp, Hs, Hn.
  destruct (fetchJson rm (CreatePrediction token rq) w)
    as [w1 [[resp p0]|e]]; cbn [fst] in Hp, Hs, Hn; [|discriminate].
  destruct (negb (ok resp)); [discriminate|].
  destruct (pollLoop cfg rm token (now w1) fuel p0 w1) as [[w2 [q|e]]|] eqn:Hloop;
    try discriminate.
  intros H; inversion H; subst.
  destruct (pollLoop_elapsed cfg rm token (now w1) Ht Hc Hi _ _ _ _ _ Hloop)
    as (Hle & Hel & Hsame).
  rewrite Hp in Hle, Hel. pose proof (Hc (List.length (requests w))) as Hl.
  assert (H0 : 0 <= Z.of_nat (polls w' - polls w) * pollIntervalMs cfg)
    by (apply Z.mul_nonneg_nonneg; lia).
  exists (now w' - now w1).
  split; [reflexivity|]. split; [lia|]. split; [lia|]. split; [lia|].
  intros Hno. assert (Hw' : w' = w1).
  { apply (Hsame (eq_trans Hno (eq_sym Hp)) p eq_refl). }
  rewrite Hw'. replace (now w1 - now w1) with 0 by lia.
  split; [reflexivity|]. split; [reflexivity|exact Hs].
Qed.

Lemma elapsed_covers_every_poll_witness :
  exists measured,
    1 = elapsedSeconds measured
    /\ Z.of_nat (1 - polls Fixtures.start) * 10 <= measured
    /\ 0 <= measured
    /\ measured <= 1017 - now Fixtures.start
    /\ (1%nat = polls Fixtures.start ->
        measured = 0 /\ 1 = 0 /\ 1%nat = sleeps Fixtures.start).
Proof.
  apply (elapsed_covers_every_poll Fixtures.cfg
           (Fixtures.settlesAs (Fixtures.job "failed")) 3 "r8_token"
           (ImageRequest "nano-banana-v1" Fixtures.catInput) Fixtures.start
           {| now := 1017;
              requests :=
                [CreatePrediction "r8_token"
                   (ImageRequest "nano-banana-v1" Fixtures.catInput);
                 ReadPrediction "r8_token" "j1"];
              sleeps := 1 |}
           (Fixtures.job "failed") 1).
  - intros n d. simpl. lia.
  - intros n. simpl. lia.
  - simpl. lia.
  - reflexivity.
Defined.

(** The seconds reported for some elapsed times: 14 ms and 15 ms are
    both 0.01 s, 5 ms is 0.01 s, 1005 ms is 1 s and two minutes are
    120 s. *)
Example elapsedSeconds_examples :
  map elapsedSeconds [0; 4; 5; 14; 15; 25; 125; 1005; 1015; 120000]
  = [0; 0; 1; 1; 1; 3; 13; 100; 101; 12000].
Proof. vm_compute. reflexivity. Qed.

End RunnerExtra.

(* ================================================================== *)
(** ** Facts about trimming *)

Module TrimFacts.

Lemma trimEnd_idem s : trimEnd (trimEnd s) = trimEnd s.
Proof.
  induction s as [|c r IH]; [reflexivity|].
  cbn [trimEnd]. destruct (isWhiteSpace c && isEmpty (trimEnd r))%bool eqn:E;
    [reflexivity|].
  cbn [trimEnd]. rewrite IH, E. reflexivity.
Qed.

Lemma trimStart_head s :
  trimStart s = EmptyString
  \/ exists c r, trimStart s = String c r /\ isWhiteSpace c = false.
Proof.
  induction s as [|c r IH]; [left; reflexivity|].
  cbn [trimStart]. destruct (isWhiteSpace c) eqn:E; [exact IH|].
  right. exists c, r. auto.
Qed.

Lemma trimStart_fixed c r :
  isWhiteSpace c = false -> trimStart (String c r) = String c r.
Proof. intros E. cbn [trimStart]. rewrite E. reflexivity. Qed.

Lemma trimEnd_head c r :
  isWhiteSpace c = false -> trimEnd (String c r) = String c (trimEnd r).
Proof. intros E. cbn [trimEnd]. rewrite E. reflexivity. Qed.

(** Trimming twice is trimming once. *)
Lemma trim_idem s : trim (trim s) = trim s.
Proof.
  unfold trim. destruct (trimStart_head s) as [->|(c & r & -> & E)];
    [reflexivity|].
  rewrite (trimEnd_head c r E), (trimStart_fixed c _ E).
  rewrite <- (trimEnd_head c r E). apply trimEnd_idem.
Qed.

Lemma trimEnd_nonws s :
  allChars Vocabulary.notWhiteSpace s = true -> trimEnd s = s.
Proof.
  induction s as [|c r IH]; [reflexivity|].
  cbn [allChars]. intros H. apply andb_true_iff in H. destruct H as [Hc Hr].
  unfold Vocabulary.notWhiteSpace in Hc. apply negb_true_iff in Hc.
  rewrite (trimEnd_head c r Hc), (IH Hr). reflexivity.
Qed.

(** A text without any white space is left alone by [trim]. *)
Lemma trim_nonws s :
  allChars Vocabulary.notWhiteSpace s = true -> trim s = s.
Proof.
  intros H. unfold trim. destruct s as [|c r]; [reflexivity|].
  pose proof H as H'. cbn [allChars] in H'. apply andb_true_iff in H'.
  destruct H' as [Hc _]. unfold Vocabulary.notWhiteSpace in Hc.
  apply negb_true_iff in Hc. rewrite (trimStart_fixed c r Hc).
  apply trimEnd_nonws. exact H.
Qed.

Lemma lastChar_none s : Vocabulary.lastChar s = None -> s = EmptyString.
Proof.
  destruct s as [|c r]; [reflexivity|]. cbn [Vocabulary.lastChar].
  destruct (Vocabulary.lastChar r); discriminate.
Qed.

Lemma trimEnd_last s :
  Vocabulary.isSpaceAt (Vocabulary.lastChar (trimEnd s)) = false.
Proof.
  induction s as [|c r IH]; [reflexivity|]. cbn [trimEnd].
  destruct (isWhiteSpace c && isEmpty (trimEnd r))%bool eqn:E; [reflexivity|].
  cbn [Vocabulary.lastChar].
  destruct (Vocabulary.lastChar (trimEnd r)) as [d|] eqn:L; [exact IH|].
  apply lastChar_none in L. rewrite L in E. cbn [isEmpty] in E.
  rewrite andb_true_r in E. exact E.
Qed.

(** What [trim] returns has no white space at either end. *)
Lemma trim_cleanEnds s : Vocabulary.cleanEnds (trim s) = true.
Proof.
  unfold Vocabulary.cleanEnds, trim. rewrite trimEnd_last. cbn [negb].
  rewrite andb_true_r.
  destruct (trimStart_head s) as [->|(c & r & -> & E)]; [reflexivity|].
  rewrite (trimEnd_head c r E). cbn [Vocabulary.firstChar Vocabulary.isSpaceAt].
  rewrite E. reflexivity.
Qed.

Lemma fixed_cleanEnds s : trim s = s -> Vocabulary.cleanEnds s = true.
Proof. intros H. rewrite <- H. apply trim_cleanEnds. Qed.

Lemma allChars_app p a b :
  allChars p (a ++ b) = (allChars p a && allChars p b)%bool.
Proof.
  induction a as [|c r IH]; [reflexivity|].
  simpl. rewrite IH, andb_assoc. reflexivity.
Qed.

Lemma allChars_weaken (p q : ascii -> bool) s :
  (forall c, p c = true -> q c = true) ->
  allChars p s = true -> allChars q s = true.
Proof.
  intros Hpq. induction s as [|c r IH]; [reflexivity|].
  simpl. intros H. apply andb_true_iff in H. destruct H as [Hc Hr].
  rewrite (Hpq c Hc), (IH Hr). reflexivity.
Qed.

Lemma append_empty a b :
  isEmpty (a ++ b) = (isEmpty a && isEmpty b)%bool.
Proof. destruct a; reflexivity. Qed.

Lemma lowerChar_idem c : lowerChar (lowerChar c) = lowerChar c.
Proof. destruct c as [[] [] [] [] [] [] [] []]; reflexivity. Qed.

(** Lower-casing twice is lower-casing once. *)
Lemma toLowerCase_idem s : toLowerCase (toLowerCase s) = toLowerCase s.
Proof.
  unfold toLowerCase. induction s as [|c r IH]; [reflexivity|].
  cbn [mapChars]. rewrite IH. f_equal. apply lowerChar_idem.
Qed.

End TrimFacts.

(* ================================================================== *)
(** ** Further properties of request normalisation *)

Module NormalizerExtra.
Import Server.

(** The two ways a request gets forwarded. *)
Lemma forwarded_cases cfg reqBody token version input :
  preparePrediction cfg reqBody
  = Returned (Forward token (ImageRequest version input)) ->
  let body := orElse reqBody (Obj []) in
  let prompt := trim (stringOr (get body "prompt") EmptyString) in
  (resolveModelKey cfg body = "seedream"
   /\ seedreamInput body prompt (imageInputOf body) = Returned input)
  \/ (resolveModelKey cfg body = "nano-banana"
      /\ input = otherInput body prompt (imageInputOf body)).
Proof.
  intros Hprep. apply NormalizerProps.preparePrediction_forward in Hprep.
  cbv zeta in *. destruct Hprep as (_ & (config & Hcfg & Hver) & _ & Hbuild).
  pose proof (NormalizerProps.resolved_model_key _ _ _ _ Hcfg Hver) as Hkey.
  unfold buildInput in Hbuild.
  destruct Hkey as [Hkey|Hkey]; rewrite Hkey in Hbuild; simpl in Hbuild.
  - left. auto.
  - right. inversion Hbuild. auto.
Qed.

Lemma forward_is_image_request cfg reqBody token rq :
  preparePrediction cfg reqBody = Returned (Forward token rq) ->
  exists version input, rq = ImageRequest version input.
Proof.
  unfold preparePrediction.
  destruct (envOr (REPLICATE_API_TOKEN cfg) None); [|discriminate].
  destruct (MODEL_CONFIG cfg _) as [cf|]; [|discriminate].
  destruct (entryVersion cf); [|discriminate].
  destruct (isEmpty _); [discriminate|].
  destruct (buildInput _ _ _); simpl; [|discriminate].
  intros H; inversion H; subst. eauto.
Qed.

Lemma seedreamInput_max body prompt imageInput input :
  seedreamInput body prompt imageInput = Returned input ->
  exists parsed,
    parseInt (get body "max_images") = Returned parsed
    /\ lookup "max_images" input
       = Some (ofInt (match parsed with
                    | None => 1
                    | Some n => clampNumber n 1 15
                    end)).
Proof.
  unfold seedreamInput.
  destruct (parseInt (get body "max_images")) as [pm|]; [|discriminate].
  cbn [bindO]. exists pm. split; [reflexivity|].
  destruct (String.eqb (normalizeSize (get body "size")) "custom").
  - destruct (parseInt (get body "width")) as [pw|]; [|discriminate].
    destruct (parseInt (get body "height")) as [ph|]; [|discriminate].
    cbn [bindO] in H. inversion H; subst.
    rewrite NormalizerProps.lookup_withImageInput by discriminate.
    rewrite !NormalizerProps.lookup_setDimension_other by discriminate.
    destruct pm; reflexivity.
  - cbn [bindO] in H. inversion H; subst.
    rewrite NormalizerProps.lookup_withImageInput by discriminate.
    destruct pm; reflexivity.
Qed.

(** X6. In a forwarded seedream input max_images is always an integer
    between 1 and 15: it is 1 when the request's max_images does not parse
    as an integer (absent, text, null), and otherwise the parsed integer
    clamped into [1, 15]. *)
Theorem max_images_defaults_and_clamps
    (cfg : Config) (reqBody : Value) (token version : string)
    (input : list (string * Value)) :
  preparePrediction cfg reqBody
  = Returned (Forward token (ImageRequest version input)) ->
  let body := orElse reqBody (Obj []) in
  resolveModelKey cfg body = "seedream" ->
  exists parsed m,
    parseInt (get body "max_images") = Returned parsed
    /\ lookup "max_images" input = Some (ofInt m)
    /\ 1 <= m <= 15
    /\ (parsed = None -> m = 1)
    /\ (forall n, parsed = Some n -> n <= 1 -> m = 1)
    /\ (forall n, parsed = Some n -> 15 <= n -> m = 15)
    /\ (forall n, parsed = Some n -> 1 <= n <= 15 -> m = n).
Proof.
  intros Hprep body Hkey.
  destruct (forwarded_cases _ _ _ _ _ Hprep) as [[_ Hin]|[Hk _]].
  2:{ fold body in Hk. rewrite Hkey in Hk. discriminate. }
  apply seedreamInput_max in Hin. destruct Hin as (pm & Hpm & Hl).
  eexists pm, _. split; [exact Hpm|]. split; [exact Hl|].
  unfold clampNumber. destruct pm as [n|].
  - repeat split; intros; try lia; try discriminate;
      match goal with
      | E : Some _ = Some _ |- _ => inversion E; subst; lia
      end.
  - repeat split; intros; try lia; discriminate.
Qed.

Lemma max_images_defaults_and_clamps_witness :
  exists parsed m,
    parseInt (get (Obj [("prompt", Str "a city"); ("max_images", ofInt 999)])
                "max_images") = Returned parsed
    /\ lookup "max_images"
         [("prompt", Str "a city"); ("size", Str "2K");
          ("aspect_ratio", Str "match_input_image");
          ("sequential_image_generation", Str "disabled");
          ("max_images", ofInt 15)] = Some (ofInt m)
    /\ 1 <= m <= 15
    /\ (parsed = None -> m = 1)
    /\ (forall n, parsed = Some n -> n <= 1 -> m = 1)
    /\ (forall n, parsed = Some n -> 15 <= n -> m = 15)
    /\ (forall n, parsed = Some n -> 1 <= n <= 15 -> m = n).
Proof.
  apply (max_images_defaults_and_clamps Fixtures.cfg
           (Obj [("prompt", Str "a city"); ("max_images", ofInt 999)])
           "r8_token" "seedream-v4"); reflexivity.
Defined.

(** Zero, a huge count and text, as the form could send them; a number
    that prints in exponent form, a fraction, and text that starts with a
    no-break space. *)
Example max_images_edges :
  map (fun v =>
         match preparePrediction Fixtures.cfg
                 (Obj [("prompt", Str "a city"); ("max_images", v)]) with
         | Returned (Forward _ (ImageRequest _ input)) =>
             lookup "max_images" input
         | _ => None
         end)
      [ofInt 0; ofInt 999; Str "abc"; Str "7 images"; Null; ofInt (-3);
       Num "1e+21"; Num "7.9"; Str (nbsp ++ "12")]
  = [Some (ofInt 1); Some (ofInt 15); Some (ofInt 1); Some (ofInt 7);
     Some (ofInt 1); Some (ofInt 1); Some (ofInt 1); Some (ofInt 7);
     Some (ofInt 12)].
Proof. vm_compute. reflexivity. Qed.

(** X7. Unless the normalised size is "custom", a forwarded input has
    neither width nor height, whatever the request body carries in those
    fields; this covers every nano-banana request. *)
Theorem dimensions_only_with_custom_size
    (cfg : Config) (reqBody : Value) (token version : string)
    (input : list (string * Value)) :
  preparePrediction cfg reqBody
  = Returned (Forward token (ImageRequest version input)) ->
  lookup "size" input <> Some (Str "custom") ->
  lookup "width" input = None /\ lookup "height" input = None.
Proof.
  intros Hprep Hsize.
  destruct (forwarded_cases _ _ _ _ _ Hprep) as [[_ Hin]|[_ ->]].
  - apply NormalizerProps.seedreamInput_returned in Hin.
    destruct Hin as (mx & base & _ & Hbase & [[_ ->]|[Hc (pw & ph & _ & _ & ->)]]).
    + rewrite !NormalizerProps.lookup_withImageInput by discriminate.
      subst base. split; reflexivity.
    + exfalso. apply Hsize.
      rewrite NormalizerProps.lookup_withImageInput by discriminate.
      rewrite !NormalizerProps.lookup_setDimension_other by discriminate.
      subst base. simpl. rewrite Hc. reflexivity.
  - unfold otherInput.
    rewrite !NormalizerProps.lookup_withImageInput by discriminate.
    split; reflexivity.
Qed.

Lemma dimensions_only_with_custom_size_witness :
  lookup "width"
    [("prompt", Str "a city"); ("size", Str "4K");
     ("aspect_ratio", Str "match_input_image");
     ("sequential_image_generation", Str "disabled");
     ("max_images", ofInt 1)] = None
  /\ lookup "height"
       [("prompt", Str "a city"); ("size", Str "4K");
        ("aspect_ratio", Str "match_input_image");
        ("sequential_image_generation", Str "disabled");
        ("max_images", ofInt 1)] = None.
Proof.
  apply (dimensions_only_with_custom_size Fixtures.cfg
           (Obj [("prompt", Str "a city"); ("size", Str "4k");
                 ("width", ofInt 2048); ("height", ofInt 2048)])
           "r8_token" "seedream-v4").
  - reflexivity.
  - discriminate.
Defined.

Lemma lookup_image_input imageInput ps :
  lookup "image_input" ps = None ->
  lookup "image_input" (withImageInput imageInput ps)
  = match imageInput with [] => None | _ :: _ => Some (Arr imageInput) end.
Proof.
  intros Hnone. destruct imageInput; [exact Hnone|].
  apply NormalizerProps.lookup_setProp_same.
Qed.

Lemma forwarded_image_input cfg reqBody token version input :
  preparePrediction cfg reqBody
  = Returned (Forward token (ImageRequest version input)) ->
  lookup "image_input" input
  = match imageInputOf (orElse reqBody (Obj [])) with
    | [] => None
    | l => Some (Arr l)
    end.
Proof.
  intros Hprep.
  destruct (forwarded_cases _ _ _ _ _ Hprep) as [[_ Hin]|[_ ->]].
  - apply NormalizerProps.seedreamInput_returned in Hin.
    destruct Hin as (mx & base & _ & Hbase & [[_ ->]|[_ (pw & ph & _ & _ & ->)]]).
    + rewrite lookup_image_input by (subst base; reflexivity).
      destruct (imageInputOf _); reflexivity.
    + rewrite lookup_image_input.
      * destruct (imageInputOf _); reflexivity.
      * rewrite !NormalizerProps.lookup_setDimension_other by discriminate.
        subst base. reflexivity.
  - unfold otherInput. rewrite lookup_image_input by reflexivity.
    destruct (imageInputOf _); reflexivity.
Qed.

(** X8. The image_input of a forwarded input is exactly the request's
    image_input array with every element dropped that is not a string or is
    blank after trimming, the others kept as they are and in their order;
    the field is absent altogether when nothing is left or when the request's
    image_input is not an array. *)
Theorem image_input_is_filtered
    (cfg : Config) (reqBody : Value) (token version : string)
    (input : list (string * Value)) :
  preparePrediction cfg reqBody
  = Returned (Forward token (ImageRequest version input)) ->
  let body := orElse reqBody (Obj []) in
  (forall items, get body "image_input" = Arr items ->
     lookup "image_input" input
     = match filter nonBlankString items with
       | [] => None
       | kept => Some (Arr kept)
       end)
  /\ ((forall items, get body "image_input" <> Arr items) ->
      lookup "image_input" input = None)
  /\ (forall kept, lookup "image_input" input = Some (Arr kept) ->
        kept <> []
        /\ forall v, In v kept ->
             exists s, v = Str s /\ isEmpty (trim s) = false).
Proof.
  intros Hprep body. pose proof (forwarded_image_input _ _ _ _ _ Hprep) as Hl.
  fold body in Hl. unfold imageInputOf in Hl. split; [|split].
  - intros items Hitems. rewrite Hitems in Hl. exact Hl.
  - intros Hno. rewrite Hl. destruct (get body "image_input"); try reflexivity.
    destruct (Hno items); reflexivity.
  - intros kept Hkept. rewrite Hl in Hkept.
    destruct (get body "image_input"); try discriminate.
    destruct (filter nonBlankString items) as [|x xs] eqn:Hf; [discriminate|].
    inversion Hkept; subst kept. split; [discriminate|].
    intros v Hv. rewrite <- Hf in Hv. apply filter_In in Hv.
    destruct Hv as [_ Hv]. destruct v; try discriminate.
    exists s. split; [reflexivity|]. simpl in Hv.
    apply negb_true_iff in Hv. exact Hv.
Qed.

Lemma image_input_is_filtered_witness :
  lookup "image_input"
    [("prompt", Str "a cat"); ("aspect_ratio", Str "16:9");
     ("output_format", Str "jpg");
     ("image_input", Arr [Str "data:image/png;base64,AAAA"; Str " x "])]
  = match filter nonBlankString
            [Str "data:image/png;base64,AAAA"; ofInt 7; Str "   "; Null;
             Str " x "] with
    | [] => None
    | kept => Some (Arr kept)
    end.
Proof.
  apply (proj1 (image_input_is_filtered Fixtures.cfg
           (Obj [("model_key", Str "nano-banana"); ("prompt", Str "a cat");
                 ("image_input",
                  Arr [Str "data:image/png;base64,AAAA"; ofInt 7; Str "   ";
                       Null; Str " x "])])
           "r8_token" "nano-banana-v1"
           [("prompt", Str "a cat"); ("aspect_ratio", Str "16:9");
            ("output_format", Str "jpg");
            ("image_input", Arr [Str "data:image/png;base64,AAAA"; Str " x "])]
           eq_refl)).
  reflexivity.
Defined.

(** An element made of a no-break space is blank and is dropped. *)
Example image_input_drops_no_break_space :
  preparePrediction Fixtures.cfg
    (Obj [("model_key", Str "nano-banana"); ("prompt", Str "a cat");
          ("image_input", Arr [Str nbsp; Str "x"])])
  = Returned (Forward "r8_token"
      (ImageRequest "nano-banana-v1"
         [("prompt", Str "a cat"); ("aspect_ratio", Str "16:9");
          ("output_format", Str "jpg"); ("image_input", Arr [Str "x"])])).
Proof. reflexivity. Qed.

Lemma envOr_nonempty a s : envOr a None = Some s -> isEmpty s = false.
Proof.
  unfold envOr. destruct a as [t|]; [|discriminate].
  destruct (isEmpty t) eqn:E; [discriminate|].
  intros H; inversion H; subst. exact E.
Qed.

Lemma forwarded_prompt cfg reqBody token version input :
  preparePrediction cfg reqBody
  = Returned (Forward token (ImageRequest version input)) ->
  lookup "prompt" input
  = Some (Str (trim (stringOr (get (orElse reqBody (Obj [])) "prompt")
                       EmptyString))).
Proof.
  intros Hprep.
  destruct (forwarded_cases _ _ _ _ _ Hprep) as [[_ Hin]|[_ ->]].
  - apply NormalizerProps.seedreamInput_returned in Hin.
    destruct Hin as (mx & base & _ & Hbase & [[_ ->]|[_ (pw & ph & _ & _ & ->)]]).
    + rewrite NormalizerProps.lookup_withImageInput by discriminate.
      subst base. reflexivity.
    + rewrite NormalizerProps.lookup_withImageInput by discriminate.
      rewrite !NormalizerProps.lookup_setDimension_other by discriminate.
      subst base. reflexivity.
  - unfold otherInput.
    rewrite NormalizerProps.lookup_withImageInput by discriminate.
    reflexivity.
Qed.

(** X9. A forwarded request never carries an empty token, an empty version
    or a blank prompt: its prompt is the request's prompt trimmed, which is
    not empty, has no white space at either end and is left unchanged by
    trimming it again. *)
Theorem forwarded_request_is_complete
    (cfg : Config) (reqBody : Value) (token version : string)
    (input : list (string * Value)) :
  preparePrediction cfg reqBody
  = Returned (Forward token (ImageRequest version input)) ->
  isEmpty token = false
  /\ isEmpty version = false
  /\ exists raw prompt,
      get (orElse reqBody (Obj [])) "prompt" = Str raw
      /\ prompt = trim raw
      /\ lookup "prompt" input = Some (Str prompt)
      /\ isEmpty prompt = false
      /\ Vocabulary.cleanEnds prompt = true
      /\ trim prompt = prompt.
Proof.
  intros Hprep. pose proof (forwarded_prompt _ _ _ _ _ Hprep) as Hp.
  apply NormalizerProps.preparePrediction_forward in Hprep. cbv zeta in Hprep.
  destruct Hprep as (Htok & (config & _ & Hver) & Hne & _).
  split; [apply (envOr_nonempty _ _ Htok)|].
  split.
  { destruct config; simpl in Hver; [|discriminate].
    apply (envOr_nonempty _ _ Hver). }
  destruct (get (orElse reqBody (Obj [])) "prompt") as [| | | |raw| |] eqn:Hraw;
    try (simpl in Hne; discriminate).
  exists raw, (trim raw). simpl in Hp, Hne.
  repeat split; auto;
    [apply TrimFacts.trim_cleanEnds|apply TrimFacts.trim_idem].
Qed.

Lemma forwarded_request_is_complete_witness :
  isEmpty "r8_token" = false
  /\ isEmpty "nano-banana-v1" = false
  /\ exists raw prompt,
      get (orElse Fixtures.catRequest (Obj [])) "prompt" = Str raw
      /\ prompt = trim raw
      /\ lookup "prompt" Fixtures.catInput = Some (Str prompt)
      /\ isEmpty prompt = false
      /\ Vocabulary.cleanEnds prompt = true
      /\ trim prompt = prompt.
Proof.
  apply (forwarded_request_is_complete Fixtures.cfg Fixtures.catRequest
           "r8_token" "nano-banana-v1" Fixtures.catInput).
  reflexivity.
Defined.

Lemma model_config_none cfg key :
  key <> "seedream" -> key <> "nano-banana" -> key <> "constructor" ->
  key <> "__proto__" -> MODEL_CONFIG cfg key = None.
Proof.
  intros H1 H2 H3 H4. unfold MODEL_CONFIG.
  apply String.eqb_neq in H1, H2, H3, H4. rewrite H1, H2, H3, H4.
  reflexivity.
Qed.

(** X10. How the model key is resolved and gated, once the token is
    present: a non-empty string model_key counts in lower case, anything
    else falls back to the configured default key; a key other than
    "seedream" and "nano-banana" is answered without any request to the
    provider, with 400 (unsupported model key) in general and with 500
    for the two names every object inherits, "constructor" and
    "__proto__", whatever the prompt is. *)
Theorem model_key_gate
    (cfg : Config) (rm : Remote) (fuel : nat) (reqBody : Value) (w : World)
    (token : string) :
  envOr (REPLICATE_API_TOKEN cfg) None = Some token ->
  let body := orElse reqBody (Obj []) in
  let key := resolveModelKey cfg body in
  (forall s, get body "model_key" = Str s -> isEmpty s = false ->
     key = toLowerCase s)
  /\ ((forall s, get body "model_key" = Str s -> isEmpty s = true) ->
      key = DEFAULT_MODEL_KEY cfg)
  /\ (key <> "seedream" -> key <> "nano-banana" -> key <> "constructor" ->
      key <> "__proto__" ->
      api_predictions cfg rm fuel reqBody w = Some (w, unsupportedModel key)
      /\ statusCode (unsupportedModel key) = 400)
  /\ (key = "constructor" \/ key = "__proto__" ->
      api_predictions cfg rm fuel reqBody w
      = Some (w, missingVersion key Inherited)
      /\ statusCode (missingVersion key Inherited) = 500).
Proof.
  intros Htok body key. split; [|split; [|split]].
  - intros s Hs Hne. unfold key, resolveModelKey. rewrite Hs.
    unfold envOrDefault, envOr. rewrite Hne. reflexivity.
  - intros Hdef. unfold key, resolveModelKey.
    assert (Hlow : toLowerCase (DEFAULT_MODEL_KEY cfg) = DEFAULT_MODEL_KEY cfg)
      by apply TrimFacts.toLowerCase_idem.
    destruct (get body "model_key") as [| | | |s| |]; try exact Hlow.
    unfold envOrDefault, envOr. rewrite (Hdef s eq_refl). exact Hlow.
  - intros H1 H2 H3 H4. split; [|reflexivity].
    unfold api_predictions, preparePrediction. fold body. fold key.
    rewrite Htok, (model_config_none cfg key H1 H2 H3 H4). reflexivity.
  - intros Hk. split; [|reflexivity].
    unfold api_predictions, preparePrediction. fold body. fold key.
    rewrite Htok. destruct Hk as [-> | ->]; reflexivity.
Qed.

Lemma model_key_gate_witness :
  api_predictions Fixtures.cfg Fixtures.stuck 5
    (Obj [("model_key", Str "DALL-E"); ("prompt", Str "a cat")])
    Fixtures.start
  = Some (Fixtures.start, unsupportedModel "dall-e")
  /\ statusCode (unsupportedModel "dall-e") = 400.
Proof.
  destruct (model_key_gate Fixtures.cfg Fixtures.stuck 5
              (Obj [("model_key", Str "DALL-E"); ("prompt", Str "a cat")])
              Fixtures.start "r8_token" eq_refl) as (_ & _ & Hgate & _).
  apply Hgate; discriminate.
Defined.

(** X11. Where the forwarded version comes from: for seedream it is
    REPLICATE_SEEDREAM_VERSION when that is set and not empty, and otherwise
    the legacy REPLICATE_MODEL_VERSION; for nano-banana it is
    REPLICATE_NANO_BANANA_VERSION only, and when that is unset or empty the
    request is answered with 500 before any request to the provider, even
    if the legacy variable is set. *)
Theorem version_source :
  (forall cfg reqBody token version input,
      preparePrediction cfg reqBody
      = Returned (Forward token (ImageRequest version input)) ->
      let key := resolveModelKey cfg (orElse reqBody (Obj [])) in
      (key = "seedream" ->
       (REPLICATE_SEEDREAM_VERSION cfg = Some version)
       \/ (envOr (REPLICATE_SEEDREAM_VERSION cfg) None = None
           /\ REPLICATE_MODEL_VERSION cfg = Some version))
      /\ (key = "nano-banana" ->
          REPLICATE_NANO_BANANA_VERSION cfg = Some version))
  /\ (forall cfg rm fuel reqBody w token,
         envOr (REPLICATE_API_TOKEN cfg) None = Some token ->
         resolveModelKey cfg (orElse reqBody (Obj [])) = "nano-banana" ->
         envOr (REPLICATE_NANO_BANANA_VERSION cfg) None = None ->
         exists r, api_predictions cfg rm fuel reqBody w = Some (w, r)
                   /\ statusCode r = 500).
Proof.
  split.
  - intros cfg reqBody token version input Hprep key.
    apply NormalizerProps.preparePrediction_forward in Hprep.
    cbv zeta in Hprep. fold key in Hprep.
    destruct Hprep as (_ & (config & Hcfg & Hver) & _ & _).
    split; intros Hkey; rewrite Hkey in Hcfg; inversion Hcfg; subst config;
      simpl in Hver; unfold envOr in *.
    + destruct (REPLICATE_SEEDREAM_VERSION cfg) as [sv|].
      * destruct (isEmpty sv) eqn:Es.
        -- right. split; [reflexivity|].
           destruct (REPLICATE_MODEL_VERSION cfg) as [mv|]; [|discriminate].
           destruct (isEmpty mv); [discriminate|]. exact Hver.
        -- left. rewrite Es in Hver. exact Hver.
      * right. split; [reflexivity|].
        destruct (REPLICATE_MODEL_VERSION cfg) as [mv|]; [|discriminate].
        destruct (isEmpty mv); [discriminate|]. exact Hver.
    + destruct (REPLICATE_NANO_BANANA_VERSION cfg) as [nv|]; [|discriminate].
      destruct (isEmpty nv); [discriminate|]. exact Hver.
  - intros cfg rm fuel reqBody w token Htok Hkey Hnone.
    unfold api_predictions, preparePrediction. rewrite Htok, Hkey.
    change (MODEL_CONFIG cfg "nano-banana")
      with (Some (Entry "REPLICATE_NANO_BANANA_VERSION"
                    (REPLICATE_NANO_BANANA_VERSION cfg))).
    cbn [entryVersion]. rewrite Hnone. eexists. split; reflexivity.
Qed.

Lemma version_source_witness :
  (("seedream" = "seedream" ->
    (REPLICATE_SEEDREAM_VERSION Fixtures.legacy = Some "legacy-v3")
    \/ (envOr (REPLICATE_SEEDREAM_VERSION Fixtures.legacy) None = None
        /\ REPLICATE_MODEL_VERSION Fixtures.legacy = Some "legacy-v3"))
   /\ ("seedream" = "nano-banana" ->
       REPLICATE_NANO_BANANA_VERSION Fixtures.legacy = Some "legacy-v3"))
  /\ exists r,
      api_predictions Fixtures.legacy Fixtures.stuck 5 Fixtures.catRequest
        Fixtures.start = Some (Fixtures.start, r)
      /\ statusCode r = 500.
Proof.
  split.
  - apply (proj1 version_source Fixtures.legacy
             (Obj [("prompt", Str "a city")]) "r8_token" "legacy-v3"
             [("prompt", Str "a city"); ("size", Str "2K");
              ("aspect_ratio", Str "match_input_image");
              ("sequential_image_generation", Str "disabled");
              ("max_images", ofInt 1)]).
    reflexivity.
  - apply (proj2 version_source Fixtures.legacy Fixtures.stuck 5%nat
             Fixtures.catRequest Fixtures.start "r8_token"); reflexivity.
Defined.

(** X12. [/api/predictions] either answers from its synchronous part, with
    400 or 500 and without touching the network, clock or timers; or it has
    validated the request completely, and then the first thing it issued is
    the create request carrying the token, the version and the normalised
    input, followed by polls only. *)
Theorem no_request_unless_valid
    (cfg : Config) (rm : Remote) (fuel : nat) (reqBody : Value)
    (w w' : World) (r : HttpResponse) :
  api_predictions cfg rm fuel reqBody w = Some (w', r) ->
  (w' = w /\ (statusCode r = 400 \/ statusCode r = 500)
   /\ forall token rq,
        preparePrediction cfg reqBody <> Returned (Forward token rq))
  \/ (exists token version input reads,
         preparePrediction cfg reqBody
         = Returned (Forward token (ImageRequest version input))
         /\ requests w'
            = (requests w
               ++ CreatePrediction token (ImageRequest version input)
                  :: reads)%list
         /\ forallb (Vocabulary.isReadWith token) reads = true).
Proof.
  unfold api_predictions.
  destruct (preparePrediction cfg reqBody) as [[rj|token rq]|e] eqn:Hprep.
  - intros H; inversion H; subst. left. split; [reflexivity|].
    destruct (RunnerExtra.prepare_reject_shape _ _ _ Hprep) as (_ & _ & Hs).
    split; [exact Hs|]. intros; discriminate.
  - destruct (forward_is_image_request _ _ _ _ Hprep) as (version & input & ->).
    destruct (createAndPollPrediction cfg rm fuel token _ w)
      as [[w2 out]|] eqn:Hrun; [|discriminate].
    intros H. right. exists token, version, input.
    destruct (RunnerExtra.runner_requests _ _ _ _ _ _ _ _ Hrun)
      as (reads & Hreq & Hall).
    exists reads. split; [reflexivity|].
    destruct out as [[p el]|er]; inversion H; subst; auto.
  - intros H; inversion H; subst. left. split; [reflexivity|].
    split; [|intros; discriminate].
    destruct e as [m st d|]; [|right; reflexivity].
    exfalso. unfold preparePrediction in Hprep.
    destruct (envOr (REPLICATE_API_TOKEN cfg) None); [|discriminate].
    destruct (MODEL_CONFIG cfg _) as [cf|]; [|discriminate].
    destruct (entryVersion cf); [|discriminate].
    destruct (isEmpty _); [discriminate|].
    unfold buildInput in Hprep.
    destruct (String.eqb _ "seedream"); [|discriminate].
    unfold seedreamInput, parseInt, toStringO in Hprep.
    repeat match type of Hprep with
           | context [toStringJs ?v] => destruct (toStringJs v)
           | context [String.eqb ?a ?b] => destruct (String.eqb a b)
           end; simpl in Hprep; try discriminate.
Qed.

Lemma no_request_unless_valid_witness :
  (Fixtures.start = Fixtures.start
   /\ (statusCode (unsupportedModel "dall-e") = 400
       \/ statusCode (unsupportedModel "dall-e") = 500)
   /\ forall token rq,
        preparePrediction Fixtures.cfg
          (Obj [("model_key", Str "DALL-E"); ("prompt", Str "a cat")])
        <> Returned (Forward token rq))
  \/ (exists token version input reads,
         preparePrediction Fixtures.cfg
           (Obj [("model_key", Str "DALL-E"); ("prompt", Str "a cat")])
         = Returned (Forward token (ImageRequest version input))
         /\ requests Fixtures.start
            = (requests Fixtures.start
               ++ CreatePrediction token (ImageRequest version input)
                  :: reads)%list
         /\ forallb (Vocabulary.isReadWith token) reads = true).
Proof.
  apply (no_request_unless_valid Fixtures.cfg Fixtures.stuck 5
           (Obj [("model_key", Str "DALL-E"); ("prompt", Str "a cat")])
           Fixtures.start Fixtures.start (unsupportedModel "dall-e")).
  reflexivity.
Defined.

Lemma forwarded_aspect_ratio cfg reqBody token version input :
  preparePrediction cfg reqBody
  = Returned (Forward token (ImageRequest version input)) ->
  let body := orElse reqBody (Obj []) in
  lookup "aspect_ratio" input
  = Some (Str (stringOr (get body "aspect_ratio")
                 (if String.eqb (resolveModelKey cfg body) "seedream"
                  then "match_input_image" else "16:9"))).
Proof.
  intros Hprep body.
  destruct (forwarded_cases _ _ _ _ _ Hprep) as [[Hk Hin]|[Hk ->]];
    fold body in Hk; rewrite Hk.
  - apply NormalizerProps.seedreamInput_returned in Hin.
    destruct Hin as (mx & base & _ & Hbase & [[_ ->]|[_ (pw & ph & _ & _ & ->)]]).
    + rewrite NormalizerProps.lookup_withImageInput by discriminate.
      subst base. reflexivity.
    + rewrite NormalizerProps.lookup_withImageInput by discriminate.
      rewrite !NormalizerProps.lookup_setDimension_other by discriminate.
      subst base. reflexivity.
  - unfold otherInput.
    rewrite NormalizerProps.lookup_withImageInput by discriminate.
    reflexivity.
Qed.

(** X22. The free-form fields of a forwarded input are the request's own
    strings, untouched (not trimmed, and kept even when empty), and a fixed
    default when the request's value is not a string: aspect_ratio defaults
    to "match_input_image" for seedream and to "16:9" for nano-banana,
    sequential_image_generation (seedream) to "disabled" and output_format
    (nano-banana) to "jpg". *)
Theorem free_form_fields_pass_through
    (cfg : Config) (reqBody : Value) (token version : string)
    (input : list (string * Value)) :
  preparePrediction cfg reqBody
  = Returned (Forward token (ImageRequest version input)) ->
  let body := orElse reqBody (Obj []) in
  let key := resolveModelKey cfg body in
  (forall s, get body "aspect_ratio" = Str s ->
     lookup "aspect_ratio" input = Some (Str s))
  /\ ((forall s, get body "aspect_ratio" <> Str s) ->
      lookup "aspect_ratio" input
      = Some (Str (if String.eqb key "seedream"
                   then "match_input_image" else "16:9")))
  /\ (key = "seedream" ->
      lookup "output_format" input = None
      /\ lookup "sequential_image_generation" input
         = Some (Str (stringOr (get body "sequential_image_generation")
                        "disabled")))
  /\ (key = "nano-banana" ->
      lookup "sequential_image_generation" input = None
      /\ lookup "output_format" input
         = Some (Str (stringOr (get body "output_format") "jpg"))).
Proof.
  intros Hprep body key.
  pose proof (forwarded_aspect_ratio _ _ _ _ _ Hprep) as Ha.
  cbv zeta in Ha. fold body in Ha. fold key in Ha.
  split; [|split; [|split]].
  - intros s Hs. rewrite Ha, Hs. reflexivity.
  - intros Hns. rewrite Ha.
    destruct (get body "aspect_ratio"); try reflexivity.
    destruct (Hns s); reflexivity.
  - intros Hk.
    destruct (forwarded_cases _ _ _ _ _ Hprep) as [[_ Hin]|[Hk' _]].
    2:{ fold body in Hk'. fold key in Hk'. rewrite Hk in Hk'. discriminate. }
    fold body in Hin.
    apply NormalizerProps.seedreamInput_returned in Hin.
    destruct Hin as (mx & base & _ & Hbase & [[_ ->]|[_ (pw & ph & _ & _ & ->)]]).
    + rewrite !NormalizerProps.lookup_withImageInput by discriminate.
      subst base. split; reflexivity.
    + rewrite !NormalizerProps.lookup_withImageInput by discriminate.
      rewrite !NormalizerProps.lookup_setDimension_other by discriminate.
      subst base. split; reflexivity.
  - intros Hk.
    destruct (forwarded_cases _ _ _ _ _ Hprep) as [[Hk' _]|[_ ->]].
    { fold body in Hk'. fold key in Hk'. rewrite Hk in Hk'. discriminate. }
    unfold otherInput.
    rewrite !NormalizerProps.lookup_withImageInput by discriminate.
    split; reflexivity.
Qed.

Lemma free_form_fields_pass_through_witness :
  lookup "aspect_ratio"
    [("prompt", Str "a cat"); ("aspect_ratio", Str " 4:3 ");
     ("output_format", Str "jpg")]
  = Some (Str " 4:3 ")
  /\ lookup "sequential_image_generation"
       [("prompt", Str "a cat"); ("aspect_ratio", Str " 4:3 ");
        ("output_format", Str "jpg")] = None
  /\ lookup "output_format"
       [("prompt", Str "a cat"); ("aspect_ratio", Str " 4:3 ");
        ("output_format", Str "jpg")]
     = Some (Str (stringOr
                    (get (Obj [("model_key", Str "nano-banana");
                               ("prompt", Str "a cat");
                               ("aspect_ratio", Str " 4:3 ");
                               ("output_format", ofInt 3)]) "output_format")
                    "jpg")).
Proof.
  destruct (free_form_fields_pass_through Fixtures.cfg
              (Obj [("model_key", Str "nano-banana"); ("prompt", Str "a cat");
                    ("aspect_ratio", Str " 4:3 "); ("output_format", ofInt 3)])
              "r8_token" "nano-banana-v1"
              [("prompt", Str "a cat"); ("aspect_ratio", Str " 4:3 ");
               ("output_format", Str "jpg")] eq_refl)
    as (Hstr & _ & _ & Hnano).
  split; [apply (Hstr " 4:3 "); reflexivity|].
  apply Hnano. reflexivity.
Defined.

End NormalizerExtra.

(* ================================================================== *)
(** ** Further properties of text extraction and of [/api/refine] *)

Module TextExtra.
Import Server.

Lemma normalizeText_stable c : trim (normalizeText c) = normalizeText c.
Proof. destruct c; try reflexivity. apply TrimFacts.trim_idem. Qed.

Lemma firstText_stable l : trim (firstText l) = firstText l.
Proof.
  induction l as [|c r IH]; [reflexivity|].
  cbn [firstText]. destruct (negb (isEmpty (normalizeText c))); [|exact IH].
  apply normalizeText_stable.
Qed.

Lemma firstText_empty l :
  firstText l = EmptyString
  <-> forall c, In c l -> normalizeText c = EmptyString.
Proof.
  induction l as [|c r IH].
  - split; [intros _ c []|reflexivity].
  - cbn [firstText]. destruct (normalizeText c) as [|a t] eqn:E; cbn [isEmpty negb].
    + rewrite IH. split.
      * intros H x [<-|Hx]; auto.
      * intros H x Hx. apply H. right. exact Hx.
    + split; [discriminate|].
      intros H. specialize (H c (or_introl eq_refl)). congruence.
Qed.

Lemma extractText_stable prediction :
  trim (extractTextOutput prediction) = extractTextOutput prediction.
Proof.
  unfold extractTextOutput. destruct (truthy prediction); cbn [negb];
    [apply firstText_stable|reflexivity].
Qed.

(** X13. The text [extractTextOutput] returns never has white space at
    either end (trimming it changes nothing), and it is empty exactly when
    the prediction is falsy or none of the candidates it collects is a
    string with something other than white space in it. *)
Theorem extracted_text_is_trimmed (prediction : Value) :
  trim (extractTextOutput prediction) = extractTextOutput prediction
  /\ Vocabulary.cleanEnds (extractTextOutput prediction) = true
  /\ (extractTextOutput prediction = EmptyString
      <-> truthy prediction = false
          \/ forall c, In c (textCandidates prediction) ->
                       normalizeText c = EmptyString).
Proof.
  split; [apply extractText_stable|].
  split; [apply TrimFacts.fixed_cleanEnds, extractText_stable|].
  unfold extractTextOutput. destruct (truthy prediction); cbn [negb].
  - rewrite firstText_empty.
    split; [auto|]. intros [H|H]; [discriminate|exact H].
  - split; auto.
Qed.

Lemma prepareRefine_forward cfg reqBody token rq prompt :
  prepareRefine cfg reqBody = (Forward token rq, prompt) ->
  exists version,
    REPLICATE_REFINE_MODEL_VERSION cfg = Some version
    /\ isEmpty version = false
    /\ isEmpty token = false
    /\ prompt = trim (stringOr (getOpt reqBody "prompt") EmptyString)
    /\ isEmpty prompt = false
    /\ rq = RefineRequest version prompt.
Proof.
  unfold prepareRefine.
  destruct (envOr (REPLICATE_API_TOKEN cfg) None) as [tk|] eqn:Htok;
    [|discriminate].
  destruct (envOr (REPLICATE_REFINE_MODEL_VERSION cfg) None) as [ver|] eqn:Hver;
    [|discriminate].
  destruct (isEmpty _) eqn:Hne; [discriminate|].
  intros H; inversion H; subst. exists ver.
  pose proof (NormalizerExtra.envOr_nonempty _ _ Htok).
  pose proof (NormalizerExtra.envOr_nonempty _ _ Hver).
  repeat split; auto.
  unfold envOr in Hver. destruct (REPLICATE_REFINE_MODEL_VERSION cfg) as [v|];
    [|discriminate].
  destruct (isEmpty v); [discriminate|exact Hver].
Qed.

Lemma prepareRefine_reject cfg reqBody r prompt :
  prepareRefine cfg reqBody = (Reject r, prompt) ->
  Vocabulary.isErrorBody (json r) = true
  /\ isEmpty (Vocabulary.errorText (json r)) = false
  /\ (statusCode r = 400 \/ statusCode r = 500).
Proof.
  unfold prepareRefine.
  destruct (envOr (REPLICATE_API_TOKEN cfg) None).
  2:{ intros H; inversion H; subst. repeat split; auto. }
  destruct (envOr (REPLICATE_REFINE_MODEL_VERSION cfg) None).
  2:{ intros H; inversion H; subst. repeat split; auto. }
  destruct (isEmpty _); [|discriminate].
  intros H; inversion H; subst. repeat split; auto.
Qed.

Lemma prepareRefine_reject_cases cfg reqBody r prompt :
  prepareRefine cfg reqBody = (Reject r, prompt) ->
  (envOr (REPLICATE_API_TOKEN cfg) None = None /\ r = missingToken)
  \/ (envOr (REPLICATE_API_TOKEN cfg) None <> None
      /\ envOr (REPLICATE_REFINE_MODEL_VERSION cfg) None = None
      /\ r = missingRefineVersion)
  \/ (envOr (REPLICATE_API_TOKEN cfg) None <> None
      /\ envOr (REPLICATE_REFINE_MODEL_VERSION cfg) None <> None
      /\ trim (stringOr (getOpt reqBody "prompt") EmptyString) = EmptyString
      /\ r = missingPrompt).
Proof.
  unfold prepareRefine.
  destruct (envOr (REPLICATE_API_TOKEN cfg) None).
  2:{ intros H; inversion H; subst. left. auto. }
  destruct (envOr (REPLICATE_REFINE_MODEL_VERSION cfg) None).
  2:{ intros H; inversion H; subst. right. left.
      repeat split; discriminate. }
  destruct (trim (stringOr (getOpt reqBody "prompt") EmptyString)) eqn:Hp;
    cbn [isEmpty]; [|discriminate].
  intros H; inversion H; subst. right. right.
  repeat split; discriminate.
Qed.

(** X14. [/api/refine] either answers from its synchronous part, without
    touching the network, or it has issued, first, a create request with
    the configured refine version and the trimmed, non-empty prompt,
    followed by polls only.  The synchronous answers are, in this order:
    500 when the token is missing, 500 when the refine version is
    missing, and 400 when the prompt is not a string or is blank. *)
Theorem refine_forwards_the_trimmed_prompt
    (cfg : Config) (rm : Remote) (fuel : nat) (reqBody : Value)
    (w w' : World) (r : HttpResponse) :
  api_refine cfg rm fuel reqBody w = Some (w', r) ->
  (w' = w
   /\ envOr (REPLICATE_API_TOKEN cfg) None = None
   /\ r = missingToken /\ statusCode r = 500)
  \/ (w' = w
      /\ envOr (REPLICATE_API_TOKEN cfg) None <> None
      /\ envOr (REPLICATE_REFINE_MODEL_VERSION cfg) None = None
      /\ r = missingRefineVersion /\ statusCode r = 500)
  \/ (w' = w
      /\ envOr (REPLICATE_API_TOKEN cfg) None <> None
      /\ envOr (REPLICATE_REFINE_MODEL_VERSION cfg) None <> None
      /\ trim (stringOr (getOpt reqBody "prompt") EmptyString) = EmptyString
      /\ r = missingPrompt /\ statusCode r = 400)
  \/ (exists token version prompt reads,
         REPLICATE_API_TOKEN cfg = Some token
         /\ REPLICATE_REFINE_MODEL_VERSION cfg = Some version
         /\ isEmpty version = false
         /\ prompt = trim (stringOr (getOpt reqBody "prompt") EmptyString)
         /\ isEmpty prompt = false
         /\ requests w'
            = (requests w
               ++ CreatePrediction token (RefineRequest version prompt)
                  :: reads)%list
         /\ forallb (Vocabulary.isReadWith token) reads = true).
Proof.
  unfold api_refine.
  destruct (prepareRefine cfg reqBody) as [[rj|token rq] prompt] eqn:Hprep.
  - intros H; inversion H; subst.
    destruct (prepareRefine_reject_cases _ _ _ _ Hprep)
      as [(Ht & ->)|[(Ht & Hv & ->)|(Ht & Hv & Hp & ->)]].
    + left. auto.
    + right. left. auto.
    + right. right. left. repeat split; auto.
  - destruct (prepareRefine_forward _ _ _ _ _ Hprep)
      as (version & Hv & Hvne & _ & Hp & Hpne & ->).
    assert (Htok : REPLICATE_API_TOKEN cfg = Some token).
    { unfold prepareRefine in Hprep. unfold envOr in Hprep at 1.
      destruct (REPLICATE_API_TOKEN cfg) as [tk|]; [|discriminate].
      destruct (isEmpty tk); [discriminate|].
      destruct (envOr (REPLICATE_REFINE_MODEL_VERSION cfg) None);
        [|discriminate].
      destruct (isEmpty _); [discriminate|].
      inversion Hprep. reflexivity. }
    destruct (createAndPollPrediction cfg rm fuel token _ w)
      as [[w2 out]|] eqn:Hrun; [|discriminate].
    destruct (RunnerExtra.runner_requests _ _ _ _ _ _ _ _ Hrun)
      as (reads & Hreq & Hall).
    intros H. right. right. right. exists token, version, prompt, reads.
    destruct out as [[p el]|er]; inversion H; subst w2; auto 10.
Qed.

Lemma refine_forwards_the_trimmed_prompt_witness :
  (Fixtures.start = Fixtures.start
   /\ envOr (REPLICATE_API_TOKEN Fixtures.cfg) None = None
   /\ missingPrompt = missingToken /\ statusCode missingPrompt = 500)
  \/ (Fixtures.start = Fixtures.start
      /\ envOr (REPLICATE_API_TOKEN Fixtures.cfg) None <> None
      /\ envOr (REPLICATE_REFINE_MODEL_VERSION Fixtures.cfg) None = None
      /\ missingPrompt = missingRefineVersion
      /\ statusCode missingPrompt = 500)
  \/ (Fixtures.start = Fixtures.start
      /\ envOr (REPLICATE_API_TOKEN Fixtures.cfg) None <> None
      /\ envOr (REPLICATE_REFINE_MODEL_VERSION Fixtures.cfg) None <> None
      /\ trim (stringOr (getOpt (Obj [("prompt", Str (nbsp ++ " "))]) "prompt")
                EmptyString) = EmptyString
      /\ missingPrompt = missingPrompt /\ statusCode missingPrompt = 400)
  \/ (exists token version prompt reads,
         REPLICATE_API_TOKEN Fixtures.cfg = Some token
         /\ REPLICATE_REFINE_MODEL_VERSION Fixtures.cfg = Some version
         /\ isEmpty version = false
         /\ prompt = trim (stringOr (getOpt (Obj [("prompt", Str (nbsp ++ " "))])
                                     "prompt")
                             EmptyString)
         /\ isEmpty prompt = false
         /\ requests Fixtures.start
            = (requests Fixtures.start
               ++ CreatePrediction token (RefineRequest version prompt)
                  :: reads)%list
         /\ forallb (Vocabulary.isReadWith token) reads = true).
Proof.
  apply (refine_forwards_the_trimmed_prompt Fixtures.cfg Fixtures.stuck 5
           (Obj [("prompt", Str (nbsp ++ " "))]) Fixtures.start Fixtures.start
           missingPrompt).
  reflexivity.
Defined.

(** X15. Every answer of [/api/refine] is either 200 with a refined prompt
    and a prediction whose status is terminal, or an error body with a
    non-empty text and a status outside 200..299.  The refined prompt of a
    200 answer is never empty and has no white space at either end: it is
    the extracted text when there is one and the trimmed request prompt
    otherwise. *)
Theorem refine_answers
    (cfg : Config) (rm : Remote) (fuel : nat) (reqBody : Value)
    (w w' : World) (r : HttpResponse) :
  api_refine cfg rm fuel reqBody w = Some (w', r) ->
  (exists refined elapsed p,
      r = respond 200 (RefineBody refined elapsed p)
      /\ terminalStatuses_has (get p "status") = true
      /\ isEmpty refined = false
      /\ Vocabulary.cleanEnds refined = true
      /\ trim refined = refined
      /\ ((isEmpty (extractTextOutput p) = false
           /\ refined = extractTextOutput p)
          \/ (extractTextOutput p = EmptyString
              /\ refined
                 = trim (stringOr (getOpt reqBody "prompt") EmptyString))))
  \/ (Vocabulary.isErrorBody (json r) = true
      /\ isEmpty (Vocabulary.errorText (json r)) = false
      /\ (200 <=? statusCode r) && (statusCode r <=? 299) = false).
Proof.
  unfold api_refine.
  destruct (prepareRefine cfg reqBody) as [[rj|token rq] prompt] eqn:Hprep.
  - intros H; inversion H; subst. right.
    destruct (prepareRefine_reject _ _ _ _ Hprep) as (Hb & Ht & Hs).
    repeat split; auto. destruct Hs as [-> | ->]; reflexivity.
  - destruct (prepareRefine_forward _ _ _ _ _ Hprep)
      as (version & _ & _ & _ & Hp & Hpne & _).
    destruct (createAndPollPrediction cfg rm fuel token rq w)
      as [[w2 [[p elapsed]|e]]|] eqn:Hrun; [| |discriminate].
    + intros H; inversion H; subst w2 r. left.
      eexists _, elapsed, p. split; [reflexivity|].
      split; [apply (RunnerExtra.runner_returns_terminal _ _ _ _ _ _ _ _ _ Hrun)|].
      destruct (isEmpty (extractTextOutput p)) eqn:He.
      * split; [exact Hpne|].
        split; [rewrite Hp; apply TrimFacts.trim_cleanEnds|].
        split; [rewrite Hp; apply TrimFacts.trim_idem|].
        right. split; [|exact Hp].
        destruct (extractTextOutput p); [reflexivity|discriminate].
      * split; [exact He|].
        split; [apply TrimFacts.fixed_cleanEnds, extractText_stable|].
        split; [apply extractText_stable|].
        left. auto.
    + intros H; inversion H; subst. right.
      destruct (RunnerExtra.catchError_shape e) as (Hb & Ht & Hs & Ho).
      repeat split; auto. destruct e as [m st d|].
      * apply (Hs m st d eq_refl).
        apply (RunnerExtra.runner_error_status _ _ _ _ _ _ _ _ _ _ Hrun).
      * rewrite (Ho eq_refl). reflexivity.
Qed.

Lemma refine_answers_witness :
  (exists refined elapsed p,
      respond 200 (RefineBody "a cat" 0 (Fixtures.job "succeeded"))
      = respond 200 (RefineBody refined elapsed p)
      /\ terminalStatuses_has (get p "status") = true
      /\ isEmpty refined = false
      /\ Vocabulary.cleanEnds refined = true
      /\ trim refined = refined
      /\ ((isEmpty (extractTextOutput p) = false
           /\ refined = extractTextOutput p)
          \/ (extractTextOutput p = EmptyString
              /\ refined
                 = trim (stringOr (getOpt (Obj [("prompt", Str " a cat ")])
                                     "prompt") EmptyString))))
  \/ (Vocabulary.isErrorBody
        (json (respond 200 (RefineBody "a cat" 0 (Fixtures.job "succeeded"))))
      = true
      /\ isEmpty (Vocabulary.errorText
           (json (respond 200 (RefineBody "a cat" 0 (Fixtures.job "succeeded")))))
         = false
      /\ (200 <=? statusCode
                    (respond 200 (RefineBody "a cat" 0 (Fixtures.job "succeeded"))))
         && (statusCode
               (respond 200 (RefineBody "a cat" 0 (Fixtures.job "succeeded")))
             <=? 299) = false).
Proof.
  apply (refine_answers Fixtures.cfg Fixtures.silent 3
           (Obj [("prompt", Str " a cat ")]) Fixtures.start
           {| now := 1007;
              requests := [CreatePrediction "r8_token"
                             (RefineRequest "gpt-5-mini-v1" "a cat")];
              sleeps := 0 |}).
  reflexivity.
Defined.

Lemma splitLines_no_lf s :
  forall piece, In piece (splitLines s) ->
                allChars Vocabulary.notLineFeed piece = true.
Proof.
  induction s as [|c r IH]; intros piece.
  - intros [<-|[]]. reflexivity.
  - cbn [splitLines]. destruct (Nat.eqb (code c) 10) eqn:E.
    + intros [<-|H]; [reflexivity|apply IH; exact H].
    + destruct (splitLines r) as [|l ls] eqn:Hs.
      * intros [<-|[]]. cbn [allChars]. unfold Vocabulary.notLineFeed.
        rewrite E. reflexivity.
      * intros [<-|H].
        -- cbn [allChars]. unfold Vocabulary.notLineFeed at 1. rewrite E.
           apply IH. left. reflexivity.
        -- apply IH. right. exact H.
Qed.

Lemma join_no_lf l :
  (forall piece, In piece l -> allChars Vocabulary.notLineFeed piece = true) ->
  allChars Vocabulary.notLineFeed (join " " l) = true.
Proof.
  unfold join. induction l as [|x r IH]; intros H; [reflexivity|].
  cbn [String.concat]. destruct r as [|y r'].
  - apply H. left. reflexivity.
  - rewrite !TrimFacts.allChars_app. rewrite (H x (or_introl eq_refl)).
    rewrite IH; [reflexivity|]. intros piece Hp. apply H. right. exact Hp.
Qed.

Lemma splitLines_single s :
  allChars Vocabulary.notLineFeed s = true -> splitLines s = [s].
Proof.
  induction s as [|c r IH]; [reflexivity|].
  cbn [allChars splitLines]. intros H. apply andb_true_iff in H.
  destruct H as [Hc Hr]. unfold Vocabulary.notLineFeed in Hc.
  apply negb_true_iff in Hc. rewrite Hc, (IH Hr). reflexivity.
Qed.

Lemma splitLines_nonempty s : splitLines s <> [].
Proof.
  destruct s as [|c r]; [discriminate|]. cbn [splitLines].
  destruct (Nat.eqb (code c) 10); [discriminate|].
  destruct (splitLines r); discriminate.
Qed.

Lemma join_cons sep x l :
  l <> [] -> join sep (x :: l) = x ++ sep ++ join sep l.
Proof. destruct l; [congruence|reflexivity]. Qed.

Lemma join_head c sep l ls :
  join sep (String c l :: ls) = String c (join sep (l :: ls)).
Proof. destruct ls; reflexivity. Qed.

(** Splitting at line feeds loses nothing. *)
Lemma join_splitLines s : join lf (splitLines s) = s.
Proof.
  induction s as [|c r IH]; [reflexivity|]. cbn [splitLines].
  destruct (Nat.eqb (code c) 10) eqn:E.
  - rewrite join_cons by apply splitLines_nonempty. rewrite IH.
    apply Nat.eqb_eq in E. unfold code in E.
    rewrite <- (ascii_nat_embedding c), E. reflexivity.
  - pose proof (splitLines_nonempty r) as Hne.
    destruct (splitLines r) as [|l ls]; [congruence|].
    rewrite join_head, IH. reflexivity.
Qed.

(** X16. The candidate built from logs is made of the last lines of the
    logs, five of them or all when there are fewer, in their order and
    separated by single spaces: the logs are a sequence of lines without
    line feed joined by line feeds, and the candidate joins the last
    [min 5 n] of these [n] lines.  So it contains no line feed, and logs
    that are one line already are taken as they are. *)
Theorem log_tail_is_one_line (logs : string) :
  exists earlier kept,
    join lf (earlier ++ kept) = logs
    /\ (forall line, In line (earlier ++ kept)%list ->
                     allChars Vocabulary.notLineFeed line = true)
    /\ List.length kept = Nat.min 5 (List.length (earlier ++ kept)%list)
    /\ lastLogLines logs = join " " kept
    /\ allChars Vocabulary.notLineFeed (lastLogLines logs) = true
    /\ (allChars Vocabulary.notLineFeed logs = true ->
        lastLogLines logs = logs).
Proof.
  set (n := (List.length (splitLines logs) - 5)%nat).
  exists (firstn n (splitLines logs)), (sliceLast 5 (splitLines logs)).
  unfold sliceLast. fold n. rewrite (firstn_skipn n (splitLines logs)).
  split; [apply join_splitLines|].
  split; [apply splitLines_no_lf|].
  split; [rewrite length_skipn; unfold n; lia|].
  split; [reflexivity|]. unfold lastLogLines, sliceLast. fold n. split.
  - apply join_no_lf. intros piece Hp. apply (splitLines_no_lf logs).
    rewrite <- (firstn_skipn n (splitLines logs)).
    apply in_or_app. right. exact Hp.
  - intros H. unfold n. rewrite (splitLines_single logs H). reflexivity.
Qed.

Lemma log_tail_is_one_line_witness :
  lastLogLines "step 12 of 12" = "step 12 of 12"
  /\ exists earlier kept,
       join lf (earlier ++ kept)
       = "l1" ++ lf ++ "l2" ++ lf ++ "l3" ++ lf ++ "l4" ++ lf ++ "l5" ++ lf
         ++ "l6"
       /\ List.length kept = Nat.min 5 (List.length (earlier ++ kept)%list)
       /\ lastLogLines ("l1" ++ lf ++ "l2" ++ lf ++ "l3" ++ lf ++ "l4" ++ lf
                        ++ "l5" ++ lf ++ "l6")
          = join " " kept.
Proof.
  split.
  - destruct (log_tail_is_one_line "step 12 of 12")
      as (earlier & kept & _ & _ & _ & _ & _ & Hone).
    apply Hone. reflexivity.
  - destruct (log_tail_is_one_line
                ("l1" ++ lf ++ "l2" ++ lf ++ "l3" ++ lf ++ "l4" ++ lf
                 ++ "l5" ++ lf ++ "l6"))
      as (earlier & kept & Hlogs & _ & Hlen & Hlast & _).
    exists earlier, kept. repeat split; assumption.
Defined.

(** Six lines of logs: the first is dropped. *)
Example log_tail_of_six_lines :
  lastLogLines ("l1" ++ lf ++ "l2" ++ lf ++ "l3" ++ lf ++ "l4" ++ lf
                ++ "l5" ++ lf ++ "l6")
  = "l2 l3 l4 l5 l6".
Proof. vm_compute. reflexivity. Qed.

End TextExtra.

(* ================================================================== *)
(** ** Further properties of image extraction *)

Module ImageExtra.
Import Client.

Lemma alnum_not_space c : isAlnum c = true -> Vocabulary.notWhiteSpace c = true.
Proof. destruct c as [[] [] [] [] [] [] [] []]; intros H; try reflexivity; discriminate. Qed.

Lemma stripped_has_no_space s :
  allChars Vocabulary.notWhiteSpace (stripWhiteSpace s) = true.
Proof.
  unfold stripWhiteSpace. induction s as [|c r IH]; [reflexivity|].
  cbn [filterChars]. destruct (negb (isWhiteSpace c)) eqn:E; [|exact IH].
  cbn [allChars]. unfold Vocabulary.notWhiteSpace at 1. rewrite E. exact IH.
Qed.

Lemma normalized_has_scheme pg v mk r :
  normalizeImageValue pg v mk = Some r -> hasScheme r = true.
Proof.
  destruct v; simpl; try discriminate.
  destruct (isEmpty (trim s)); [discriminate|].
  destruct (hasScheme (trim s)) eqn:Hs.
  - intros H; inversion H; subst. exact Hs.
  - destruct (_ && _)%bool; [|discriminate].
    intros H; inversion H. reflexivity.
Qed.

Lemma data_uri_has_no_space format payload :
  allChars Vocabulary.notWhiteSpace format = true ->
  allChars Vocabulary.notWhiteSpace payload = true ->
  allChars Vocabulary.notWhiteSpace
    ("data:image/" ++ format ++ ";base64," ++ payload) = true.
Proof.
  intros Hf Hp. rewrite !TrimFacts.allChars_app, Hf, Hp. reflexivity.
Qed.

Lemma normalized_is_trimmed pg v mk r :
  normalizeImageValue pg v mk = Some r -> trim r = r.
Proof.
  destruct v; try (simpl; discriminate). unfold normalizeImageValue.
  destruct (isEmpty (trim s)); [discriminate|].
  destruct (hasScheme (trim s)).
  - intros H; inversion H; subst. apply TrimFacts.trim_idem.
  - destruct (_ && _)%bool; [|discriminate].
    intros H; inversion H; subst. apply TrimFacts.trim_nonws.
    apply data_uri_has_no_space; [|apply stripped_has_no_space].
    destruct (ImageProps.format_usable (expectedExtension pg mk)) as [Ha _].
    cbv zeta in Ha.
    apply (TrimFacts.allChars_weaken _ _ _ alnum_not_space Ha).
Qed.

Lemma firstSuccess_some {A B} (f : A -> option B) l y :
  Spec.firstSuccess f l = Some y -> exists x, In x l /\ f x = Some y.
Proof.
  induction l as [|x r IH]; [discriminate|].
  simpl. destruct (f x) eqn:E.
  - intros H; inversion H; subst. exists x. auto.
  - intros H. destruct (IH H) as (x' & Hin & Hx). exists x'. auto.
Qed.

(** Whatever [extractImageUrl] returns came out of [normalizeImageValue]. *)
Lemma extracted_was_normalized pg p mk r :
  extractImageUrl pg p mk = Some r ->
  exists v, normalizeImageValue pg v mk = Some r.
Proof.
  unfold extractImageUrl. destruct (negb (truthy p)); [discriminate|].
  set (output := nullish _ _).
  destruct (String.eqb (typeof output) "string"); [eauto|].
  destruct (match output with
            | Arr items => scanItems pg mk items
            | _ => None
            end) as [r0|] eqn:Hscan.
  - intros H; inversion H; subst r0.
    destruct output; try discriminate.
    rewrite ImageProps.scanItems_candidates in Hscan.
    apply firstSuccess_some in Hscan. destruct Hscan as (x & _ & Hx). eauto.
  - destruct (_ && _)%bool; [|discriminate].
    rewrite ImageProps.firstNormalized_firstSuccess. intros H.
    apply firstSuccess_some in H. destruct H as (x & _ & Hx). eauto.
Qed.

Lemma normalize_fixed pg mk r :
  hasScheme r = true -> isEmpty r = false -> trim r = r ->
  normalizeImageValue pg (Str r) mk = Some r.
Proof.
  intros Hs He Ht. unfold normalizeImageValue. rewrite Ht, He, Hs.
  reflexivity.
Qed.

(** X17. Every reference [extractImageUrl] returns is non-empty, starts
    with http://, https:// or data:, and has no white space at either end;
    it is a fixed point of the extraction: normalising it again, or
    extracting from a job whose output is that reference, gives it back
    unchanged, whatever the page state and model key are by then. *)
Theorem extracted_reference_is_canonical
    (pg : Page) (prediction : Value) (modelKey : option string) (r : string) :
  extractImageUrl pg prediction modelKey = Some r ->
  isEmpty r = false
  /\ hasScheme r = true
  /\ Vocabulary.cleanEnds r = true
  /\ trim r = r
  /\ forall pg' modelKey',
       normalizeImageValue pg' (Str r) modelKey' = Some r
       /\ extractImageUrl pg' (Obj [("output", Str r)]) modelKey' = Some r.
Proof.
  intros H. apply extracted_was_normalized in H. destruct H as (v & Hv).
  pose proof (ImageProps.normalized_nonempty _ _ _ _ Hv) as He.
  pose proof (normalized_has_scheme _ _ _ _ Hv) as Hs.
  pose proof (normalized_is_trimmed _ _ _ _ Hv) as Ht.
  pose proof (TrimFacts.fixed_cleanEnds _ Ht) as Hc.
  repeat split; auto.
  - apply normalize_fixed; assumption.
  - unfold extractImageUrl. cbn [truthy negb get lookup].
    change (String.eqb "output" "output") with true. cbv iota.
    cbn [nullish typeof]. change (String.eqb "string" "string") with true.
    cbv iota. apply normalize_fixed; assumption.
Qed.

Lemma extracted_reference_is_canonical_witness :
  isEmpty "https://cdn.example/c.jpg" = false
  /\ hasScheme "https://cdn.example/c.jpg" = true
  /\ Vocabulary.cleanEnds "https://cdn.example/c.jpg" = true
  /\ trim "https://cdn.example/c.jpg" = "https://cdn.example/c.jpg"
  /\ forall pg' modelKey',
       normalizeImageValue pg' (Str "https://cdn.example/c.jpg") modelKey'
       = Some "https://cdn.example/c.jpg"
       /\ extractImageUrl pg'
            (Obj [("output", Str "https://cdn.example/c.jpg")]) modelKey'
          = Some "https://cdn.example/c.jpg".
Proof.
  apply (extracted_reference_is_canonical Fixtures.page
           (Obj [("images",
                  Arr [ofInt 3;
                       Obj [("uri",
                             Str (nbsp ++ "https://cdn.example/c.jpg "))]])])
           None).
  reflexivity.
Defined.

(** X18. The images field is consulted only when output is null or
    absent: for any other output (the empty string and the empty list
    included) the result is what extraction gives on the output alone, and a
    string output is the only candidate, so that a string that does not
    normalise yields null whatever else the job holds. *)
Theorem images_ignored_when_output_is_present
    (pg : Page) (prediction : Value) (modelKey : option string) :
  get prediction "output" <> Null ->
  get prediction "output" <> Undefined ->
  extractImageUrl pg prediction modelKey
  = extractImageUrl pg (Obj [("output", get prediction "output")]) modelKey
  /\ (forall s, get prediction "output" = Str s ->
        extractImageUrl pg prediction modelKey
        = normalizeImageValue pg (Str s) modelKey)
  /\ (get prediction "output" = Arr [] ->
      extractImageUrl pg prediction modelKey = None).
Proof.
  intros Hnull Hundef.
  assert (Ht : truthy prediction = true).
  { destruct prediction; try reflexivity; simpl in Hundef; congruence. }
  assert (Hsrc : forall x,
             nullish (nullish (get prediction "output") x) Null
             = get prediction "output").
  { intros x. destruct (get prediction "output"); try reflexivity; congruence. }
  assert (Heq : extractImageUrl pg prediction modelKey
                = extractImageUrl pg
                    (Obj [("output", get prediction "output")]) modelKey).
  { unfold extractImageUrl. rewrite Ht. cbn [truthy negb get lookup].
    change (String.eqb "output" "output") with true.
    change (String.eqb "images" "output") with false. cbv iota.
    rewrite !Hsrc. reflexivity. }
  split; [exact Heq|]. split.
  - intros s Hs. unfold extractImageUrl. rewrite Ht, Hsrc, Hs. reflexivity.
  - intros Hs. unfold extractImageUrl. rewrite Ht, Hsrc, Hs. reflexivity.
Qed.

Lemma images_ignored_when_output_is_present_witness :
  extractImageUrl Fixtures.page
    (Obj [("output", Str "queued");
          ("images", Arr [Str "https://cdn.example/b.png"])]) None
  = normalizeImageValue Fixtures.page (Str "queued") None
  /\ normalizeImageValue Fixtures.page (Str "queued") None = None.
Proof.
  split; [|reflexivity].
  destruct (images_ignored_when_output_is_present Fixtures.page
              (Obj [("output", Str "queued");
                    ("images", Arr [Str "https://cdn.example/b.png"])]) None)
    as (_ & Hstring & _); [discriminate|discriminate|].
  apply Hstring. reflexivity.
Defined.

Lemma safe_extension_usable ext fallback :
  allChars isAlnum fallback = true -> isEmpty fallback = false ->
  allChars isAlnum (strOr (keepAlnum ext) fallback) = true
  /\ isEmpty (strOr (keepAlnum ext) fallback) = false.
Proof.
  intros Ha He. unfold strOr. destruct (isEmpty (keepAlnum ext)) eqn:E.
  - auto.
  - split; [apply ImageProps.keepAlnum_alnum|exact E].
Qed.

Lemma keepAlnum_fixed s : allChars isAlnum s = true -> keepAlnum s = s.
Proof.
  unfold keepAlnum. induction s as [|c r IH]; [reflexivity|].
  cbn [allChars filterChars]. intros H. apply andb_true_iff in H.
  destruct H as [Hc Hr]. rewrite Hc, (IH Hr). reflexivity.
Qed.

(** X19. The name the download button gives the file is always
    "playground-output." followed by a non-empty extension made of letters
    and digits only.  The extension is chosen first: the state's download
    extension, the default extension when that is empty, "png" when both
    are; the chosen extension is then stripped of every character that is
    not a letter or a digit, and "png" is used when nothing is left, so
    that "../we.bp" gives "playground-output.webp". *)
Theorem download_name_is_safe (st : ModelState) :
  exists chosen ext,
    Preview.downloadName st = "playground-output." ++ ext
    /\ (isEmpty (downloadExtension st) = false ->
        chosen = downloadExtension st)
    /\ (isEmpty (downloadExtension st) = true ->
        isEmpty (defaultDownloadExtension st) = false ->
        chosen = defaultDownloadExtension st)
    /\ (isEmpty (downloadExtension st) = true ->
        isEmpty (defaultDownloadExtension st) = true ->
        chosen = "png")
    /\ (isEmpty (keepAlnum chosen) = false -> ext = keepAlnum chosen)
    /\ (isEmpty (keepAlnum chosen) = true -> ext = "png")
    /\ (allChars isAlnum chosen = true -> keepAlnum chosen = chosen)
    /\ isEmpty ext = false
    /\ allChars isAlnum ext = true.
Proof.
  unfold Preview.downloadName. cbv zeta.
  exists (strOr (downloadExtension st)
            (strOr (defaultDownloadExtension st) "png")).
  eexists. split; [reflexivity|].
  destruct (safe_extension_usable
              (strOr (downloadExtension st)
                 (strOr (defaultDownloadExtension st) "png")) "png"
              eq_refl eq_refl) as [Ha He].
  split; [intros H; unfold strOr at 1; rewrite H; reflexivity|].
  split; [intros H1 H2; unfold strOr; rewrite H1, H2; reflexivity|].
  split; [intros H1 H2; unfold strOr; rewrite H1, H2; reflexivity|].
  split; [intros H; unfold strOr at 1; rewrite H; reflexivity|].
  split; [intros H; unfold strOr at 1; rewrite H; reflexivity|].
  split; [apply keepAlnum_fixed|].
  split; [exact He|exact Ha].
Qed.

Lemma download_name_is_safe_witness :
  Preview.downloadName
    {| downloadExtension := "../we.bp"; defaultDownloadExtension := "png" |}
  = "playground-output.webp".
Proof.
  destruct (download_name_is_safe
              {| downloadExtension := "../we.bp";
                 defaultDownloadExtension := "png" |})
    as (chosen & ext & Hname & Hown & _ & _ & Hkeep & _).
  cbn [downloadExtension] in Hown.
  rewrite Hname, Hkeep; rewrite (Hown eq_refl); reflexivity.
Defined.

(** A download extension without any letter or digit gives "png", not
    the default extension. *)
Example download_name_of_unusable_extension :
  Preview.downloadName
    {| downloadExtension := "..."; defaultDownloadExtension := "jpg" |}
  = "playground-output.png"
  /\ Preview.downloadName
       {| downloadExtension := EmptyString;
          defaultDownloadExtension := "jpg" |}
     = "playground-output.jpg".
Proof. split; reflexivity. Qed.

End ImageExtra.

(* ================================================================== *)
(** ** Properties of the preview aspect *)

Module AspectProps.
Import Preview.

(** On non-negative numbers the loop computes the greatest common divisor,
    given one unit of fuel per possible value of [y]. *)
Lemma gcdLoop_gcd :
  forall fuel x y,
    0 <= x -> 0 <= y -> (Z.to_nat y < fuel)%nat ->
    gcdLoop fuel x y = Some (Z.gcd x y).
Proof.
  induction fuel as [|fuel IH]; intros x y Hx Hy Hf; [lia|].
  cbn [gcdLoop]. destruct (y =? 0) eqn:E.
  - apply Z.eqb_eq in E. subst y. rewrite Z.gcd_0_r, Z.abs_eq by lia.
    reflexivity.
  - apply Z.eqb_neq in E. assert (Hpos : 0 < y) by lia.
    rewrite Z.rem_mod_nonneg by lia.
    pose proof (Z.mod_pos_bound x y Hpos) as Hm.
    rewrite IH by lia.
    f_equal. rewrite Z.gcd_comm, Z.gcd_mod by lia. apply Z.gcd_comm.
Qed.

(** X20. Given fuel beyond the magnitude of its second argument,
    [computeGcd] returns the greatest common divisor of its arguments,
    whatever their signs, and 1 when both are zero; so its result is at
    least 1 and divides both arguments. *)
Theorem computeGcd_is_gcd (fuel : nat) (a b : Z) :
  (Z.to_nat (Z.abs b) < fuel)%nat ->
  exists g,
    computeGcd fuel a b = Some g
    /\ g = (if Z.gcd a b =? 0 then 1 else Z.gcd a b)
    /\ 1 <= g
    /\ (g | a) /\ (g | b)
    /\ (a = 0 -> b = 0 -> g = 1).
Proof.
  intros Hf. unfold computeGcd.
  rewrite gcdLoop_gcd by (try apply Z.abs_nonneg; exact Hf).
  rewrite Z.gcd_abs_l, Z.gcd_abs_r. eexists. split; [reflexivity|].
  split; [reflexivity|].
  pose proof (Z.gcd_nonneg a b) as Hn.
  destruct (Z.gcd a b =? 0) eqn:E.
  - apply Z.eqb_eq in E. apply Z.gcd_eq_0 in E. destruct E as [-> ->].
    repeat split; try lia; apply Z.divide_0_r.
  - apply Z.eqb_neq in E. repeat split; try lia.
    + apply Z.gcd_divide_l.
    + apply Z.gcd_divide_r.
    + intros -> ->. rewrite Z.gcd_0_l in E. simpl in E. congruence.
Qed.

Lemma computeGcd_is_gcd_witness :
  exists g,
    computeGcd 1081 (-1920) 1080 = Some g
    /\ g = (if Z.gcd (-1920) 1080 =? 0 then 1 else Z.gcd (-1920) 1080)
    /\ 1 <= g
    /\ (g | -1920) /\ (g | 1080)
    /\ (-1920 = 0 -> 1080 = 0 -> g = 1).
Proof.
  apply (computeGcd_is_gcd 1081 (-1920) 1080). vm_compute. lia.
Defined.

Example computeGcd_examples :
  (computeGcd 20 1920 1080, computeGcd 20 0 0, computeGcd 20 0 (-7),
   computeGcd 20 9 16)
  = (Some 120, Some 1, Some 7, Some 1).
Proof. vm_compute. reflexivity. Qed.

(** X21. [normalizeAspect] always yields a usable aspect: positive width
    and height with no common divisor.  For an aspect with positive width
    and height it is that aspect in lowest terms (the ratio is kept); when
    the aspect is missing or either side is not positive it is the default
    16:9.  Normalising the result again changes nothing. *)
Theorem normalizeAspect_reduces (fuel : nat) (aspect : option Aspect) :
  (forall a, aspect = Some a -> (Z.to_nat (Z.abs (height a)) < fuel)%nat) ->
  exists r,
    normalizeAspect fuel aspect = Some r
    /\ 0 < width r /\ 0 < height r
    /\ Z.gcd (width r) (height r) = 1
    /\ (forall a, aspect = Some a -> 0 < width a -> 0 < height a ->
          width r * height a = height r * width a
          /\ (width r | width a) /\ (height r | height a))
    /\ (aspect = None
        \/ (exists a, aspect = Some a /\ (width a <= 0 \/ height a <= 0)) ->
        r = defaultPreviewAspect)
    /\ (forall fuel', (Z.to_nat (height r) < fuel')%nat ->
          normalizeAspect fuel' (Some r) = Some r).
Proof.
  intros Hfuel.
  assert (Hdefault :
            exists r,
              Some defaultPreviewAspect = Some r
              /\ 0 < width r /\ 0 < height r
              /\ Z.gcd (width r) (height r) = 1
              /\ r = defaultPreviewAspect
              /\ (forall fuel', (Z.to_nat (height r) < fuel')%nat ->
                    normalizeAspect fuel' (Some r) = Some r)).
  { exists defaultPreviewAspect. repeat split; try reflexivity.
    intros fuel' Hf. unfold normalizeAspect, normalizePositiveNumber.
    cbn [width height defaultPreviewAspect Z.ltb Z.compare].
    destruct (computeGcd_is_gcd fuel' 16 9) as (g & Hg & Heq & _).
    { simpl in Hf |- *. exact Hf. }
    rewrite Hg, Heq. reflexivity. }
  destruct aspect as [a|].
  2:{ destruct Hdefault as (r & Hr & Hw & Hh & Hg & Hd & Hi).
      exists r. cbn [normalizeAspect].
      repeat split; auto; intros; discriminate. }
  cbn [normalizeAspect]. unfold normalizePositiveNumber.
  destruct (0 <? width a) eqn:Ew.
  2:{ destruct Hdefault as (r & Hr & Hw & Hh & Hg & Hd & Hi).
      exists r. apply Z.ltb_ge in Ew.
      repeat split; auto; intros;
        match goal with
        | E : Some _ = Some _ |- _ => inversion E; subst; lia
        end. }
  destruct (0 <? height a) eqn:Eh.
  2:{ destruct Hdefault as (r & Hr & Hw & Hh & Hg & Hd & Hi).
      exists r. apply Z.ltb_ge in Eh.
      repeat split; auto; intros;
        match goal with
        | E : Some _ = Some _ |- _ => inversion E; subst; lia
        end. }
  apply Z.ltb_lt in Ew, Eh.
  destruct (computeGcd_is_gcd fuel (width a) (height a) (Hfuel a eq_refl))
    as (g & Hg & Heq & Hg1 & Hda & Hdb & _).
  rewrite Hg. clear Hdefault.
  assert (Hgcd : g = Z.gcd (width a) (height a)).
  { rewrite Heq. destruct (Z.gcd (width a) (height a) =? 0) eqn:E; [|reflexivity].
    apply Z.eqb_eq in E. apply Z.gcd_eq_0 in E. lia. }
  destruct Hda as [ka Hka]. destruct Hdb as [kb Hkb].
  assert (Hwa : width a / g = ka) by (rewrite Hka; apply Z.div_mul; lia).
  assert (Hha : height a / g = kb) by (rewrite Hkb; apply Z.div_mul; lia).
  assert (Hcop : Z.gcd ka kb = 1).
  { rewrite <- Hwa, <- Hha. apply Z.gcd_div_gcd; [lia|exact Hgcd]. }
  assert (Hkap : 0 < ka) by nia. assert (Hkbp : 0 < kb) by nia.
  exists {| width := width a / g; height := height a / g |}.
  cbn [width height]. rewrite Hwa, Hha.
  split; [reflexivity|]. split; [exact Hkap|]. split; [exact Hkbp|].
  split; [exact Hcop|]. split; [|split].
  - intros a' Ha' _ _. inversion Ha'; subst a'. split; [nia|].
    split; [exists g; lia|exists g; lia].
  - intros [Hn|(a' & Ha' & Hbad)]; [discriminate|].
    inversion Ha'; subst a'. lia.
  - intros fuel' Hf. unfold normalizeAspect, normalizePositiveNumber.
    cbn [width height].
    apply Z.ltb_lt in Hkap, Hkbp. rewrite Hkap, Hkbp.
    destruct (computeGcd_is_gcd fuel' ka kb) as (g' & Hg' & Heq' & _).
    { rewrite Z.abs_eq by (apply Z.ltb_lt in Hkbp; lia). exact Hf. }
    rewrite Hg', Heq', Hcop. cbn [Z.eqb]. rewrite !Z.div_1_r. reflexivity.
Qed.

Lemma normalizeAspect_reduces_witness :
  exists r,
    normalizeAspect 1081 (Some {| width := 1920; height := 1080 |}) = Some r
    /\ 0 < width r /\ 0 < height r
    /\ Z.gcd (width r) (height r) = 1
    /\ (forall a, Some {| width := 1920; height := 1080 |} = Some a ->
          0 < width a -> 0 < height a ->
          width r * height a = height r * width a
          /\ (width r | width a) /\ (height r | height a))
    /\ (Some {| width := 1920; height := 1080 |} = None
        \/ (exists a, Some {| width := 1920; height := 1080 |} = Some a
                      /\ (width a <= 0 \/ height a <= 0)) ->
        r = defaultPreviewAspect)
    /\ (forall fuel', (Z.to_nat (height r) < fuel')%nat ->
          normalizeAspect fuel' (Some r) = Some r).
Proof.
  apply (normalizeAspect_reduces 1081
           (Some {| width := 1920; height := 1080 |})).
  intros a Ha. inversion Ha; subst. vm_compute. lia.
Defined.

Example normalizeAspect_examples :
  (normalizeAspect 20 (Some {| width := 1920; height := 1080 |}),
   normalizeAspect 20 (Some {| width := 0; height := 9 |}),
   normalizeAspect 20 None)
  = (Some {| width := 16; height := 9 |}, Some defaultPreviewAspect,
     Some defaultPreviewAspect).
Proof. vm_compute. reflexivity. Qed.

End AspectProps.
